(** * Apartment rent calculator: generator, trainer, prediction service, form

    A shallow embedding of the four scripts of the repository
    ([data_generator.py], [train_model.py], [api.py], [app.py]) and the
    properties their specification states about them.

    Conventions.
    - Python [int] is [Z]; Python and numpy [float] values are rationals in
      [Q], a decimal literal is the rational it denotes and float arithmetic
      is exact (NaN and the rounding of each result to the nearest double
      are not represented; an infinity is represented only where a request
      body can carry one, in [Wire]).
    - [str] is [string], compared byte-wise (the code-point order of
      UTF-8 text).
    - Running Python code gives a [Py.result]: the exception raised, or
      the value returned. *)

From Stdlib Require Import ZArith QArith Qround Qminmax Qabs Lia Lqa Ascii.
From stdpp Require Import base option list strings sorting gmap.

Local Open Scope Z_scope.
Local Open Scope stdpp_scope.

(** ** Python values shared by the scripts *)

Module Py.

(** The exceptions the scripts raise or catch; [HTTPException] is
    fastapi's, the others are Python's own, as the libraries raise them. *)
Inductive exn : Type :=
| HTTPException (status_code : Z) (detail : string)
| ValueError (msg : string)
| IndexError (msg : string)
| KeyError (msg : string)
| RuntimeError (msg : string).

(** [str(e)] as used in the handlers' f-strings. *)
Definition str_exn (e : exn) : string :=
  match e with
  | HTTPException c d => d
  | ValueError m | IndexError m | KeyError m | RuntimeError m => m
  end.

(** The outcome of running Python code: a raised exception or a value. *)
Inductive result (A : Type) : Type :=
| Raise (e : exn)
| Return (a : A).
Global Arguments Raise {A} e.
Global Arguments Return {A} a.

Global Instance result_ret : MRet result := @Return.
Global Instance result_bind : MBind result := fun A B k m =>
  match m with
  | Raise e => Raise e
  | Return a => k a
  end.

Global Instance result_fmap : FMap result := fun A B f m =>
  match m with
  | Raise e => Raise e
  | Return a => Return (f a)
  end.

(** [l[i]] on a Python list or numpy array with a non-negative index. *)
Definition getitem {A} (l : list A) (i : nat) : result A :=
  match l !! i with
  | Some a => Return a
  | None => Raise (IndexError "index out of range")
  end.

(** [max(a, b)] on two numbers: the first argument unless the second is
    strictly greater. *)
Definition max (a b : Q) : Q := if Qle_bool b a then a else b.

(** *** [repr] of a [str] and [str] of a list of [str]

    The quote is the single quote unless the text has a single quote and
    no double quote; the backslash, the chosen quote, and the control
    characters are escaped. Bytes from 128 up are kept, which is what Python
    does for the UTF-8 sequences of printable characters; a character
    outside ASCII that Python counts as not printable (the no-break space,
    say) it prints as an escape, which is not modelled. *)
Fixpoint contains (c : ascii) (s : string) : bool :=
  match s with
  | EmptyString => false
  | String a s' => if Ascii.eqb a c then true else contains c s'
  end.

Definition hex_digit (n : N) : ascii :=
  Ascii.ascii_of_N (if (n <? 10)%N then 48 + n else 87 + n)%N.

Definition escape_char (quote c : ascii) : string :=
  let n := Ascii.N_of_ascii c in
  if Ascii.eqb c "\"%char then "\\"
  else if Ascii.eqb c quote then String "\"%char (String c EmptyString)
  else if (n =? 10)%N then "\n"
  else if (n =? 13)%N then "\r"
  else if (n =? 9)%N then "\t"
  else if ((n <? 32) || (n =? 127))%N
       then String "\"%char (String "x"%char
              (String (hex_digit (n / 16)) (String (hex_digit (n mod 16)) EmptyString)))
  else String c EmptyString.

Fixpoint escape (quote : ascii) (s : string) : string :=
  match s with
  | EmptyString => EmptyString
  | String c s' => escape_char quote c +:+ escape quote s'
  end.

Definition squote : ascii := Ascii.ascii_of_N 39.
Definition dquote : ascii := Ascii.ascii_of_N 34.

Definition repr (s : string) : string :=
  let q := if contains squote s && negb (contains dquote s) then dquote else squote in
  String q (escape q s +:+ String q EmptyString).

Fixpoint join (sep : string) (l : list string) : string :=
  match l with
  | [] => EmptyString
  | [x] => x
  | x :: l' => x +:+ sep +:+ join sep l'
  end.

(** [str(l)] for a list [l] of [str]: what [f"{classes_.tolist()}"] prints. *)
Definition str_list (l : list string) : string :=
  "[" +:+ join ", " (repr <$> l) +:+ "]".

(** *** [round(x, 2)] on a float

    CPython rounds the exact value of the float to two decimals, ties to
    the even neighbour, and returns the double nearest to that decimal;
    here the result is the decimal itself. *)
Definition round_half_even (x : Q) : Z :=
  let n := Qfloor x in
  match Qcompare (x - inject_Z n) (1 # 2) with
  | Lt => n
  | Gt => n + 1
  | Eq => if Z.even n then n else n + 1
  end.

Definition round2 (x : Q) : Q := Qmake (round_half_even (x * inject_Z 100)) 100.

End Py.

(** ** scikit-learn's [LabelEncoder]

    The trainer fits one encoder per categorical column and both front ends
    load and use them. Only the three methods and the attribute the scripts
    (and the specification's round trip) use are modelled:
    [fit]/[fit_transform], [transform], [inverse_transform], [classes_]. *)

Module LabelEncoder.

Record t : Type := { classes_ : list string }.

(** [fit]: the classes are the sorted distinct labels, [sorted(set(y))]. *)
Definition fit (y : list string) : t :=
  {| classes_ := merge_sort String.le (remove_dups y) |}.

(** The lookup table [{val: i for i, val in enumerate(uniques)}]: a later
    entry of a Python dict comprehension overwrites an earlier one. *)
Definition table (le : t) : gmap string nat :=
  list_to_map (reverse (imap (fun i c => (c, i)) (classes_ le))).

(** [transform]: each label is looked up in the table; an unseen label is
    a [ValueError]. *)
Fixpoint map_to_integer (tbl : gmap string nat) (y : list string) : Py.result (list Z) :=
  match y with
  | [] => mret []
  | v :: y' =>
      match tbl !! v with
      | None => Py.Raise (Py.ValueError
                  ("y contains previously unseen labels: " +:+ Py.repr v))
      | Some i => r ← map_to_integer tbl y'; mret (Z.of_nat i :: r)
      end
  end.

Definition transform (le : t) (y : list string) : Py.result (list Z) :=
  map_to_integer (table le) y.

Definition fit_transform (y : list string) : t * Py.result (list Z) :=
  let le := fit y in (le, transform le y).

(** [inverse_transform]: every code must be an index of [classes_]. (The
    text of scikit-learn's error goes on with the list of the offending
    codes.) *)
Definition valid_code (le : t) (c : Z) : bool :=
  bool_decide (0 <= c < Z.of_nat (length (classes_ le))).

Definition inverse_transform (le : t) (y : list Z) : Py.result (list string) :=
  if forallb (valid_code le) y
  then Py.Return (omap (fun c => classes_ le !! Z.to_nat c) y)
  else Py.Raise (Py.ValueError "y contains previously unseen labels").

(** [x in le.classes_] on the numpy array of classes. *)
Definition mem (x : string) (le : t) : bool := bool_decide (x ∈ classes_ le).

End LabelEncoder.

(** ** numpy's global random generator

    The generator is a state that every draw advances. The stream of raw
    outputs is a parameter of the state (the scripts never seed it); the
    reduction of a raw output into the requested range stands for numpy's
    sampling, whose contract it keeps: [randint(low, high)] is in
    [low, high) and [uniform(low, high)] is [low + (high - low) * x] for a
    sample [x] of [0, 1). *)

Module Rng.

Record state : Type := { source : nat -> N; used : nat }.

Definition advance (s : state) : state :=
  {| source := source s; used := S (used s) |}.

(** Code that draws random numbers and may raise. *)
Record gen (A : Type) : Type := Gen { run : state -> Py.result (A * state) }.
Global Arguments Gen {A} run.
Global Arguments run {A} g s.

Global Instance gen_ret : MRet gen := fun A a => Gen (fun s => Py.Return (a, s)).
Global Instance gen_bind : MBind gen := fun A B k m =>
  Gen (fun s => match run m s with
                | Py.Raise e => Py.Raise e
                | Py.Return (a, s') => run (k a) s'
                end).

Definition lift {A} (r : Py.result A) : gen A :=
  Gen (fun s => match r with
                | Py.Raise e => Py.Raise e
                | Py.Return a => Py.Return (a, s)
                end).

Definition raw : gen N := Gen (fun s => Py.Return (source s (used s), advance s)).

Fixpoint replicateM {A} (n : nat) (m : gen A) : gen (list A) :=
  match n with
  | O => mret []
  | S n' => x ← m; xs ← replicateM n' m; mret (x :: xs)
  end.

(** [size] values must not be negative. *)
Definition sized {A} (size : Z) (m : gen A) : gen (list A) :=
  if bool_decide (0 <= size) then replicateM (Z.to_nat size) m
  else lift (Py.Raise (Py.ValueError "negative dimensions are not allowed")).

Definition randint1 (low high : Z) : gen Z :=
  if bool_decide (low < high)
  then r ← raw; mret (low + Z.of_N r mod (high - low))
  else lift (Py.Raise (Py.ValueError "low >= high")).

(** [np.random.randint(low, high, size)]. *)
Definition randint (low high size : Z) : gen (list Z) := sized size (randint1 low high).

Definition random_sample : gen Q :=
  r ← raw; mret (Qmake (Z.of_N r mod 2 ^ 53) (2 ^ 53)).

(** [np.random.uniform(low, high)]. *)
Definition uniform1 (low high : Q) : gen Q :=
  x ← random_sample; mret (low + (high - low) * x)%Q.

(** [np.random.uniform(low, high, size)]. *)
Definition uniform (low high : Q) (size : Z) : gen (list Q) := sized size (uniform1 low high).

(** [np.random.choice(a, size)]: uniform indices into [a]. *)
Definition choice {A} (a : list A) (size : Z) : gen (list A) :=
  idx ← randint 0 (Z.of_nat (length a)) size;
  mapM (fun i => lift (Py.getitem a (Z.to_nat i))) idx.

End Rng.

(** ** [data_generator.py]

    [generate_apartment_data] creates a [Faker] it never uses; the main
    block writes the table to [apartment_data.csv], which the trainer reads
    back. *)

Module DataGenerator.
Import Rng.

(** One line of [apartment_data.csv]. *)
Record row : Type := {
  rooms : Z;
  bathrooms : Z;
  total_surface : Q;
  building_age : Z;
  floor_material : string;
  style : string;
  monthly_rent : Q
}.

(** The dict [data] of columns. *)
Record columns : Type := {
  col_rooms : list Z;
  col_bathrooms : list Z;
  col_total_surface : list Q;
  col_building_age : list Z;
  col_floor_material : list string;
  col_style : list string;
  col_monthly_rent : list Q
}.

Definition floor_materials : list string :=
  ["Hardwood"; "Carpet"; "Tile"; "Laminate"; "Vinyl"].
Definition styles : list string :=
  ["Modern"; "Contemporary"; "Traditional"; "Industrial"; "Minimalist"].

(** [data['monthly_rent'].append(v)]. *)
Definition append_rent (data : columns) (v : Q) : columns :=
  {| col_rooms := col_rooms data;
     col_bathrooms := col_bathrooms data;
     col_total_surface := col_total_surface data;
     col_building_age := col_building_age data;
     col_floor_material := col_floor_material data;
     col_style := col_style data;
     col_monthly_rent := col_monthly_rent data ++ [v] |}.

(** The rent before the random variation, as the loop body accumulates it. *)
Definition base_rent (r b : Z) (s : Q) (a : Z) : Q :=
  (inject_Z (1000 + r * 300 + b * 200) + s * inject_Z 10 - inject_Z (a * 10))%Q.

(** The body of [for i in range(n_samples)], over the remaining indices. *)
Fixpoint rent_loop (data : columns) (indices : list nat) : gen columns :=
  match indices with
  | [] => mret data
  | i :: rest =>
      r ← lift (Py.getitem (col_rooms data) i);
      b ← lift (Py.getitem (col_bathrooms data) i);
      s ← lift (Py.getitem (col_total_surface data) i);
      a ← lift (Py.getitem (col_building_age data) i);
      u ← uniform1 (8 # 10) (12 # 10);
      rent_loop (append_rent data (Py.max (base_rent r b s a * u)%Q (inject_Z 500))) rest
  end.

(** [pd.DataFrame(data)]: the rows of the table, when all columns have the
    same length. *)
Fixpoint zip_rows (r b : list Z) (s : list Q) (a : list Z)
    (f st : list string) (m : list Q) : option (list row) :=
  match r, b, s, a, f, st, m with
  | [], [], [], [], [], [], [] => Some []
  | r0 :: r', b0 :: b', s0 :: s', a0 :: a', f0 :: f', st0 :: st', m0 :: m' =>
      rows ← zip_rows r' b' s' a' f' st' m';
      Some ({| rooms := r0; bathrooms := b0; total_surface := s0; building_age := a0;
               floor_material := f0; style := st0; monthly_rent := m0 |} :: rows)
  | _, _, _, _, _, _, _ => None
  end.

Definition DataFrame (data : columns) : Py.result (list row) :=
  match zip_rows (col_rooms data) (col_bathrooms data) (col_total_surface data)
          (col_building_age data) (col_floor_material data) (col_style data)
          (col_monthly_rent data) with
  | Some rows => Py.Return rows
  | None => Py.Raise (Py.ValueError "All arrays must be of the same length")
  end.

(** [range(n)]: empty when [n] is negative. *)
Definition range (n : Z) : list nat := seq 0 (Z.to_nat n).

Definition generate_apartment_data (n_samples : Z) : gen (list row) :=
  c_rooms ← randint 1 6 n_samples;
  c_bathrooms ← randint 1 4 n_samples;
  c_surface ← uniform (inject_Z 30) (inject_Z 200) n_samples;
  c_age ← randint 0 50 n_samples;
  c_floor ← choice floor_materials n_samples;
  c_style ← choice styles n_samples;
  let data := {| col_rooms := c_rooms; col_bathrooms := c_bathrooms;
                 col_total_surface := c_surface; col_building_age := c_age;
                 col_floor_material := c_floor; col_style := c_style;
                 col_monthly_rent := [] |} in
  data ← rent_loop data (range n_samples);
  lift (DataFrame data).

End DataGenerator.

(** ** The statistical libraries

    The random forest, the seeded shuffle of [train_test_split] and the
    conformal wrapper are external collaborators: the scripts only call
    them. Their operations are the fields of a class; a fitted regressor and
    the calibration data the wrapper learns are opaque values. *)

Class Learning : Type := {
  Regressor : Type;
  Calibration : Type;
  (** The permutation of [range(n)] drawn under [random_state]. *)
  shuffle : Z -> nat -> list nat;
  (** [RandomForestRegressor(n_estimators, random_state).fit(X, y)]. *)
  forest_fit : Z -> Z -> list (list Q) -> list Q -> Py.result Regressor;
  (** [MapieRegressor.fit(X, y)] around an estimator that is already
      fitted: the conformity scores of that estimator on [(X, y)]. *)
  calibrate : Regressor -> list (list Q) -> list Q -> Py.result Calibration;
  (** [MapieRegressor.fit(X, y)] in the other modes, which fit estimators
      of their own. *)
  cross_fit : string -> string -> Z -> Regressor -> list (list Q) -> list Q ->
              Py.result (Regressor * Calibration);
  (** [MapieRegressor.predict(X, alpha=a)]: the predictions, of shape
      [(n,)], and the intervals, of shape [(n, 2, 1)]. *)
  interval_predict : Regressor -> Calibration -> list (list Q) -> Q ->
                     Py.result (list Q * list (list (list Q)))
}.

(** The conformal wrapper as the trainer configures it. *)
Module Mapie.
Section Mapie.
Context `{Learning}.

Record t : Type := {
  estimator : Regressor;
  method : string;
  cv : string;
  random_state : Z;
  calibration : option Calibration
}.

Definition MapieRegressor (estimator : Regressor) (method cv : string)
    (random_state : Z) : t :=
  {| estimator := estimator; method := method; cv := cv;
     random_state := random_state; calibration := None |}.

Definition fit (m : t) (X : list (list Q)) (y : list Q) : Py.result t :=
  if bool_decide (cv m = "prefit")
  then c ← calibrate (estimator m) X y;
       mret {| estimator := estimator m; method := method m; cv := cv m;
               random_state := random_state m; calibration := Some c |}
  else '(e, c) ← cross_fit (method m) (cv m) (random_state m) (estimator m) X y;
       mret {| estimator := e; method := method m; cv := cv m;
               random_state := random_state m; calibration := Some c |}.

(** A wrapper that was never fitted raises (in the library a
    [NotFittedError], whose text goes on after these words). *)
Definition predict (m : t) (X : list (list Q)) (alpha : Q)
    : Py.result (list Q * list (list (list Q))) :=
  match calibration m with
  | Some c => interval_predict (estimator m) c X alpha
  | None => Py.Raise (Py.RuntimeError "This MapieRegressor instance is not fitted yet")
  end.
End Mapie.
End Mapie.

(** A table row as named numeric columns, and the selection [df[features]]
    of columns by name, in the order of the names. A missing column is a
    [KeyError]; its text is that of the lookup of one column (for a list of
    names pandas words it differently). *)
Module Frame.
Definition record : Type := list (string * Q).

Definition column (r : record) (name : string) : Py.result Q :=
  match list_find (fun kv => kv.1 = name) r with
  | Some (_, kv) => Py.Return kv.2
  | None => Py.Raise (Py.KeyError (Py.repr name))
  end.

Definition select (names : list string) (r : record) : Py.result (list Q) :=
  mapM (column r) names.
End Frame.

(** ** [train_model.py]

    The script reads the table, fits and persists the artifacts, and prints
    the mean squared error, the R2 score and the empirical coverage of the
    held-out predictions; the printed figures are not computed here. *)

Module Trainer.
Section Trainer.
Context `{Learning}.

Definition features : list string :=
  ["rooms"; "bathrooms"; "total_surface"; "building_age";
   "floor_material_encoded"; "style_encoded"].

(** A row of [df] after the two encoded columns are added. *)
Definition encoded_row (r : DataGenerator.row) (floor_code style_code : Z) : Frame.record :=
  [("rooms", inject_Z (DataGenerator.rooms r));
   ("bathrooms", inject_Z (DataGenerator.bathrooms r));
   ("total_surface", DataGenerator.total_surface r);
   ("building_age", inject_Z (DataGenerator.building_age r));
   ("monthly_rent", DataGenerator.monthly_rent r);
   ("floor_material_encoded", inject_Z floor_code);
   ("style_encoded", inject_Z style_code)].

Fixpoint zip3 (rows : list DataGenerator.row) (fc sc : list Z) : Py.result (list Frame.record) :=
  match rows, fc, sc with
  | [], [], [] => mret []
  | r :: rows', f :: fc', s :: sc' =>
      rest ← zip3 rows' fc' sc'; mret (encoded_row r f s :: rest)
  | _, _, _ => Py.Raise (Py.ValueError "Length of values does not match length of index")
  end.

(** [train_test_split(X, y, test_size, random_state)]: the number of
    held-out rows is [ceil(test_size * n)], the rest train; the first
    indices of the shuffle are held out. *)
Definition n_test (test_size : Q) (n : nat) : nat :=
  Z.to_nat (Qceiling (test_size * inject_Z (Z.of_nat n))).

Definition take_rows {A} (l : list A) (indices : list nat) : Py.result (list A) :=
  mapM (Py.getitem l) indices.

Definition train_test_split {A B} (X : list A) (y : list B) (test_size : Q)
    (random_state : Z) : Py.result (list A * list A * list B * list B) :=
  let n := length X in
  let nt := n_test test_size n in
  let ntrain := (n - nt)%nat in
  if bool_decide (ntrain = 0%nat)
  then Py.Raise (Py.ValueError "the resulting train set will be empty")
  else
    let perm := shuffle random_state n in
    let ind_test := take nt perm in
    let ind_train := take ntrain (drop nt perm) in
    X_train ← take_rows X ind_train;
    X_test ← take_rows X ind_test;
    y_train ← take_rows y ind_train;
    y_test ← take_rows y ind_test;
    mret (X_train, X_test, y_train, y_test).

(** What a run leaves behind: the four persisted artifacts, and the
    subsets and held-out predictions the evaluation prints are computed
    from. *)
Record outcome : Type := {
  le_floor : LabelEncoder.t;
  le_style : LabelEncoder.t;
  rent_model : Regressor;
  conformal_model : Mapie.t;
  X_train : list (list Q);
  X_test : list (list Q);
  y_train : list Q;
  y_test : list Q;
  y_pred : list Q;
  y_pis : list (list (list Q))
}.

Definition train_model (df : list DataGenerator.row) : Py.result outcome :=
  let '(le_floor, floor_codes) :=
    LabelEncoder.fit_transform (DataGenerator.floor_material <$> df) in
  let '(le_style, style_codes) :=
    LabelEncoder.fit_transform (DataGenerator.style <$> df) in
  floor_codes ← floor_codes;
  style_codes ← style_codes;
  df ← zip3 df floor_codes style_codes;
  X ← mapM (Frame.select features) df;
  y ← mapM (fun r => Frame.column r "monthly_rent") df;
  '(X_train, X_test, y_train, y_test) ← train_test_split X y (2 # 10) 42;
  base_model ← forest_fit 100 42 X_train y_train;
  let mapie := Mapie.MapieRegressor base_model "plus" "prefit" 42 in
  mapie ← Mapie.fit mapie X_train y_train;
  '(y_pred, y_pis) ← Mapie.predict mapie X_test (5 # 100);
  mret {| le_floor := le_floor; le_style := le_style;
          rent_model := base_model; conformal_model := mapie;
          X_train := X_train; X_test := X_test;
          y_train := y_train; y_test := y_test;
          y_pred := y_pred; y_pis := y_pis |}.
End Trainer.
End Trainer.

(** ** Observable effects of the two front ends

    A run of a handler or of the form script yields an outcome and the
    trace of what it did to the outside: calls of the conformal wrapper,
    log lines, and the streamlit elements it emitted. *)

Module Io.

Record box : Type := {
  q1 : Q; median : Q; q3 : Q; lowerfence : Q; upperfence : Q; mean : Q
}.

Inductive event : Type :=
| ModelPredict (X : list (list Q)) (alpha : Q)
| LoggerError (msg : string)
| StWarning (msg : string)
| StSessionState (last_prediction : list (string * (Q + string)))
| StExpander (title : string)
| StError (msg : string)
| StWrite (label : string)
| StMetric (label : string) (value : Q) (delta : option Q)
| StPlotlyChart (trace : box) (range_low range_high : Q).

Record io (A : Type) : Type := Io { outcome : Py.result A; trace : list event }.
Global Arguments Io {A} outcome trace.
Global Arguments outcome {A} i.
Global Arguments trace {A} i.

Global Instance io_ret : MRet io := fun A a => Io (Py.Return a) [].
Global Instance io_bind : MBind io := fun A B k m =>
  match outcome m with
  | Py.Raise e => Io (Py.Raise e) (trace m)
  | Py.Return a => Io (outcome (k a)) (trace m ++ trace (k a))
  end.

Definition lift {A} (r : Py.result A) : io A := Io r [].
Definition raise {A} (e : Py.exn) : io A := Io (Py.Raise e) [].
Definition emit (e : event) : io unit := Io (Py.Return tt) [e].

Definition try_except {A} (body : io A) (handler : Py.exn -> io A) : io A :=
  match outcome body with
  | Py.Raise e => Io (outcome (handler e)) (trace body ++ trace (handler e))
  | Py.Return a => body
  end.

(** [conformal_model.predict(X, alpha=alpha)]. *)
Definition model_predict `{Learning} (m : Mapie.t) (X : list (list Q)) (alpha : Q)
    : io (list Q * list (list (list Q))) :=
  _ ← emit (ModelPredict X alpha); lift (Mapie.predict m X alpha).

(** [a[i, j, k]] on a three-dimensional array. *)
Definition getitem3 {A} (a : list (list (list A))) (i j k : nat) : Py.result A :=
  x ← Py.getitem a i; y ← Py.getitem x j; Py.getitem y k.

End Io.

(** The four artifacts both front ends load at start-up. *)
Record artifacts `{Learning} : Type := {
  model : Regressor;
  conformal_model : Mapie.t;
  le_floor : LabelEncoder.t;
  le_style : LabelEncoder.t
}.

(** ** [api.py] *)

Module Api.
Import Io.

(** A numeric [Field(..., ge=, le=)] of the request model. *)
Record Field : Type := { ge : Q; le : Q; description : string }.

Definition rooms_field : Field :=
  {| ge := inject_Z 1; le := inject_Z 5; description := "Number of rooms (1-5)" |}.
Definition bathrooms_field : Field :=
  {| ge := inject_Z 1; le := inject_Z 3; description := "Number of bathrooms (1-3)" |}.
Definition total_surface_field : Field :=
  {| ge := inject_Z 30; le := inject_Z 200;
     description := "Total surface in square meters (30-200)" |}.
Definition building_age_field : Field :=
  {| ge := inject_Z 0; le := inject_Z 50; description := "Building age in years (0-50)" |}.

(** The request body as the handler receives it: every field present and
    of its declared type, the surface a finite float. (What the service
    does with a surface that is read as an infinity is in [Wire] below.) *)
Record ApartmentFeatures : Type := {
  rooms : Z;
  bathrooms : Z;
  total_surface : Q;
  building_age : Z;
  floor_material : string;
  style : string
}.

(** One entry of the error list pydantic reports: where, which
    constraint, and the bound of the constraint. *)
Inductive constraint : Type := greater_than_equal | less_than_equal.

Record validation_error : Type := {
  loc : list string;
  type_ : constraint;
  ctx : Q
}.

Definition check_field (name : string) (f : Field) (v : Q) : list validation_error :=
  if negb (Qle_bool (ge f) v)
  then [{| loc := ["body"; name]; type_ := greater_than_equal; ctx := ge f |}]
  else if negb (Qle_bool v (le f))
  then [{| loc := ["body"; name]; type_ := less_than_equal; ctx := le f |}]
  else [].

(** Validation of the body against the model, field by field in
    declaration order; the two [str] fields carry no constraint. *)
Definition validate (b : ApartmentFeatures) : list validation_error :=
  check_field "rooms" rooms_field (inject_Z (rooms b))
  ++ check_field "bathrooms" bathrooms_field (inject_Z (bathrooms b))
  ++ check_field "total_surface" total_surface_field (total_surface b)
  ++ check_field "building_age" building_age_field (inject_Z (building_age b)).

Record interval : Type := { lower : Q; upper : Q }.

Record prediction : Type := {
  predicted_rent : Q;
  confidence_interval : interval;
  confidence_level : string;
  currency : string;
  features : ApartmentFeatures
}.

Record bounds : Type := { min : Z; max : Z }.

Record info_features : Type := {
  info_rooms : bounds;
  info_bathrooms : bounds;
  info_total_surface : bounds;
  info_building_age : bounds;
  floor_materials : list string;
  styles : list string
}.

Record info : Type := { model_type : string; info_of : info_features }.

Section Handlers.
Context `{Learning}.
Variable loaded : artifacts.

Definition predict_rent (features : ApartmentFeatures) : io prediction :=
  try_except
    (if negb (LabelEncoder.mem (floor_material features) (le_floor loaded))
     then raise (Py.HTTPException 400
            ("Invalid floor_material. Valid values are: "
             +:+ Py.str_list (LabelEncoder.classes_ (le_floor loaded))))
     else if negb (LabelEncoder.mem (style features) (le_style loaded))
     then raise (Py.HTTPException 400
            ("Invalid style. Valid values are: "
             +:+ Py.str_list (LabelEncoder.classes_ (le_style loaded))))
     else
       floor_encoded ← lift (codes ← LabelEncoder.transform (le_floor loaded)
                                        [floor_material features];
                             Py.getitem codes 0);
       style_encoded ← lift (codes ← LabelEncoder.transform (le_style loaded)
                                        [style features];
                             Py.getitem codes 0);
       let features_array :=
         [[inject_Z (rooms features);
           inject_Z (bathrooms features);
           total_surface features;
           inject_Z (building_age features);
           inject_Z floor_encoded;
           inject_Z style_encoded]] in
       '(prediction, prediction_intervals) ←
         model_predict (conformal_model loaded) features_array (5 # 100);
       p ← lift (Py.getitem prediction 0);
       lo ← lift (getitem3 prediction_intervals 0 0 0);
       up ← lift (getitem3 prediction_intervals 0 1 0);
       mret {| predicted_rent := Py.round2 p;
               confidence_interval := {| lower := Py.round2 lo; upper := Py.round2 up |};
               confidence_level := "95%";
               currency := "USD";
               features := features |})
    (fun e =>
       match e with
       | Py.HTTPException _ _ => raise e
       | _ => _ ← emit (LoggerError ("Prediction error: " +:+ Py.str_exn e));
              raise (Py.HTTPException 500 ("Prediction error: " +:+ Py.str_exn e))
       end).

Definition model_info : info :=
  {| model_type := "RandomForestRegressor";
     info_of :=
       {| info_rooms := {| min := 1; max := 5 |};
          info_bathrooms := {| min := 1; max := 3 |};
          info_total_surface := {| min := 30; max := 200 |};
          info_building_age := {| min := 0; max := 50 |};
          floor_materials := LabelEncoder.classes_ (le_floor loaded);
          styles := LabelEncoder.classes_ (le_style loaded) |} |}.

(** *** The routes as the framework serves them

    The application registers no exception handler of its own, so
    fastapi's defaults apply: a body that fails validation is answered
    with status 422 and the list of errors without the handler being
    called; an [HTTPException] becomes a response with its status and
    detail; a returned value becomes a 200 response. *)
Inductive content : Type :=
| JsonPrediction (p : prediction)
| JsonInfo (i : info)
| JsonDetail (detail : string)
| JsonErrors (detail : list validation_error).

Record response : Type := { status_code : Z; body : content }.

Definition respond (r : Py.result content) : response :=
  match r with
  | Py.Return c => {| status_code := 200; body := c |}
  | Py.Raise (Py.HTTPException s d) => {| status_code := s; body := JsonDetail d |}
  | Py.Raise _ => {| status_code := 500; body := JsonDetail "Internal Server Error" |}
  end.

Definition post_predict (b : ApartmentFeatures) : io response :=
  match validate b with
  | [] => let run := predict_rent b in
          Io (Py.Return (respond (JsonPrediction <$> outcome run))) (trace run)
  | errors => mret {| status_code := 422; body := JsonErrors errors |}
  end.

Definition get_info : io response :=
  mret {| status_code := 200; body := JsonInfo model_info |}.
End Handlers.
End Api.

(** ** The request body on the wire

    [total_surface] is declared [float], and Python's JSON parser reads a
    number too large for a double as an infinity: the literal [1e400] is
    [inf]. An infinity violates a bound of the field, and the validation
    error the framework builds echoes the offending input. The JSON encoder
    of the response refuses a float that is not finite, so the 422 answer
    cannot be written: the framework's error handler fails and the server
    answers with its own 500. The handler is not called.

    A finite surface is the number the parser read, whatever the other
    fields are. (The literal [NaN], which is outside the JSON grammar but
    which the parser accepts, is not represented.) *)

Module Wire.

Inductive number : Type :=
| Finite (q : Q)
| Infinity (negative : bool).

Record body : Type := {
  rooms : Z;
  bathrooms : Z;
  total_surface : number;
  building_age : Z;
  floor_material : string;
  style : string
}.

(** The request model built from a body whose surface is the finite [q]. *)
Definition parsed (b : body) (q : Q) : Api.ApartmentFeatures := {|
  Api.rooms := rooms b;
  Api.bathrooms := bathrooms b;
  Api.total_surface := q;
  Api.building_age := building_age b;
  Api.floor_material := floor_material b;
  Api.style := style b
|}.

(** The body that carries the values of a request model. *)
Definition sent (f : Api.ApartmentFeatures) : body := {|
  rooms := Api.rooms f;
  bathrooms := Api.bathrooms f;
  total_surface := Finite (Api.total_surface f);
  building_age := Api.building_age f;
  floor_material := Api.floor_material f;
  style := Api.style f
|}.

(** What the client receives: a response of the application, or the
    server's own [500 Internal Server Error]. *)
Inductive answer : Type :=
| Answer (r : Api.response)
| ServerError.

Definition status_code (a : answer) : Z :=
  match a with
  | Answer r => Api.status_code r
  | ServerError => 500
  end.

Definition post_predict `{Learning} (loaded : artifacts) (b : body) : Io.io answer :=
  match total_surface b with
  | Finite q =>
      let run := Api.post_predict loaded (parsed b q) in
      Io.Io (Answer <$> Io.outcome run) (Io.trace run)
  | Infinity _ => mret ServerError
  end.

End Wire.

(** ** [app.py]

    Streamlit runs the script from top to bottom on every interaction; the
    values of the widgets are its input. The elements of page chrome (title,
    captions, style sheet, footer) are left out of the trace. A number shown
    through a format with two decimals is recorded as the number rounded to
    two decimals. *)

Module App.
Import Io.

(** What the widgets return: [number_input] with integer limits yields
    an [int], the select boxes one of their options, the button whether
    it was pressed in this run. *)
Record widgets : Type := {
  rooms : Z;
  bathrooms : Z;
  total_surface : Z;
  building_age : Z;
  floor_material : string;
  style : string;
  calculate : bool
}.

Definition surface_warning : string :=
  "⚠️ The total surface seems too small for the number of rooms.".
Definition bathrooms_warning : string :=
  "⚠️ The number of bathrooms is unusually high for the number of rooms.".

Definition features : list string :=
  ["rooms"; "bathrooms"; "total_surface"; "building_age";
   "floor_material_encoded"; "style_encoded"].

Definition when (b : bool) (m : io unit) : io unit := if b then m else mret tt.

Section Script.
Context `{Learning}.
Variable models : artifacts.

Definition on_calculate (w : widgets) : io unit :=
  _ ← emit (StSessionState
         [("rooms", inl (inject_Z (rooms w)));
          ("bathrooms", inl (inject_Z (bathrooms w)));
          ("total_surface", inl (inject_Z (total_surface w)));
          ("building_age", inl (inject_Z (building_age w)));
          ("floor_material", inr (floor_material w));
          ("style", inr (style w))]);
  floor_encoded ← lift (codes ← LabelEncoder.transform (le_floor models)
                                   [floor_material w];
                        Py.getitem codes 0);
  style_encoded ← lift (codes ← LabelEncoder.transform (le_style models)
                                   [style w];
                        Py.getitem codes 0);
  let input_data : Frame.record :=
    [("rooms", inject_Z (rooms w));
     ("bathrooms", inject_Z (bathrooms w));
     ("total_surface", inject_Z (total_surface w));
     ("building_age", inject_Z (building_age w));
     ("floor_material_encoded", inject_Z floor_encoded);
     ("style_encoded", inject_Z style_encoded)] in
  input_data ← lift (Frame.select features input_data);
  '(prediction, prediction_intervals) ←
    try_except
      (r ← model_predict (conformal_model models) [input_data] (5 # 100);
       _ ← emit (StExpander "🔍 Debug Information");
       _ ← emit (StWrite "Input Features:");
       _ ← emit (StWrite "Feature Names:");
       _ ← emit (StWrite "Prediction Shape:");
       _ ← emit (StWrite "Intervals Shape:");
       mret r)
      (fun e =>
         _ ← emit (StError ("Prediction Error: " +:+ Py.str_exn e));
         _ ← emit (StWrite "Input Data:");
         raise e);
  lower_bound ← lift (getitem3 prediction_intervals 0 0 0);
  upper_bound ← lift (getitem3 prediction_intervals 0 1 0);
  point_estimate ← lift (Py.getitem prediction 0);
  _ ← emit (StMetric "Lower Bound" (Py.round2 lower_bound)
              (Some (Py.round2 (lower_bound - point_estimate))));
  _ ← emit (StMetric "Best Estimate" (Py.round2 point_estimate) None);
  _ ← emit (StMetric "Upper Bound" (Py.round2 upper_bound)
              (Some (Py.round2 (upper_bound - point_estimate))));
  _ ← emit (StPlotlyChart
              {| q1 := lower_bound; median := point_estimate; q3 := upper_bound;
                 lowerfence := lower_bound; upperfence := upper_bound;
                 mean := point_estimate |}
              (lower_bound - (upper_bound - lower_bound) * (1 # 10))
              (upper_bound + (upper_bound - lower_bound) * (1 # 10)));
  emit (StExpander "📊 Detailed Analysis").

Definition script (w : widgets) : io unit :=
  _ ← when (bool_decide (total_surface w < rooms w * 15)) (emit (StWarning surface_warning));
  _ ← when (bool_decide (bathrooms w > rooms w)) (emit (StWarning bathrooms_warning));
  if calculate w then on_calculate w else mret tt.
End Script.
End App.

(** ** Vocabulary of the statements *)

(** [yields m P]: from every generator state, [m] returns without raising,
    and what it returns satisfies [P]. *)
Definition yields {A} (m : Rng.gen A) (P : A -> Prop) : Prop :=
  ∀ s, ∃ a s', Rng.run m s = Py.Return (a, s') ∧ P a.

(** The generator state [s] after [k] more draws. *)
Definition later (k : nat) (s : Rng.state) : Rng.state :=
  {| Rng.source := Rng.source s; Rng.used := k + Rng.used s |}.

(** [m], run once [k] numbers were drawn from [s] on, draws one number
    and returns [a]. *)
Definition draws_at {A} (m : Rng.gen A) (s : Rng.state) (k : nat) (a : A) : Prop :=
  Rng.run m (later k s) = Py.Return (a, later (S k) s).

(** Code that draws exactly one number, whatever the state. *)
Definition single_draw {A} (m : Rng.gen A) : Prop :=
  ∀ s, ∃ a, Rng.run m s = Py.Return (a, later 1 s).

(** A generator state whose raw outputs are 3, 10, 17, and so on. *)
Definition stepping_state : Rng.state :=
  {| Rng.source := fun i => N.of_nat (7 * i + 3); Rng.used := 0 |}.

(** What the generator's loop appends for the row at index [i] of the
    columns. *)
Definition rent_at (data : DataGenerator.columns) (i : nat) (x : Q) : Prop :=
  ∃ r b s a u,
    DataGenerator.col_rooms data !! i = Some r
    ∧ DataGenerator.col_bathrooms data !! i = Some b
    ∧ DataGenerator.col_total_surface data !! i = Some s
    ∧ DataGenerator.col_building_age data !! i = Some a
    ∧ (8 # 10 <= u)%Q ∧ (u <= 12 # 10)%Q
    ∧ x = Py.max (DataGenerator.base_rent r b s a * u) (inject_Z 500).

Definition same_features (d d' : DataGenerator.columns) : Prop :=
  DataGenerator.col_rooms d' = DataGenerator.col_rooms d
  ∧ DataGenerator.col_bathrooms d' = DataGenerator.col_bathrooms d
  ∧ DataGenerator.col_total_surface d' = DataGenerator.col_total_surface d
  ∧ DataGenerator.col_building_age d' = DataGenerator.col_building_age d
  ∧ DataGenerator.col_floor_material d' = DataGenerator.col_floor_material d
  ∧ DataGenerator.col_style d' = DataGenerator.col_style d.

(** The facts about one generated row that the statements draw on. *)
Definition generated_row (row : DataGenerator.row) : Prop :=
  1 <= DataGenerator.rooms row < 6 ∧ 1 <= DataGenerator.bathrooms row < 4
  ∧ (inject_Z 30 <= DataGenerator.total_surface row)%Q
  ∧ (DataGenerator.total_surface row <= inject_Z 200)%Q
  ∧ 0 <= DataGenerator.building_age row < 50
  ∧ DataGenerator.floor_material row ∈ DataGenerator.floor_materials
  ∧ DataGenerator.style row ∈ DataGenerator.styles
  ∧ ∃ u, (8 # 10 <= u)%Q ∧ (u <= 12 # 10)%Q
         ∧ DataGenerator.monthly_rent row
           = Py.max (DataGenerator.base_rent (DataGenerator.rooms row)
                       (DataGenerator.bathrooms row) (DataGenerator.total_surface row)
                       (DataGenerator.building_age row) * u) (inject_Z 500).

(** The rent of a row as the specification words it, for the factor [u]. *)
Definition specified_rent (row : DataGenerator.row) (u : Q) : Q :=
  Qmax (inject_Z 500)
    ((inject_Z 1000 + inject_Z 300 * inject_Z (DataGenerator.rooms row)
      + inject_Z 200 * inject_Z (DataGenerator.bathrooms row)
      + inject_Z 10 * DataGenerator.total_surface row
      - inject_Z 10 * inject_Z (DataGenerator.building_age row)) * u)%Q.

(** A generator state whose raw outputs are all [c]. *)
Definition constant_state (c : N) : Rng.state := {| Rng.source := fun _ => c; Rng.used := 0 |}.

(** Whether the one-row table generated from [constant_state c] has [v] in
    the column [col]. *)
Definition one_row_has (col : DataGenerator.row -> Z) (c : N) (v : Z) : bool :=
  match Rng.run (DataGenerator.generate_apartment_data 1) (constant_state c) with
  | Py.Return ([row], _) => bool_decide (col row = v)
  | _ => false
  end.

(** [needle] occurs in [text]. *)
Definition occurs_in (needle text : string) : Prop :=
  ∃ before after, text = before +:+ needle +:+ after.

(** The calls of the conformal wrapper in a trace, with their arguments. *)
Definition model_calls (t : list Io.event) : list (list (list Q) * Q) :=
  omap (fun e => match e with Io.ModelPredict X alpha => Some (X, alpha) | _ => None end) t.

Definition is_warning (e : Io.event) : Prop :=
  match e with Io.StWarning _ => True | _ => False end.

(** The encoded feature vector, in the column order
    (rooms, bathrooms, total_surface, building_age, floor_material_encoded,
    style_encoded). *)
Definition feature_vector (rooms bathrooms : Z) (total_surface : Q)
    (building_age floor_code style_code : Z) : list Q :=
  [inject_Z rooms; inject_Z bathrooms; total_surface; inject_Z building_age;
   inject_Z floor_code; inject_Z style_code].

(** The numeric part of the [/info] answer. *)
Definition numeric_bounds (i : Api.info) : Api.bounds * Api.bounds * Api.bounds * Api.bounds :=
  (Api.info_rooms (Api.info_of i), Api.info_bathrooms (Api.info_of i),
   Api.info_total_surface (Api.info_of i), Api.info_building_age (Api.info_of i)).

(** A value computed from the loaded artifacts is read from them when some
    change of artifacts changes it; a value written in the code is the same
    for all artifacts. *)
Definition depends_on_artifacts `{Learning} {A} (f : artifacts -> A) : Prop :=
  ∃ a a', f a ≠ f a'.

(** A run that emits no warning. *)
Definition quiet {A} (m : Io.io A) : Prop :=
  Forall (fun e => ¬ is_warning e) (Io.trace m).

(** The body the service receives for the values of the form's widgets. *)
Definition body_of (w : App.widgets) : Api.ApartmentFeatures := {|
  Api.rooms := App.rooms w;
  Api.bathrooms := App.bathrooms w;
  Api.total_surface := inject_Z (App.total_surface w);
  Api.building_age := App.building_age w;
  Api.floor_material := App.floor_material w;
  Api.style := App.style w
|}.

(** [x] is the encoded feature vector of the table row [row] under the two
    encoders. *)
Definition encoded_as (floor_encoder style_encoder : LabelEncoder.t)
    (row : DataGenerator.row) (x : list Q) : Prop :=
  ∃ fc sc,
    LabelEncoder.transform floor_encoder [DataGenerator.floor_material row] = Py.Return [fc]
    ∧ LabelEncoder.transform style_encoder [DataGenerator.style row] = Py.Return [sc]
    ∧ x = feature_vector (DataGenerator.rooms row) (DataGenerator.bathrooms row)
            (DataGenerator.total_surface row) (DataGenerator.building_age row) fc sc.

(** [X] and [y] are the encoded feature vectors and the rents of the rows of
    [df] at the positions [indices], in the order of [indices]: the vector
    and the rent at a position come from the same row. *)
Definition subset_at (floor_encoder style_encoder : LabelEncoder.t)
    (df : list DataGenerator.row) (indices : list nat)
    (X : list (list Q)) (y : list Q) : Prop :=
  length X = length indices ∧ length y = length indices
  ∧ ∀ k i, indices !! k = Some i ->
      ∃ row x, df !! i = Some row
               ∧ X !! k = Some x ∧ encoded_as floor_encoder style_encoder row x
               ∧ y !! k = Some (DataGenerator.monthly_rent row).

(** A stand-in for the statistical libraries, to run the scripts on: the
    regressor predicts the mean of the labels it was fitted on, the shuffle
    reverses the rows, and the calibration is the largest absolute residual,
    taken off and added to the prediction alike. *)
Module MeanLearning.
Definition mean (y : list Q) : Q :=
  (foldr Qplus 0 y / inject_Z (Z.of_nat (length y)))%Q.

Definition largest_residual (m : Q) (y : list Q) : Q :=
  foldr (fun v acc => Py.max (Qabs (v - m)) acc) 0%Q y.

Definition learning : Learning := {|
  Regressor := Q;
  Calibration := Q;
  shuffle := fun _ n => reverse (seq 0 n);
  forest_fit := fun _ _ X y =>
    match X with
    | [] => Py.Raise (Py.ValueError "Found array with 0 sample(s)")
    | _ => Py.Return (mean y)
    end;
  calibrate := fun m X y => Py.Return (largest_residual m y);
  cross_fit := fun _ _ _ _ _ _ => Py.Raise (Py.RuntimeError "not supported");
  interval_predict := fun m c X alpha =>
    Py.Return ((fun _ => m) <$> X, (fun _ => [[m - c]; [m + c]]%Q) <$> X)
|}.

(** Artifacts as a training run on the generator's labels would leave. *)
Definition loaded : @artifacts learning := {|
  model := (1500%Q : @Regressor learning);
  conformal_model :=
    {| Mapie.estimator := (1500%Q : @Regressor learning); Mapie.method := "plus"; Mapie.cv := "prefit";
       Mapie.random_state := 42; Mapie.calibration := Some ((250 # 1)%Q : @Calibration learning) |};
  le_floor := LabelEncoder.fit DataGenerator.floor_materials;
  le_style := LabelEncoder.fit DataGenerator.styles
|}.

(** The example body of the request model. *)
Definition example : Api.ApartmentFeatures := {|
  Api.rooms := 2; Api.bathrooms := 1; Api.total_surface := inject_Z 80;
  Api.building_age := 10; Api.floor_material := "Hardwood"; Api.style := "Modern"
|}.

Definition sample_row (r b s a : Z) (f st : string) (m : Z) : DataGenerator.row :=
  {| DataGenerator.rooms := r; DataGenerator.bathrooms := b;
     DataGenerator.total_surface := inject_Z s; DataGenerator.building_age := a;
     DataGenerator.floor_material := f; DataGenerator.style := st;
     DataGenerator.monthly_rent := inject_Z m |}.

(** A table of five rows. *)
Definition sample_table : list DataGenerator.row :=
  [sample_row 2 1 80 10 "Hardwood" "Modern" 2300;
   sample_row 3 2 120 5 "Tile" "Industrial" 3400;
   sample_row 1 1 35 40 "Carpet" "Traditional" 1500;
   sample_row 5 3 190 0 "Vinyl" "Minimalist" 5100;
   sample_row 4 2 150 25 "Laminate" "Contemporary" 3900].
End MeanLearning.

(** A body with six rooms, otherwise the example of the request model. *)
Definition six_rooms : Api.ApartmentFeatures := {|
  Api.rooms := 6; Api.bathrooms := 1; Api.total_surface := inject_Z 80;
  Api.building_age := 10; Api.floor_material := "Hardwood"; Api.style := "Modern"
|}.

(** The example of the request model with the surface written [1e400]. *)
Definition overflowing_surface : Wire.body := {|
  Wire.rooms := 2; Wire.bathrooms := 1; Wire.total_surface := Wire.Infinity false;
  Wire.building_age := 10; Wire.floor_material := "Hardwood"; Wire.style := "Modern"
|}.

(** The form filled in with the example of the request model, submitted. *)
Definition example_form : App.widgets := {|
  App.rooms := 2; App.bathrooms := 1; App.total_surface := 80; App.building_age := 10;
  App.floor_material := "Hardwood"; App.style := "Modern"; App.calculate := true
|}.

(** The request body that carries the features of a table row. *)
Definition row_body (row : DataGenerator.row) : Api.ApartmentFeatures := {|
  Api.rooms := DataGenerator.rooms row;
  Api.bathrooms := DataGenerator.bathrooms row;
  Api.total_surface := DataGenerator.total_surface row;
  Api.building_age := DataGenerator.building_age row;
  Api.floor_material := DataGenerator.floor_material row;
  Api.style := DataGenerator.style row
|}.

(** ** Persistence of the artifacts

    The trainer writes four files with [joblib.dump]; the service and the
    form read them back with [joblib.load]. A directory is a finite map
    from file names to the objects stored. *)

Module Joblib.
Section Joblib.
Context `{Learning}.

Inductive object : Type :=
| Forest (m : Regressor)
| Wrapper (m : Mapie.t)
| Encoder (le : LabelEncoder.t).

(** [joblib.dump(obj, name)]: creates the file or replaces its content. *)
Definition dump (obj : object) (name : string) (files : gmap string object)
    : gmap string object :=
  <[name := obj]> files.

(** What [joblib.load] raises when there is no such file. *)
Inductive load_error : Type := FileNotFoundError (name : string).

Definition str_load_error (e : load_error) : string :=
  match e with
  | FileNotFoundError name => "[Errno 2] No such file or directory: " +:+ Py.repr name
  end.

Definition load (name : string) (files : gmap string object) : load_error + object :=
  match files !! name with
  | Some obj => inr obj
  | None => inl (FileNotFoundError name)
  end.

(** The four objects a front end holds after loading. *)
Record objects : Type := {
  obj_model : object;
  obj_conformal_model : object;
  obj_le_floor : object;
  obj_le_style : object
}.

(** The objects as the handlers use them: a regressor, a wrapper and two
    encoders. *)
Definition as_artifacts (o : objects) : option artifacts :=
  match obj_model o, obj_conformal_model o, obj_le_floor o, obj_le_style o with
  | Forest m, Wrapper w, Encoder f, Encoder s =>
      Some {| model := m; conformal_model := w; le_floor := f; le_style := s |}
  | _, _, _, _ => None
  end.
End Joblib.
End Joblib.

(** [train_model.py] with its writes: the encoders are dumped as soon as
    they are fitted, the regressor and the wrapper at the end of the run. *)
Module TrainerRun.
Section TrainerRun.
Context `{Learning}.

(** The run from the split on, for the encoders and codes already there. *)
Definition fit_models (le_floor le_style : LabelEncoder.t)
    (df : list DataGenerator.row) (floor_codes style_codes : list Z)
    : Py.result Trainer.outcome :=
  df ← Trainer.zip3 df floor_codes style_codes;
  X ← mapM (Frame.select Trainer.features) df;
  y ← mapM (fun r => Frame.column r "monthly_rent") df;
  '(X_train, X_test, y_train, y_test) ← Trainer.train_test_split X y (2 # 10) 42;
  base_model ← forest_fit 100 42 X_train y_train;
  let mapie := Mapie.MapieRegressor base_model "plus" "prefit" 42 in
  mapie ← Mapie.fit mapie X_train y_train;
  '(y_pred, y_pis) ← Mapie.predict mapie X_test (5 # 100);
  mret {| Trainer.le_floor := le_floor; Trainer.le_style := le_style;
          Trainer.rent_model := base_model; Trainer.conformal_model := mapie;
          Trainer.X_train := X_train; Trainer.X_test := X_test;
          Trainer.y_train := y_train; Trainer.y_test := y_test;
          Trainer.y_pred := y_pred; Trainer.y_pis := y_pis |}.

Definition main (df : list DataGenerator.row) (files : gmap string Joblib.object)
    : Py.result Trainer.outcome * gmap string Joblib.object :=
  let '(le_floor, floor_codes) :=
    LabelEncoder.fit_transform (DataGenerator.floor_material <$> df) in
  match floor_codes with
  | Py.Raise e => (Py.Raise e, files)
  | Py.Return floor_codes =>
      let '(le_style, style_codes) :=
        LabelEncoder.fit_transform (DataGenerator.style <$> df) in
      match style_codes with
      | Py.Raise e => (Py.Raise e, files)
      | Py.Return style_codes =>
          let files := Joblib.dump (Joblib.Encoder le_floor) "le_floor.joblib" files in
          let files := Joblib.dump (Joblib.Encoder le_style) "le_style.joblib" files in
          match fit_models le_floor le_style df floor_codes style_codes with
          | Py.Raise e => (Py.Raise e, files)
          | Py.Return out =>
              let files := Joblib.dump (Joblib.Forest (Trainer.rent_model out))
                             "rent_model.joblib" files in
              let files := Joblib.dump (Joblib.Wrapper (Trainer.conformal_model out))
                             "conformal_model.joblib" files in
              (Py.Return out, files)
          end
      end
  end.
End TrainerRun.
End TrainerRun.

(** Loading at start-up: the top of [api.py] and [load_models] of [app.py]. *)
Module Startup.
Section Startup.
Context `{Learning}.

Inductive log_line : Type :=
| LoggerInfo (msg : string)
| LoggerError (msg : string).

(** The four loads, in the order both files write them. *)
Definition load_four (files : gmap string Joblib.object)
    : Joblib.load_error + Joblib.objects :=
  match Joblib.load "rent_model.joblib" files with
  | inl e => inl e
  | inr model =>
      match Joblib.load "conformal_model.joblib" files with
      | inl e => inl e
      | inr conformal_model =>
          match Joblib.load "le_floor.joblib" files with
          | inl e => inl e
          | inr le_floor =>
              match Joblib.load "le_style.joblib" files with
              | inl e => inl e
              | inr le_style =>
                  inr {| Joblib.obj_model := model;
                         Joblib.obj_conformal_model := conformal_model;
                         Joblib.obj_le_floor := le_floor;
                         Joblib.obj_le_style := le_style |}
              end
          end
      end
  end.

(** [api.py]: the loads are in a [try]; a failure is logged and raised
    again, so the module does not finish importing. *)
Definition api_startup (files : gmap string Joblib.object)
    : (Joblib.load_error + Joblib.objects) * list log_line :=
  match load_four files with
  | inr o => (inr o, [LoggerInfo "Models loaded successfully"])
  | inl e => (inl e, [LoggerError ("Error loading models: " +:+ Joblib.str_load_error e)])
  end.

(** [app.py]: [load_models] builds the dict of the four loads. *)
Definition load_models (files : gmap string Joblib.object)
    : Joblib.load_error + Joblib.objects :=
  load_four files.
End Startup.
End Startup.

Definition is_http_exception (e : Py.exn) : Prop :=
  match e with Py.HTTPException _ _ => True | _ => False end.

(** Artifacts whose wrapper was never fitted: every call of it raises. *)
Definition unfitted : @artifacts MeanLearning.learning := {|
  model := model MeanLearning.loaded;
  conformal_model :=
    {| Mapie.estimator := Mapie.estimator (conformal_model MeanLearning.loaded);
       Mapie.method := "plus"; Mapie.cv := "prefit"; Mapie.random_state := 42;
       Mapie.calibration := None |};
  le_floor := le_floor MeanLearning.loaded;
  le_style := le_style MeanLearning.loaded
|}.


(** The example of the request model with a floor material, and with a
    style, that the generator's lists do not have. *)
Definition marble_floor : Api.ApartmentFeatures := {|
  Api.rooms := 2; Api.bathrooms := 1; Api.total_surface := inject_Z 80;
  Api.building_age := 10; Api.floor_material := "Marble"; Api.style := "Modern"
|}.
Definition baroque_style : Api.ApartmentFeatures := {|
  Api.rooms := 2; Api.bathrooms := 1; Api.total_surface := inject_Z 80;
  Api.building_age := 10; Api.floor_material := "Hardwood"; Api.style := "Baroque"
|}.

(** ** The evaluation the trainer prints

    The mean squared error of the held-out predictions and the share of
    held-out labels inside their interval. ([r2_score], printed between the
    two, is left out.) An empty mean is numpy's [nan], here [None]. *)

Module Evaluation.

Definition total (l : list Q) : Q := foldr Qplus 0%Q l.

Definition np_mean (l : list Q) : option Q :=
  match l with
  | [] => None
  | _ => Some (total l / inject_Z (Z.of_nat (length l)))%Q
  end.

(** [mean_squared_error(y_true, y_pred)]. *)
Definition mean_squared_error (y_true y_pred : list Q) : Py.result Q :=
  if bool_decide (length y_true = length y_pred)
  then match np_mean (zip_with (fun a b => (a - b) * (a - b))%Q y_true y_pred) with
       | Some m => Py.Return m
       | None => Py.Raise (Py.ValueError "Found array with 0 sample(s)")
       end
  else Py.Raise (Py.ValueError
         "Found input variables with inconsistent numbers of samples").

(** [y_pis[:, j, 0]]. *)
Definition bound_column (y_pis : list (list (list Q))) (j : nat) : Py.result (list Q) :=
  mapM (fun p => row ← Py.getitem p j; Py.getitem row 0) y_pis.

(** An elementwise comparison of the labels with an array. *)
Definition compare (f : Q -> Q -> bool) (y : list Q) (a : list Q) : Py.result (list bool) :=
  if bool_decide (length y = length a)
  then Py.Return (zip_with f y a)
  else Py.Raise (Py.ValueError "Lengths must match to compare").

Definition indicator (b : bool) : Q := if b then 1%Q else 0%Q.

(** [np.mean((y_test >= y_pis[:, 0, 0]) & (y_test <= y_pis[:, 1, 0]))]. *)
Definition coverage (y_test : list Q) (y_pis : list (list (list Q)))
    : Py.result (option Q) :=
  lower ← bound_column y_pis 0;
  above ← compare (fun y lo => Qle_bool lo y) y_test lower;
  upper ← bound_column y_pis 1;
  below ← compare (fun y up => Qle_bool y up) y_test upper;
  mret (np_mean (indicator <$> zip_with andb above below)).

End Evaluation.

(** ** The limits of the form's inputs

    [st.number_input(label, min_value, max_value, value)] returns a number
    within its limits, [value] until the user changes it; [st.selectbox]
    returns one of its options, here the classes of an encoder. *)

Module Widgets.

Record number_input : Type := { min_value : Z; max_value : Z; value : Z }.

Definition rooms : number_input := {| min_value := 1; max_value := 5; value := 2 |}.
Definition bathrooms : number_input := {| min_value := 1; max_value := 3; value := 1 |}.
Definition total_surface : number_input :=
  {| min_value := 30; max_value := 200; value := 80 |}.
Definition building_age : number_input := {| min_value := 0; max_value := 50; value := 10 |}.

Definition admits (n : number_input) (v : Z) : Prop := min_value n <= v <= max_value n.

(** The states of the widgets a user can bring about. *)
Definition enterable `{Learning} (models : artifacts) (w : App.widgets) : Prop :=
  admits rooms (App.rooms w) ∧ admits bathrooms (App.bathrooms w)
  ∧ admits total_surface (App.total_surface w)
  ∧ admits building_age (App.building_age w)
  ∧ App.floor_material w ∈ LabelEncoder.classes_ (le_floor models)
  ∧ App.style w ∈ LabelEncoder.classes_ (le_style models).

End Widgets.

(** The record the form stores in the session state on submit. *)
Definition last_prediction (w : App.widgets) : Io.event :=
  Io.StSessionState
    [("rooms", inl (inject_Z (App.rooms w)));
     ("bathrooms", inl (inject_Z (App.bathrooms w)));
     ("total_surface", inl (inject_Z (App.total_surface w)));
     ("building_age", inl (inject_Z (App.building_age w)));
     ("floor_material", inr (App.floor_material w));
     ("style", inr (App.style w))].

(** The charts drawn in a trace, with the range of their axis. *)
Definition charts (t : list Io.event) : list (Io.box * Q * Q) :=
  omap (fun e => match e with
                 | Io.StPlotlyChart b low high => Some (b, low, high)
                 | _ => None
                 end) t.

(** * Properties *)

(** ** Label encoders *)

Example fit_example :
  LabelEncoder.classes_ (LabelEncoder.fit ["Tile"; "Carpet"; "Tile"; "Hardwood"])
  = ["Carpet"; "Hardwood"; "Tile"].
Proof. vm_compute. reflexivity. Qed.

Example repr_quotes :
  Py.str_list ["Carpet"; "O'Neil"] = String "[" (String Py.squote
    ("Carpet" +:+ String Py.squote (", " +:+ String Py.dquote
       ("O'Neil" +:+ String Py.dquote "]")))).
Proof. vm_compute. reflexivity. Qed.

Example round2_ties_to_even :
  Py.round2 (2675 # 1000) = (268 # 100)%Q ∧ Py.round2 (2665 # 1000) = (266 # 100)%Q
  ∧ Py.round2 (12345678 # 10000) = (123457 # 100)%Q.
Proof. vm_compute. split_and!; reflexivity. Qed.

Section LabelEncoderFacts.
Import LabelEncoder.
Variable le : LabelEncoder.t.

Lemma table_sound (l : string) (i : nat) :
  table le !! l = Some i -> classes_ le !! i = Some l.
Proof.
  unfold table. intros Hl.
  apply elem_of_list_to_map_2, elem_of_reverse, elem_of_lookup_imap in Hl.
  destruct Hl as (j & c & Heq & Hj). by simplify_eq.
Qed.

Lemma table_complete (l : string) :
  l ∈ classes_ le -> is_Some (table le !! l).
Proof.
  intros [i Hi]%list_elem_of_lookup_1.
  destruct (table le !! l) as [j|] eqn:Hj; [by eexists|exfalso].
  unfold table in Hj. apply not_elem_of_list_to_map_2 in Hj. apply Hj.
  rewrite fmap_reverse, elem_of_reverse.
  apply list_elem_of_fmap. exists (l, i). split; [done|].
  by apply (elem_of_lookup_imap_2 (fun i c => (c, i))).
Qed.

Lemma table_unseen (l : string) :
  l ∉ classes_ le -> table le !! l = None.
Proof.
  intros Hl. destruct (table le !! l) as [i|] eqn:Hi; [|done].
  apply table_sound, list_elem_of_lookup_2 in Hi. done.
Qed.

Lemma transform_seen (l : string) :
  l ∈ classes_ le ->
  ∃ i, transform le [l] = Py.Return [Z.of_nat i] ∧ classes_ le !! i = Some l.
Proof.
  intros [i Hi]%table_complete. exists i. split.
  - unfold transform. simpl. by rewrite Hi.
  - by apply table_sound.
Qed.

Lemma transform_unseen (l : string) :
  l ∉ classes_ le ->
  transform le [l]
  = Py.Raise (Py.ValueError ("y contains previously unseen labels: " +:+ Py.repr l)).
Proof. intros Hl%table_unseen. unfold transform. simpl. by rewrite Hl. Qed.

Lemma inverse_transform_index (i : nat) (l : string) :
  classes_ le !! i = Some l ->
  inverse_transform le [Z.of_nat i] = Py.Return [l].
Proof.
  intros Hi. unfold inverse_transform, valid_code. simpl.
  rewrite bool_decide_eq_true_2.
  - simpl. by rewrite Nat2Z.id, Hi.
  - apply lookup_lt_Some in Hi. lia.
Qed.
End LabelEncoderFacts.

(** C8. For every label of an encoder's class set, [transform] followed by
    [inverse_transform] gives the label back, and two labels of the class
    set with the same code are the same label; this holds for any encoder,
    so for the floor-material and the style encoder alike. *)
Theorem C8_encode_decode_round_trip (le : LabelEncoder.t) (l : string) :
  l ∈ LabelEncoder.classes_ le ->
  (∃ c, LabelEncoder.transform le [l] = Py.Return [c]
        ∧ LabelEncoder.inverse_transform le [c] = Py.Return [l])
  ∧ (∀ l', l' ∈ LabelEncoder.classes_ le ->
           LabelEncoder.transform le [l'] = LabelEncoder.transform le [l] -> l' = l).
Proof.
  intros Hl. destruct (transform_seen le l Hl) as (i & Ht & Hi). split.
  - exists (Z.of_nat i). split; [done|]. by apply inverse_transform_index.
  - intros l' Hl' Heq. destruct (transform_seen le l' Hl') as (j & Ht' & Hj).
    rewrite Ht, Ht' in Heq. injection Heq as Heq.
    apply Nat2Z.inj in Heq. subst j. congruence.
Qed.

(** The round trip on the encoders the trainer fits on the two label sets
    of the generator. *)
Lemma C8_round_trip_witness :
  let le := LabelEncoder.fit (DataGenerator.floor_materials ++ DataGenerator.styles) in
  "Tile" ∈ LabelEncoder.classes_ le
  ∧ (∃ c, LabelEncoder.transform le ["Tile"] = Py.Return [c]
          ∧ LabelEncoder.inverse_transform le [c] = Py.Return ["Tile"]).
Proof.
  assert (Hin : "Tile" ∈ LabelEncoder.classes_
            (LabelEncoder.fit (DataGenerator.floor_materials ++ DataGenerator.styles))).
  { vm_compute. apply list_elem_of_In. vm_compute. tauto. }
  split; [exact Hin|].
  exact (proj1 (C8_encode_decode_round_trip _ _ Hin)).
Defined.

(** ** The random generator: a small program logic *)

Section Yields.
Import Rng.

Lemma yields_ret {A} (a : A) (P : A -> Prop) : P a -> yields (mret a) P.
Proof. intros Ha s. by exists a, s. Qed.

Lemma yields_bind {A B} (m : gen A) (k : A -> gen B) (P : A -> Prop) (R : B -> Prop) :
  yields m P -> (∀ a, P a -> yields (k a) R) -> yields (m ≫= k) R.
Proof.
  intros Hm Hk s. destruct (Hm s) as (a & s1 & Hrun & Ha).
  destruct (Hk a Ha s1) as (b & s2 & Hrun' & Hb).
  exists b, s2. split; [|done]. simpl. by rewrite Hrun.
Qed.

Lemma yields_mono {A} (m : gen A) (P R : A -> Prop) :
  yields m P -> (∀ a, P a -> R a) -> yields m R.
Proof.
  intros Hm HPR s. destruct (Hm s) as (a & s' & ? & ?). exists a, s'. auto.
Qed.

Lemma yields_lift {A} (r : Py.result A) (a : A) (P : A -> Prop) :
  r = Py.Return a -> P a -> yields (lift r) P.
Proof. intros -> Ha s. by exists a, s. Qed.

Lemma yields_replicateM {A} (m : gen A) (P : A -> Prop) (n : nat) :
  yields m P -> yields (replicateM n m) (fun l => length l = n ∧ Forall P l).
Proof.
  intros Hm. induction n as [|n IH]; simpl.
  - by apply yields_ret.
  - eapply yields_bind; [exact Hm|]. intros x Hx.
    eapply yields_bind; [exact IH|]. intros xs [Hlen Hxs].
    apply yields_ret. simpl. split; [by rewrite Hlen | by constructor].
Qed.

Lemma yields_sized {A} (m : gen A) (P : A -> Prop) (size : Z) :
  0 <= size -> yields m P ->
  yields (sized size m) (fun l => length l = Z.to_nat size ∧ Forall P l).
Proof.
  intros Hsize Hm. unfold sized. rewrite bool_decide_eq_true_2 by done.
  by apply yields_replicateM.
Qed.

Lemma yields_raw : yields raw (fun _ => True).
Proof. intros s. by eexists _, _. Qed.

Lemma yields_randint1 (low high : Z) :
  low < high -> yields (randint1 low high) (fun v => low <= v < high).
Proof.
  intros Hlt. unfold randint1. rewrite bool_decide_eq_true_2 by done.
  eapply yields_bind; [apply yields_raw|]. intros r _. apply yields_ret.
  pose proof (Z.mod_pos_bound (Z.of_N r) (high - low)). lia.
Qed.

Lemma yields_randint (low high size : Z) :
  low < high -> 0 <= size ->
  yields (randint low high size)
    (fun l => length l = Z.to_nat size ∧ Forall (fun v => low <= v < high) l).
Proof. intros. by apply yields_sized, yields_randint1. Qed.

Lemma yields_random_sample : yields random_sample (fun x => (0 <= x)%Q ∧ (x < 1)%Q).
Proof.
  unfold random_sample. eapply yields_bind; [apply yields_raw|]. intros r _.
  apply yields_ret.
  pose proof (Z.mod_pos_bound (Z.of_N r) (2 ^ 53) ltac:(done)) as Hb.
  unfold Qle, Qlt. simpl. lia.
Qed.

Lemma yields_uniform1 (low high : Q) :
  (low <= high)%Q ->
  yields (uniform1 low high) (fun v => (low <= v)%Q ∧ (v <= high)%Q).
Proof.
  intros Hle. unfold uniform1.
  eapply yields_bind; [apply yields_random_sample|]. intros x [Hx0 Hx1].
  apply yields_ret. split; nra.
Qed.

Lemma yields_uniform (low high : Q) (size : Z) :
  (low <= high)%Q -> 0 <= size ->
  yields (uniform low high size)
    (fun l => length l = Z.to_nat size ∧ Forall (fun v => (low <= v)%Q ∧ (v <= high)%Q) l).
Proof. intros. by apply yields_sized, yields_uniform1. Qed.

Lemma yields_mapM {A B} (f : A -> gen B) (P : A -> Prop) (R : B -> Prop) (l : list A) :
  (∀ a, P a -> yields (f a) R) -> Forall P l ->
  yields (mapM f l) (fun r => length r = length l ∧ Forall R r).
Proof.
  intros Hf Hl. induction Hl as [|a l Ha Hl IH]; simpl.
  - by apply yields_ret.
  - eapply yields_bind; [by apply Hf|]. intros b Hb.
    eapply yields_bind; [exact IH|]. intros bs [Hlen Hbs].
    apply yields_ret. simpl. split; [by rewrite Hlen | by constructor].
Qed.

Lemma yields_choice {A} (a : list A) (size : Z) :
  a ≠ [] -> 0 <= size ->
  yields (choice a size) (fun l => length l = Z.to_nat size ∧ Forall (.∈ a) l).
Proof.
  intros Ha Hsize. unfold choice.
  assert (0 < Z.of_nat (length a)) by (destruct a; [done | simpl; lia]).
  eapply yields_bind; [by apply yields_randint|]. intros idx [Hlen Hidx].
  eapply yields_mono.
  - apply (yields_mapM _ (fun i => 0 <= i < Z.of_nat (length a)) (.∈ a)); [|done].
    intros i Hi. destruct (lookup_lt_is_Some_2 a (Z.to_nat i)) as [x Hx]; [lia|].
    apply (yields_lift _ x).
    + unfold Py.getitem. by rewrite Hx.
    + by eapply list_elem_of_lookup_2.
  - intros l [Hl ?]. split; [congruence | done].
Qed.
End Yields.

(** ** The data generator *)

Section GeneratorFacts.
Import Rng DataGenerator.

Lemma rent_at_same_features d d' i x :
  same_features d d' -> rent_at d i x -> rent_at d' i x.
Proof.
  intros (Hr & Hb & Hs & Ha & _) (r & b & s & a & u & ?). exists r, b, s, a, u.
  by rewrite Hr, Hb, Hs, Ha.
Qed.

Lemma yields_rent_loop (n : nat) (indices : list nat) (data : columns) :
  length (col_rooms data) = n -> length (col_bathrooms data) = n ->
  length (col_total_surface data) = n -> length (col_building_age data) = n ->
  Forall (fun i => (i < n)%nat) indices ->
  yields (rent_loop data indices) (fun data' =>
    same_features data data'
    ∧ ∃ new, col_monthly_rent data' = col_monthly_rent data ++ new
             ∧ Forall2 (rent_at data) indices new).
Proof.
  intros Hr Hb Hs Ha Hind. revert data Hr Hb Hs Ha.
  induction Hind as [|i rest Hi Hrest IH]; intros data Hr Hb Hs Ha; simpl.
  - apply yields_ret. split; [done|]. exists []. by rewrite app_nil_r.
  - destruct (lookup_lt_is_Some_2 (col_rooms data) i) as [r Hri]; [lia|].
    destruct (lookup_lt_is_Some_2 (col_bathrooms data) i) as [b Hbi]; [lia|].
    destruct (lookup_lt_is_Some_2 (col_total_surface data) i) as [s Hsi]; [lia|].
    destruct (lookup_lt_is_Some_2 (col_building_age data) i) as [a Hai]; [lia|].
    eapply yields_bind; [apply (yields_lift _ r (eq r)); [|done]|intros ? <-].
    { unfold Py.getitem. by rewrite Hri. }
    eapply yields_bind; [apply (yields_lift _ b (eq b)); [|done]|intros ? <-].
    { unfold Py.getitem. by rewrite Hbi. }
    eapply yields_bind; [apply (yields_lift _ s (eq s)); [|done]|intros ? <-].
    { unfold Py.getitem. by rewrite Hsi. }
    eapply yields_bind; [apply (yields_lift _ a (eq a)); [|done]|intros ? <-].
    { unfold Py.getitem. by rewrite Hai. }
    eapply yields_bind; [apply (yields_uniform1 (8 # 10) (12 # 10)); done|].
    intros u [Hu1 Hu2].
    set (x := Py.max (base_rent r b s a * u) (inject_Z 500)).
    eapply yields_mono; [apply (IH (append_rent data x)); done|].
    intros data' [Hsame (new & Hnew & Hall)].
    split; [exact Hsame|]. exists (x :: new). split.
    + rewrite Hnew. simpl. by rewrite <- app_assoc.
    + constructor.
      * exists r, b, s, a, u. done.
      * eapply Forall2_impl; [exact Hall|]. intros j y Hy.
        eapply rent_at_same_features; [|exact Hy]. done.
Qed.

Lemma zip_rows_Some (n : nat) r b s a f st m :
  length r = n -> length b = n -> length s = n -> length a = n ->
  length f = n -> length st = n -> length m = n ->
  ∃ rows, zip_rows r b s a f st m = Some rows
    ∧ length rows = n
    ∧ ∀ i row, rows !! i = Some row ->
        r !! i = Some (rooms row) ∧ b !! i = Some (bathrooms row)
        ∧ s !! i = Some (total_surface row) ∧ a !! i = Some (building_age row)
        ∧ f !! i = Some (floor_material row) ∧ st !! i = Some (style row)
        ∧ m !! i = Some (monthly_rent row).
Proof.
  revert r b s a f st m. induction n as [|n IH]; intros r b s a f st m.
  - intros ->%length_zero_iff_nil ->%length_zero_iff_nil ->%length_zero_iff_nil
           ->%length_zero_iff_nil ->%length_zero_iff_nil ->%length_zero_iff_nil
           ->%length_zero_iff_nil.
    exists []. split_and!; [done..|]. intros i row Hi. done.
  - destruct r as [|r0 r], b as [|b0 b], s as [|s0 s], a as [|a0 a],
      f as [|f0 f], st as [|st0 st], m as [|m0 m]; try done.
    simpl. intros Hr Hb Hs Ha Hf Hst Hm.
    destruct (IH r b s a f st m) as (rows & -> & Hlen & Hrows); [lia..|].
    eexists. split; [done|]. split; [simpl; lia|].
    intros [|i] row Hi; simpl in Hi.
    + by simplify_eq.
    + simpl. by apply Hrows.
Qed.

Lemma yields_generate_apartment_data (n : Z) :
  0 <= n ->
  yields (generate_apartment_data n)
    (fun df => length df = Z.to_nat n ∧ Forall generated_row df).
Proof.
  intros Hn. unfold generate_apartment_data.
  eapply yields_bind; [by apply (yields_randint 1 6)|]. intros c_r [Hlr Hr].
  eapply yields_bind; [by apply (yields_randint 1 4)|]. intros c_b [Hlb Hb].
  eapply yields_bind; [by apply (yields_uniform (inject_Z 30) (inject_Z 200))|].
  intros c_s [Hls Hs].
  eapply yields_bind; [by apply (yields_randint 0 50)|]. intros c_a [Hla Ha].
  eapply yields_bind; [by apply (yields_choice floor_materials)|]. intros c_f [Hlf Hf].
  eapply yields_bind; [by apply (yields_choice styles)|]. intros c_st [Hlst Hst].
  eapply yields_bind.
  { apply (yields_rent_loop (Z.to_nat n)); simpl; try done.
    unfold range. apply Forall_forall. intros i Hi%elem_of_seq. lia. }
  intros data [(Er & Eb & Es & Ea & Ef & Est) (new & Hnew & Hall)].
  simpl in *.
  assert (length new = Z.to_nat n) as Hlnew.
  { apply Forall2_length in Hall. unfold range in Hall.
    by rewrite length_seq in Hall. }
  destruct (zip_rows_Some (Z.to_nat n) (col_rooms data) (col_bathrooms data)
              (col_total_surface data) (col_building_age data)
              (col_floor_material data) (col_style data) (col_monthly_rent data))
    as (rows & Hzip & Hlen & Hrows); [congruence..|].
  apply (yields_lift _ rows); [unfold DataFrame; by rewrite Hzip|].
  split; [done|]. apply Forall_lookup. intros i row Hi.
  destruct (Hrows i row Hi) as (Hri & Hbi & Hsi & Hai & Hfi & Hsti & Hmi).
  rewrite Er in Hri. rewrite Eb in Hbi. rewrite Es in Hsi. rewrite Ea in Hai.
  rewrite Ef in Hfi. rewrite Est in Hsti. rewrite Hnew in Hmi.
  pose proof (Forall_lookup_1 _ _ _ _ Hr Hri).
  pose proof (Forall_lookup_1 _ _ _ _ Hb Hbi).
  pose proof (Forall_lookup_1 _ _ _ _ Hs Hsi) as [??].
  pose proof (Forall_lookup_1 _ _ _ _ Ha Hai).
  pose proof (Forall_lookup_1 _ _ _ _ Hf Hfi).
  pose proof (Forall_lookup_1 _ _ _ _ Hst Hsti).
  assert (range n !! i = Some i) as Hseq.
  { unfold range. apply lookup_seq. split; [done|].
    apply lookup_lt_Some in Hmi. lia. }
  destruct (Forall2_lookup_lr _ _ _ _ _ _ Hall Hseq Hmi)
    as (r & b & s & a & u & Hr' & Hb' & Hs' & Ha' & Hu1 & Hu2 & Hx).
  simpl in *. simplify_eq.
  unfold generated_row. split_and!; first [lia | done | by exists u].
Qed.
End GeneratorFacts.

Lemma max_is_Qmax (a b : Q) : (Py.max a b == Qmax b a)%Q.
Proof.
  unfold Py.max. destruct (Qle_bool b a) eqn:Hle.
  - apply Qle_bool_iff in Hle. symmetry. by apply Q.max_r.
  - symmetry. apply Q.max_l. apply Qnot_lt_le. intros Hlt.
    apply Qlt_le_weak, Qle_bool_iff in Hlt. congruence.
Qed.

Lemma max_ge_second (a b : Q) : (b <= Py.max a b)%Q.
Proof.
  unfold Py.max. destruct (Qle_bool b a) eqn:Hle.
  - by apply Qle_bool_iff.
  - apply Qle_refl.
Qed.

Lemma base_rent_as_specified (r b : Z) (s : Q) (a : Z) :
  (DataGenerator.base_rent r b s a
   == inject_Z 1000 + inject_Z 300 * inject_Z r + inject_Z 200 * inject_Z b
      + inject_Z 10 * s - inject_Z 10 * inject_Z a)%Q.
Proof.
  unfold DataGenerator.base_rent.
  rewrite !inject_Z_plus, !inject_Z_mult. ring.
Qed.

(** ** The draws of a run, one by one *)

Section Draws.
Import Rng.

Lemma later_0 (s : state) : later 0 s = s.
Proof. by destruct s. Qed.

Lemma later_later (j k : nat) (s : state) : later j (later k s) = later (j + k) s.
Proof. unfold later. simpl. f_equal. lia. Qed.

Lemma draws_at_shift {A} (m : gen A) (s : state) (off i : nat) (a : A) :
  draws_at m (later off s) i a -> draws_at m s (off + i) a.
Proof.
  unfold draws_at. rewrite !later_later.
  by replace (i + off)%nat with (off + i)%nat by lia;
     replace (S i + off)%nat with (S (off + i)) by lia.
Qed.

Lemma draws_at_yields {A} (m : gen A) (P : A -> Prop) (s : state) (k : nat) (a : A) :
  yields m P -> draws_at m s k a -> P a.
Proof.
  intros Hm Ha. destruct (Hm (later k s)) as (a' & s' & Hrun & Ha').
  unfold draws_at in Ha. rewrite Ha in Hrun. by injection Hrun as <- _.
Qed.

Lemma single_draw_randint1 (low high : Z) : low < high -> single_draw (randint1 low high).
Proof.
  intros Hlt s. unfold randint1. rewrite bool_decide_eq_true_2 by done.
  by eexists.
Qed.

Lemma single_draw_uniform1 (low high : Q) : single_draw (uniform1 low high).
Proof. intros s. by eexists. Qed.

Lemma run_replicateM {A} (m : gen A) (n : nat) (s : state) :
  single_draw m ->
  ∃ l, run (replicateM n m) s = Py.Return (l, later n s)
       ∧ length l = n
       ∧ ∀ i a, l !! i = Some a -> draws_at m s i a.
Proof.
  intros Hm. revert s. induction n as [|n IH]; intros s.
  - exists []. simpl. rewrite later_0. by split_and!.
  - destruct (Hm s) as [a Ha]. destruct (IH (later 1 s)) as (l & Hl & Hlen & Hdraws).
    exists (a :: l). simpl. rewrite Ha, Hl. simpl. rewrite later_later.
    replace (n + 1)%nat with (S n) by lia.
    split_and!; [done|by rewrite Hlen|].
    intros [|i] a' Hi; simpl in Hi.
    + simplify_eq. unfold draws_at. by rewrite later_0.
    + apply (draws_at_shift m s 1 i), Hdraws, Hi.
Qed.

Lemma run_sized {A} (m : gen A) (size : Z) (s : state) :
  0 <= size -> single_draw m ->
  ∃ l, run (sized size m) s = Py.Return (l, later (Z.to_nat size) s)
       ∧ length l = Z.to_nat size
       ∧ ∀ i a, l !! i = Some a -> draws_at m s i a.
Proof.
  intros Hsize Hm. unfold sized. rewrite bool_decide_eq_true_2 by done.
  by apply run_replicateM.
Qed.

Lemma run_mapM_lift {A B} (f : A -> Py.result B) (l : list A) (r : list B) (s : state) :
  Forall2 (fun a b => f a = Py.Return b) l r ->
  run (mapM (fun a => lift (f a)) l) s = Py.Return (r, s).
Proof.
  induction 1 as [|a b l r Hab _ IH]; [done|].
  simpl. rewrite Hab. simpl in *. by rewrite IH.
Qed.

Lemma run_choice {A} (a : list A) (size : Z) (s : state) :
  a ≠ [] -> 0 <= size ->
  ∃ l, run (choice a size) s = Py.Return (l, later (Z.to_nat size) s)
       ∧ length l = Z.to_nat size
       ∧ ∀ i v, l !! i = Some v ->
           ∃ k, draws_at (randint1 0 (Z.of_nat (length a))) s i k
                ∧ a !! Z.to_nat k = Some v.
Proof.
  intros Ha Hsize.
  assert (0 < Z.of_nat (length a)) as Hlen by (destruct a; [done | simpl; lia]).
  destruct (run_sized (randint1 0 (Z.of_nat (length a))) size s Hsize
              (single_draw_randint1 _ _ Hlen)) as (idx & Hidx & Hlidx & Hdraws).
  assert (∃ l, Forall2 (fun k v => a !! Z.to_nat k = Some v) idx l) as [l Hl].
  { assert (Forall (fun k => 0 <= k < Z.of_nat (length a)) idx) as Hbound.
    { apply Forall_lookup. intros i k Hk.
      exact (draws_at_yields _ _ s i k (yields_randint1 _ _ Hlen) (Hdraws i k Hk)). }
    clear Hidx Hlidx Hdraws.
    induction Hbound as [|k idx Hk _ [l Hl]]; [by exists []|].
    destruct (lookup_lt_is_Some_2 a (Z.to_nat k)) as [v Hv]; [lia|].
    exists (v :: l). by constructor. }
  exists l. unfold choice, randint. simpl. rewrite Hidx.
  rewrite (run_mapM_lift (fun i => Py.getitem a (Z.to_nat i)) idx l).
  2:{ eapply Forall2_impl; [exact Hl|]. intros k v Hv. unfold Py.getitem. by rewrite Hv. }
  split_and!; [done|by rewrite <- (Forall2_length _ _ _ Hl)|].
  intros i v Hv.
  destruct (Forall2_lookup_r _ _ _ _ _ Hl Hv) as (k & Hk & Hkv).
  exists k. split; [by apply Hdraws|done].
Qed.

Lemma run_bind {A B} (m : gen A) (f : A -> gen B) (s s' : state) (a : A) :
  run m s = Py.Return (a, s') -> run (m ≫= f) s = run (f a) s'.
Proof. intros Hm. simpl. by rewrite Hm. Qed.

Lemma run_lift {A} (r : Py.result A) (a : A) (s : state) :
  r = Py.Return a -> run (lift r) s = Py.Return (a, s).
Proof. by intros ->. Qed.
End Draws.

Section GeneratorDraws.
Import Rng DataGenerator.

Lemma run_rent_loop (n : nat) (indices : list nat) (data : columns) (s : state) :
  length (col_rooms data) = n -> length (col_bathrooms data) = n ->
  length (col_total_surface data) = n -> length (col_building_age data) = n ->
  Forall (fun i => (i < n)%nat) indices ->
  ∃ data' new,
    run (rent_loop data indices) s = Py.Return (data', later (length indices) s)
    ∧ same_features data data'
    ∧ col_monthly_rent data' = col_monthly_rent data ++ new
    ∧ length new = length indices
    ∧ ∀ k i x, indices !! k = Some i -> new !! k = Some x ->
        ∃ r b sf a u,
          col_rooms data !! i = Some r
          ∧ col_bathrooms data !! i = Some b
          ∧ col_total_surface data !! i = Some sf
          ∧ col_building_age data !! i = Some a
          ∧ draws_at (uniform1 (8 # 10) (12 # 10)) s k u
          ∧ x = Py.max (base_rent r b sf a * u) (inject_Z 500).
Proof.
  intros Hr Hb Hs Ha Hind. revert data s Hr Hb Hs Ha.
  induction Hind as [|i rest Hi Hrest IH]; intros data s Hr Hb Hs Ha.
  - exists data, []. simpl. rewrite later_0, app_nil_r. by split_and!.
  - destruct (lookup_lt_is_Some_2 (col_rooms data) i) as [r Hri]; [lia|].
    destruct (lookup_lt_is_Some_2 (col_bathrooms data) i) as [b Hbi]; [lia|].
    destruct (lookup_lt_is_Some_2 (col_total_surface data) i) as [sf Hsi]; [lia|].
    destruct (lookup_lt_is_Some_2 (col_building_age data) i) as [a Hai]; [lia|].
    destruct (single_draw_uniform1 (8 # 10) (12 # 10) s) as [u Hu].
    set (x := Py.max (base_rent r b sf a * u) (inject_Z 500)).
    destruct (IH (append_rent data x) (later 1 s)) as (data' & new & Hrun & Hsame & Hnew & Hlen & Hall);
      [done..|].
    exists data', (x :: new). cbn [rent_loop].
    rewrite (run_bind _ _ s s r) by (apply run_lift; unfold Py.getitem; by rewrite Hri).
    rewrite (run_bind _ _ s s b) by (apply run_lift; unfold Py.getitem; by rewrite Hbi).
    rewrite (run_bind _ _ s s sf) by (apply run_lift; unfold Py.getitem; by rewrite Hsi).
    rewrite (run_bind _ _ s s a) by (apply run_lift; unfold Py.getitem; by rewrite Hai).
    rewrite (run_bind _ _ s (later 1 s) u Hu).
    fold x. rewrite Hrun, later_later.
    replace (length rest + 1)%nat with (length (i :: rest)) by (simpl; lia).
    split_and!; [done|exact Hsame| |simpl; by rewrite Hlen|].
    + rewrite Hnew. simpl. by rewrite <- app_assoc.
    + intros [|k] j y Hj Hy; simpl in Hj, Hy.
      * simplify_eq. exists r, b, sf, a, u. split_and!; [done..| |done].
        unfold draws_at. by rewrite later_0.
      * destruct (Hall k j y Hj Hy) as (r' & b' & sf' & a' & u' & ? & ? & ? & ? & Hu' & ?).
        exists r', b', sf', a', u'. split_and!; [done..| |done].
        by apply (draws_at_shift _ s 1 k).
Qed.

(** The table of a run, row by row: the factor of row [i] is the value of
    the call [uniform(0.8, 1.2)] on the draw the loop makes for that row,
    after the [6 n] draws of the columns. *)
Lemma generate_apartment_data_draws (n : Z) (s : state) :
  0 <= n ->
  ∃ df,
    run (generate_apartment_data n) s = Py.Return (df, later (7 * Z.to_nat n) s)
    ∧ length df = Z.to_nat n
    ∧ ∀ i row, df !! i = Some row ->
        floor_material row ∈ floor_materials
        ∧ style row ∈ styles
        ∧ ∃ u, draws_at (uniform1 (8 # 10) (12 # 10)) s (6 * Z.to_nat n + i) u
               ∧ monthly_rent row
                 = Py.max (base_rent (rooms row) (bathrooms row) (total_surface row)
                             (building_age row) * u) (inject_Z 500).
Proof.
  intros Hn.
  destruct (run_sized (randint1 1 6) n s Hn (single_draw_randint1 1 6 ltac:(done)))
    as (c_r & Hrun_r & Hlr & _).
  destruct (run_sized (randint1 1 4) n (later (Z.to_nat n) s) Hn (single_draw_randint1 1 4 ltac:(done)))
    as (c_b & Hrun_b & Hlb & _).
  destruct (run_sized (uniform1 (inject_Z 30) (inject_Z 200)) n (later (Z.to_nat n) (later (Z.to_nat n) s)) Hn
              (single_draw_uniform1 _ _))
    as (c_s & Hrun_s & Hls & _).
  destruct (run_sized (randint1 0 50) n (later (Z.to_nat n) (later (Z.to_nat n) (later (Z.to_nat n) s))) Hn
              (single_draw_randint1 0 50 ltac:(done)))
    as (c_a & Hrun_a & Hla & _).
  destruct (run_choice floor_materials n (later (Z.to_nat n) (later (Z.to_nat n) (later (Z.to_nat n) (later (Z.to_nat n) s))))
              ltac:(done) Hn)
    as (c_f & Hrun_f & Hlf & Hf).
  destruct (run_choice styles n (later (Z.to_nat n) (later (Z.to_nat n) (later (Z.to_nat n) (later (Z.to_nat n) (later (Z.to_nat n) s)))))
              ltac:(done) Hn)
    as (c_st & Hrun_st & Hlst & Hst).
  set (s6 := later (Z.to_nat n) (later (Z.to_nat n) (later (Z.to_nat n) (later (Z.to_nat n) (later (Z.to_nat n) (later (Z.to_nat n) s)))))) in *.
  set (data := {| col_rooms := c_r; col_bathrooms := c_b; col_total_surface := c_s;
                  col_building_age := c_a; col_floor_material := c_f; col_style := c_st;
                  col_monthly_rent := [] |}).
  destruct (run_rent_loop (Z.to_nat n) (range n) data s6) as (data' & new & Hrun & Hsame & Hnew & Hlnew & Hall);
    [done..| |].
  { unfold range. apply Forall_forall. intros i Hi%elem_of_seq. lia. }
  destruct Hsame as (Er & Eb & Es & Ea & Ef & Est). simpl in Er, Eb, Es, Ea, Ef, Est, Hnew.
  assert (length (range n) = (Z.to_nat n)) as Hlrange by (unfold range; apply length_seq).
  rewrite Hlrange in Hrun, Hlnew.
  destruct (zip_rows_Some (Z.to_nat n) (col_rooms data') (col_bathrooms data')
              (col_total_surface data') (col_building_age data')
              (col_floor_material data') (col_style data') (col_monthly_rent data'))
    as (rows & Hzip & Hlen & Hrows);
    [by rewrite ?Er, ?Eb, ?Es, ?Ea, ?Ef, ?Est, ?Hnew..|].
  exists rows. unfold generate_apartment_data.
  rewrite (run_bind _ _ _ _ _ Hrun_r), (run_bind _ _ _ _ _ Hrun_b),
    (run_bind _ _ _ _ _ Hrun_s), (run_bind _ _ _ _ _ Hrun_a),
    (run_bind _ _ _ _ _ Hrun_f), (run_bind _ _ _ _ _ Hrun_st).
  fold data. rewrite (run_bind _ _ _ _ _ Hrun).
  rewrite (run_lift _ rows) by (unfold DataFrame; by rewrite Hzip).
  assert (later (Z.to_nat n) s6 = later (7 * (Z.to_nat n)) s) as ->.
  { unfold s6. rewrite !later_later. f_equal. lia. }
  split_and!; [done..|].
  intros i row Hi.
  destruct (Hrows i row Hi) as (Hri & Hbi & Hsi & Hai & Hfi & Hsti & Hmi).
  rewrite Er in Hri. rewrite Eb in Hbi. rewrite Es in Hsi. rewrite Ea in Hai.
  rewrite Ef in Hfi. rewrite Est in Hsti. rewrite Hnew in Hmi. simpl in Hmi.
  split_and!.
  - destruct (Hf i _ Hfi) as (k & _ & Hk). by eapply list_elem_of_lookup_2.
  - destruct (Hst i _ Hsti) as (k & _ & Hk). by eapply list_elem_of_lookup_2.
  - assert (range n !! i = Some i) as Hseq.
    { unfold range. apply lookup_seq. split; [done|].
      apply lookup_lt_Some in Hmi. lia. }
    destruct (Hall i i _ Hseq Hmi) as (r & b & sf & a & u & Hr' & Hb' & Hs' & Ha' & Hu & Hx).
    simpl in Hr', Hb', Hs', Ha'. simplify_eq.
    exists u. split; [|done].
    assert (∀ j, later j s6 = later (6 * Z.to_nat n + j) s) as Hs6.
    { intros j. unfold s6. rewrite !later_later. f_equal. lia. }
    unfold draws_at in *. rewrite !Hs6 in Hu.
    by replace (6 * Z.to_nat n + S i)%nat with (S (6 * Z.to_nat n + i)) in Hu by lia.
Qed.
End GeneratorDraws.

Lemma uniform1_of_sample (low high : Q) (s : Rng.state) (k : nat) (u : Q) :
  draws_at (Rng.uniform1 low high) s k u ->
  ∃ x, draws_at Rng.random_sample s k x ∧ u = (low + (high - low) * x)%Q.
Proof.
  unfold draws_at, Rng.uniform1. intros Hu.
  destruct (Rng.run Rng.random_sample (later k s)) as [e|[x s']] eqn:Hx.
  - simpl in Hu, Hx. congruence.
  - exists x. simpl in Hu, Hx. simplify_eq. done.
Qed.

(** C5. For [n >= 0], [generate_apartment_data(n)] returns a table of
    exactly [n] rows, after [7 n] draws: [6 n] for the columns, then one per
    row in the loop. The rent of row [i] is
    [max(500, (1000 + 300 rooms + 200 bathrooms + 10 surface - 10 age) * u)]
    where the factor [u] is what the call [uniform(0.8, 1.2)] returns on the
    draw the loop makes for that row: [0.8 + (1.2 - 0.8) x] for the sample
    [x] of [[0, 1)] numpy makes of that draw, so [u] is in [[0.8, 1.2]]. The
    rent is at least 500, and the two labels are among the five floor
    materials and the five styles. *)
Theorem C5_generated_table (n : Z) (s : Rng.state) :
  0 <= n ->
  ∃ df,
    Rng.run (DataGenerator.generate_apartment_data n) s
    = Py.Return (df, later (7 * Z.to_nat n) s)
    ∧ length df = Z.to_nat n
    ∧ ∀ i row, df !! i = Some row ->
        (∃ x u,
           draws_at Rng.random_sample s (6 * Z.to_nat n + i) x
           ∧ (0 <= x)%Q ∧ (x < 1)%Q
           ∧ draws_at (Rng.uniform1 (8 # 10) (12 # 10)) s (6 * Z.to_nat n + i) u
           ∧ u = ((8 # 10) + ((12 # 10) - (8 # 10)) * x)%Q
           ∧ (8 # 10 <= u)%Q ∧ (u <= 12 # 10)%Q
           ∧ (DataGenerator.monthly_rent row == specified_rent row u)%Q)
        ∧ (inject_Z 500 <= DataGenerator.monthly_rent row)%Q
        ∧ DataGenerator.floor_material row
            ∈ ["Hardwood"; "Carpet"; "Tile"; "Laminate"; "Vinyl"]
        ∧ DataGenerator.style row
            ∈ ["Modern"; "Contemporary"; "Traditional"; "Industrial"; "Minimalist"].
Proof.
  intros Hn. destruct (generate_apartment_data_draws n s Hn) as (df & Hrun & Hlen & Hrows).
  exists df. split_and!; [done..|].
  intros i row Hi. destruct (Hrows i row Hi) as (Hf & Hst & u & Hu & Hrent).
  destruct (uniform1_of_sample _ _ _ _ _ Hu) as (x & Hx & Hux).
  destruct (draws_at_yields _ _ _ _ _ yields_random_sample Hx) as [Hx0 Hx1].
  destruct (draws_at_yields _ _ _ _ _ (yields_uniform1 (8 # 10) (12 # 10) ltac:(done)) Hu)
    as [Hu1 Hu2].
  split_and!; [|rewrite Hrent; apply max_ge_second|exact Hf|exact Hst].
  exists x, u. split_and!; [done..|].
  rewrite Hrent, max_is_Qmax. unfold specified_rent.
  apply Q.max_compat; [reflexivity|].
  by rewrite base_rent_as_specified.
Qed.

Lemma C5_generated_table_witness :
  ∃ df,
    Rng.run (DataGenerator.generate_apartment_data 3) stepping_state
    = Py.Return (df, later (7 * Z.to_nat 3) stepping_state)
    ∧ length df = Z.to_nat 3
    ∧ ∀ i row, df !! i = Some row ->
        (∃ x u,
           draws_at Rng.random_sample stepping_state (6 * Z.to_nat 3 + i) x
           ∧ (0 <= x)%Q ∧ (x < 1)%Q
           ∧ draws_at (Rng.uniform1 (8 # 10) (12 # 10)) stepping_state
               (6 * Z.to_nat 3 + i) u
           ∧ u = ((8 # 10) + ((12 # 10) - (8 # 10)) * x)%Q
           ∧ (8 # 10 <= u)%Q ∧ (u <= 12 # 10)%Q
           ∧ (DataGenerator.monthly_rent row == specified_rent row u)%Q)
        ∧ (inject_Z 500 <= DataGenerator.monthly_rent row)%Q
        ∧ DataGenerator.floor_material row
            ∈ ["Hardwood"; "Carpet"; "Tile"; "Laminate"; "Vinyl"]
        ∧ DataGenerator.style row
            ∈ ["Modern"; "Contemporary"; "Traditional"; "Industrial"; "Minimalist"].
Proof. apply (C5_generated_table 3 stepping_state). lia. Defined.

(** ** Text of the error details *)

Lemma append_nil_l (t : string) : EmptyString +:+ t = t.
Proof. reflexivity. Qed.

Lemma append_cons (a : ascii) (s t : string) : String a s +:+ t = String a (s +:+ t).
Proof. reflexivity. Qed.

Lemma append_assoc (s t u : string) : (s +:+ t) +:+ u = s +:+ (t +:+ u).
Proof.
  induction s as [|a s IH]; [done|].
  by rewrite !append_cons, IH.
Qed.

Lemma occurs_in_refl (x : string) : occurs_in x x.
Proof.
  exists EmptyString, EmptyString. rewrite append_nil_l.
  induction x as [|a x IH]; [done|]. by rewrite append_cons, <- IH.
Qed.

Lemma occurs_in_prefixed (x p t : string) : occurs_in x t -> occurs_in x (p +:+ t).
Proof.
  intros (before & after & ->). exists (p +:+ before), after.
  by rewrite append_assoc.
Qed.

Lemma occurs_in_suffixed (x t q : string) : occurs_in x t -> occurs_in x (t +:+ q).
Proof.
  intros (before & after & ->). exists before, (after +:+ q).
  by rewrite !append_assoc.
Qed.

Lemma occurs_in_join (sep x : string) (xs : list string) :
  x ∈ xs -> occurs_in x (Py.join sep xs).
Proof.
  induction xs as [|y [|z xs] IH]; intros Hx.
  - by apply elem_of_nil in Hx.
  - apply list_elem_of_singleton in Hx as ->. apply occurs_in_refl.
  - apply elem_of_cons in Hx as [->|Hx].
    + change (occurs_in y (y +:+ sep +:+ Py.join sep (z :: xs))).
      apply occurs_in_suffixed, occurs_in_refl.
    + change (occurs_in x (y +:+ sep +:+ Py.join sep (z :: xs))).
      by apply occurs_in_prefixed, occurs_in_prefixed, IH.
Qed.

Lemma occurs_in_str_list (l : string) (ls : list string) :
  l ∈ ls -> occurs_in (Py.repr l) (Py.str_list ls).
Proof.
  intros Hl. unfold Py.str_list.
  apply occurs_in_prefixed, occurs_in_suffixed, occurs_in_join.
  by apply list_elem_of_fmap_2.
Qed.

(** ** The prediction service *)

Section ApiFacts.
Context `{Learning}.
Variable loaded : artifacts.
Import Io Api.

Lemma predict_rent_unknown_floor (b : ApartmentFeatures) :
  floor_material b ∉ LabelEncoder.classes_ (le_floor loaded) ->
  predict_rent loaded b
  = Io (Py.Raise (Py.HTTPException 400
          ("Invalid floor_material. Valid values are: "
           +:+ Py.str_list (LabelEncoder.classes_ (le_floor loaded))))) [].
Proof.
  intros Hf. unfold predict_rent, LabelEncoder.mem.
  by rewrite bool_decide_eq_false_2.
Qed.

Lemma predict_rent_unknown_style (b : ApartmentFeatures) :
  floor_material b ∈ LabelEncoder.classes_ (le_floor loaded) ->
  style b ∉ LabelEncoder.classes_ (le_style loaded) ->
  predict_rent loaded b
  = Io (Py.Raise (Py.HTTPException 400
          ("Invalid style. Valid values are: "
           +:+ Py.str_list (LabelEncoder.classes_ (le_style loaded))))) [].
Proof.
  intros Hf Hs. unfold predict_rent, LabelEncoder.mem.
  rewrite bool_decide_eq_true_2 by done.
  by rewrite bool_decide_eq_false_2.
Qed.
End ApiFacts.

(** C1. A body that passes the numeric validation and whose floor material
    is not a class of the loaded floor encoder is answered with status 400
    and the detail ["Invalid floor_material. Valid values are: "] followed
    by the printed class list of the floor encoder; a body whose floor
    material is known and whose style is not a class of the loaded style
    encoder is answered with status 400 and the detail
    ["Invalid style. Valid values are: "] followed by the printed class list
    of the style encoder. Each class of the encoder of the field that is
    named occurs in the detail. In both cases the status is not 500, and
    neither the wrapper nor the logger is touched. *)
Theorem C1_unknown_label_is_client_error `{Learning} (loaded : artifacts)
    (b : Api.ApartmentFeatures) :
  Api.validate b = [] ->
  (Api.floor_material b ∉ LabelEncoder.classes_ (le_floor loaded) ->
   ∃ detail,
     detail = "Invalid floor_material. Valid values are: "
              +:+ Py.str_list (LabelEncoder.classes_ (le_floor loaded))
     ∧ Api.post_predict loaded b
       = Io.Io (Py.Return {| Api.status_code := 400; Api.body := Api.JsonDetail detail |}) []
     ∧ (∀ l, l ∈ LabelEncoder.classes_ (le_floor loaded) -> occurs_in (Py.repr l) detail))
  ∧ (Api.floor_material b ∈ LabelEncoder.classes_ (le_floor loaded) ->
     Api.style b ∉ LabelEncoder.classes_ (le_style loaded) ->
     ∃ detail,
       detail = "Invalid style. Valid values are: "
                +:+ Py.str_list (LabelEncoder.classes_ (le_style loaded))
       ∧ Api.post_predict loaded b
         = Io.Io (Py.Return {| Api.status_code := 400; Api.body := Api.JsonDetail detail |}) []
       ∧ (∀ l, l ∈ LabelEncoder.classes_ (le_style loaded) -> occurs_in (Py.repr l) detail))
  ∧ (Api.floor_material b ∉ LabelEncoder.classes_ (le_floor loaded)
     ∨ Api.style b ∉ LabelEncoder.classes_ (le_style loaded) ->
     ∃ r, Io.outcome (Api.post_predict loaded b) = Py.Return r
          ∧ Api.status_code r = 400 ∧ Api.status_code r ≠ 500
          ∧ Io.trace (Api.post_predict loaded b) = []).
Proof.
  intros Hvalid. unfold Api.post_predict. rewrite Hvalid. split_and!.
  - intros Hf. eexists. split; [reflexivity|].
    rewrite (predict_rent_unknown_floor loaded b Hf). split; [done|].
    intros l Hl. by apply (occurs_in_prefixed _ "Invalid floor_material. Valid values are: "),
      occurs_in_str_list.
  - intros Hf Hs. eexists. split; [reflexivity|].
    rewrite (predict_rent_unknown_style loaded b Hf Hs). split; [done|].
    intros l Hl. by apply (occurs_in_prefixed _ "Invalid style. Valid values are: "),
      occurs_in_str_list.
  - intros Hunknown.
    destruct (decide (Api.floor_material b ∈ LabelEncoder.classes_ (le_floor loaded)))
      as [Hf|Hf].
    + destruct Hunknown as [?|Hs]; [done|].
      rewrite (predict_rent_unknown_style loaded b Hf Hs). by eexists.
    + rewrite (predict_rent_unknown_floor loaded b Hf). by eexists.
Qed.

Lemma C1_unknown_label_witness :
  Api.post_predict MeanLearning.loaded marble_floor
  = Io.Io (Py.Return
      {| Api.status_code := 400;
         Api.body := Api.JsonDetail
           "Invalid floor_material. Valid values are: ['Carpet', 'Hardwood', 'Laminate', 'Tile', 'Vinyl']" |}) []
  ∧ Api.post_predict MeanLearning.loaded baroque_style
    = Io.Io (Py.Return
        {| Api.status_code := 400;
           Api.body := Api.JsonDetail
             "Invalid style. Valid values are: ['Contemporary', 'Industrial', 'Minimalist', 'Modern', 'Traditional']" |}) [].
Proof.
  split.
  - destruct (C1_unknown_label_is_client_error MeanLearning.loaded marble_floor)
      as (Hfloor & _ & _); [reflexivity|].
    destruct Hfloor as (detail & -> & Hrun & _); [|exact Hrun].
    vm_compute. intros Hin%list_elem_of_In. vm_compute in Hin.
    repeat (destruct Hin as [Hin|Hin]; [discriminate|]). exact Hin.
  - destruct (C1_unknown_label_is_client_error MeanLearning.loaded baroque_style)
      as (_ & Hstyle & _); [reflexivity|].
    destruct Hstyle as (detail & -> & Hrun & _); [| |exact Hrun].
    + vm_compute. apply list_elem_of_In. vm_compute. tauto.
    + vm_compute. intros Hin%list_elem_of_In. vm_compute in Hin.
      repeat (destruct Hin as [Hin|Hin]; [discriminate|]). exact Hin.
Defined.

(** ** Validation of the request body *)

Section ValidationFacts.
Import Api.

Lemma check_field_below (name : string) (f : Field) (v : Q) :
  (v < ge f)%Q ->
  check_field name f v
  = [{| loc := ["body"; name]; type_ := greater_than_equal; ctx := ge f |}].
Proof.
  intros Hlt. unfold check_field.
  destruct (Qle_bool (ge f) v) eqn:Hle; [|done].
  apply Qle_bool_iff in Hle. by apply Qle_not_lt in Hle.
Qed.

Lemma check_field_above (name : string) (f : Field) (v : Q) :
  (ge f <= v)%Q -> (le f < v)%Q ->
  check_field name f v
  = [{| loc := ["body"; name]; type_ := less_than_equal; ctx := le f |}].
Proof.
  intros Hge Hlt. unfold check_field.
  apply Qle_bool_iff in Hge. rewrite Hge. simpl.
  destruct (Qle_bool v (le f)) eqn:Hle; [|done].
  apply Qle_bool_iff in Hle. by apply Qle_not_lt in Hle.
Qed.

Lemma check_field_nil (name : string) (f : Field) (v : Q) :
  check_field name f v = [] ↔ (ge f <= v)%Q ∧ (v <= le f)%Q.
Proof.
  unfold check_field. split.
  - destruct (Qle_bool (ge f) v) eqn:Hge; [|done].
    destruct (Qle_bool v (le f)) eqn:Hle; [|done].
    intros _. by split; apply Qle_bool_iff.
  - intros [Hge Hle]. apply Qle_bool_iff in Hge, Hle. by rewrite Hge, Hle.
Qed.

Lemma validate_nil (b : ApartmentFeatures) :
  validate b = [] ↔
  1 <= rooms b <= 5 ∧ 1 <= bathrooms b <= 3
  ∧ (inject_Z 30 <= total_surface b)%Q ∧ (total_surface b <= inject_Z 200)%Q
  ∧ 0 <= building_age b <= 50.
Proof.
  unfold validate. rewrite !app_nil, !check_field_nil. simpl.
  rewrite <- !Zle_Qle. tauto.
Qed.
End ValidationFacts.

(** ** The ranges of the generated columns *)

Lemma one_row_has_sound (col : DataGenerator.row -> Z) (c : N) (v : Z) :
  one_row_has col c v = true ->
  ∃ s row s', Rng.run (DataGenerator.generate_apartment_data 1) s = Py.Return ([row], s')
              ∧ col row = v.
Proof.
  unfold one_row_has. intros Hc. exists (constant_state c).
  destruct (Rng.run _ _) as [e|[[|row [|row' df]] s']]; try done.
  exists row, s'. split; [done|]. by apply bool_decide_eq_true in Hc.
Qed.

Lemma one_row_covers (col : DataGenerator.row -> Z) (low : Z) (count : nat) (v : Z) :
  forallb (fun x => one_row_has col (Z.to_N (x - low)) x) (seqZ low (Z.of_nat count)) = true ->
  low <= v < low + Z.of_nat count ->
  ∃ s row s', Rng.run (DataGenerator.generate_apartment_data 1) s = Py.Return ([row], s')
              ∧ col row = v.
Proof.
  intros Hall Hv. apply (one_row_has_sound col (Z.to_N (v - low))).
  rewrite forallb_forall in Hall. apply Hall.
  apply list_elem_of_In, elem_of_seqZ. lia.
Qed.

(** C10. Every generated row has [building_age] in 0..49, [rooms] in 1..5
    and [bathrooms] in 1..3, and each value of these ranges is generated
    from some state of the generator; the service's validation accepts
    [building_age = 50], which no generated row has. *)
Theorem C10_generated_ranges (n : Z) (s : Rng.state) :
  0 <= n ->
  (∃ df s',
     Rng.run (DataGenerator.generate_apartment_data n) s = Py.Return (df, s')
     ∧ Forall (fun row =>
         0 <= DataGenerator.building_age row <= 49
         ∧ 1 <= DataGenerator.rooms row <= 5
         ∧ 1 <= DataGenerator.bathrooms row <= 3
         ∧ DataGenerator.building_age row ≠ 50) df)
  ∧ (∀ v, (0 <= v <= 49 ->
           ∃ s0 row s', Rng.run (DataGenerator.generate_apartment_data 1) s0
                        = Py.Return ([row], s') ∧ DataGenerator.building_age row = v)
          ∧ (1 <= v <= 5 ->
           ∃ s0 row s', Rng.run (DataGenerator.generate_apartment_data 1) s0
                        = Py.Return ([row], s') ∧ DataGenerator.rooms row = v)
          ∧ (1 <= v <= 3 ->
           ∃ s0 row s', Rng.run (DataGenerator.generate_apartment_data 1) s0
                        = Py.Return ([row], s') ∧ DataGenerator.bathrooms row = v))
  ∧ (∀ b, 1 <= Api.rooms b <= 5 -> 1 <= Api.bathrooms b <= 3 ->
          (inject_Z 30 <= Api.total_surface b)%Q ->
          (Api.total_surface b <= inject_Z 200)%Q ->
          Api.building_age b = 50 ->
          Api.validate b = []).
Proof.
  intros Hn. split_and!.
  - destruct (yields_generate_apartment_data n Hn s) as (df & s' & Hrun & _ & Hrows).
    exists df, s'. split; [done|].
    eapply Forall_impl; [exact Hrows|].
    intros row (? & ? & _ & _ & ? & _). lia.
  - intros v. split_and!; intros Hv.
    + apply (one_row_covers DataGenerator.building_age 0 50); [by vm_compute | lia].
    + apply (one_row_covers DataGenerator.rooms 1 5); [by vm_compute | lia].
    + apply (one_row_covers DataGenerator.bathrooms 1 3); [by vm_compute | lia].
  - intros b ? ? ? ? Hage. apply validate_nil. rewrite Hage. split_and!; first [done | lia].
Qed.

Lemma C10_generated_ranges_witness :
  ∃ df s',
    Rng.run (DataGenerator.generate_apartment_data 4) (constant_state 49)
    = Py.Return (df, s')
    ∧ Forall (fun row =>
        0 <= DataGenerator.building_age row <= 49
        ∧ 1 <= DataGenerator.rooms row <= 5
        ∧ 1 <= DataGenerator.bathrooms row <= 3
        ∧ DataGenerator.building_age row ≠ 50) df.
Proof. apply (C10_generated_ranges 4 (constant_state 49)). lia. Defined.

(** A request model with a number outside its bound does not reach the
    handler: the answer is the validation error, with one entry per violated
    bound of the first kind each field violates. *)
Lemma validation_rejects_out_of_bounds `{Learning} (loaded : artifacts)
    (b : Api.ApartmentFeatures) :
  ¬ (1 <= Api.rooms b <= 5 ∧ 1 <= Api.bathrooms b <= 3
     ∧ (inject_Z 30 <= Api.total_surface b)%Q ∧ (Api.total_surface b <= inject_Z 200)%Q
     ∧ 0 <= Api.building_age b <= 50) ->
  ∃ errors,
    Api.post_predict loaded b
    = Io.Io (Py.Return {| Api.status_code := 422; Api.body := Api.JsonErrors errors |}) []
    ∧ errors ≠ []
    ∧ (let entry field kind bound :=
         {| Api.loc := ["body"; field]; Api.type_ := kind; Api.ctx := inject_Z bound |} in
       (Api.rooms b < 1 -> entry "rooms" Api.greater_than_equal 1 ∈ errors)
       ∧ (5 < Api.rooms b -> entry "rooms" Api.less_than_equal 5 ∈ errors)
       ∧ (Api.bathrooms b < 1 -> entry "bathrooms" Api.greater_than_equal 1 ∈ errors)
       ∧ (3 < Api.bathrooms b -> entry "bathrooms" Api.less_than_equal 3 ∈ errors)
       ∧ ((Api.total_surface b < inject_Z 30)%Q ->
          entry "total_surface" Api.greater_than_equal 30 ∈ errors)
       ∧ ((inject_Z 200 < Api.total_surface b)%Q ->
          entry "total_surface" Api.less_than_equal 200 ∈ errors)
       ∧ (Api.building_age b < 0 -> entry "building_age" Api.greater_than_equal 0 ∈ errors)
       ∧ (50 < Api.building_age b -> entry "building_age" Api.less_than_equal 50 ∈ errors)).
Proof.
  intros Hout. exists (Api.validate b).
  assert (Api.validate b ≠ []) as Hne by (by rewrite validate_nil).
  split_and!; [|done|].
  - unfold Api.post_predict. by destruct (Api.validate b).
  - unfold Api.validate. simpl. rewrite !elem_of_app.
    split_and!; intros Hv.
    + left. rewrite check_field_below; [apply list_elem_of_singleton; done|].
      simpl. rewrite <- Zlt_Qlt. lia.
    + left. rewrite check_field_above; [apply list_elem_of_singleton; done|..];
        simpl; [rewrite <- Zle_Qle|rewrite <- Zlt_Qlt]; lia.
    + right. left. rewrite check_field_below; [apply list_elem_of_singleton; done|].
      simpl. rewrite <- Zlt_Qlt. lia.
    + right. left. rewrite check_field_above; [apply list_elem_of_singleton; done|..];
        simpl; [rewrite <- Zle_Qle|rewrite <- Zlt_Qlt]; lia.
    + right. right. left.
      rewrite check_field_below; [apply list_elem_of_singleton; done|done].
    + right. right. left.
      rewrite check_field_above; [apply list_elem_of_singleton; done|..]; simpl; [|done].
      apply Qlt_le_weak. eapply Qlt_trans; [|exact Hv]. done.
    + right. right. right.
      rewrite check_field_below; [apply list_elem_of_singleton; done|].
      simpl. rewrite <- Zlt_Qlt. lia.
    + right. right. right.
      rewrite check_field_above; [apply list_elem_of_singleton; done|..];
        simpl; [rewrite <- Zle_Qle|rewrite <- Zlt_Qlt]; lia.
Qed.

Section WireFacts.
Context `{Learning}.
Variable loaded : artifacts.

Lemma post_predict_finite (b : Wire.body) (q : Q) :
  Wire.total_surface b = Wire.Finite q ->
  Wire.post_predict loaded b
  = Io.Io (Wire.Answer <$> Io.outcome (Api.post_predict loaded (Wire.parsed b q)))
      (Io.trace (Api.post_predict loaded (Wire.parsed b q))).
Proof. intros Hq. unfold Wire.post_predict. by rewrite Hq. Qed.

Lemma post_predict_infinite (b : Wire.body) (negative : bool) :
  Wire.total_surface b = Wire.Infinity negative ->
  Wire.post_predict loaded b = Io.Io (Py.Return Wire.ServerError) [].
Proof. intros Hq. unfold Wire.post_predict. by rewrite Hq. Qed.
End WireFacts.

(** C3, as the code has it. A body whose six fields are present and of
    their declared types, whose surface was read as a finite number, and
    which has a numeric field outside its bound, is rejected by the
    validation of the request model before the handler runs, so the wrapper
    is not called; the answer is the framework's validation error, status
    422, and its list of errors has, for each violated bound, an entry whose
    location is the field and whose context is the bound. *)
Theorem C3_out_of_bounds_is_rejected `{Learning} (loaded : artifacts)
    (b : Wire.body) (q : Q) :
  Wire.total_surface b = Wire.Finite q ->
  ¬ (1 <= Wire.rooms b <= 5 ∧ 1 <= Wire.bathrooms b <= 3
     ∧ (inject_Z 30 <= q)%Q ∧ (q <= inject_Z 200)%Q
     ∧ 0 <= Wire.building_age b <= 50) ->
  ∃ errors,
    Wire.post_predict loaded b
    = Io.Io (Py.Return (Wire.Answer
               {| Api.status_code := 422; Api.body := Api.JsonErrors errors |})) []
    ∧ errors ≠ []
    ∧ (let entry field kind bound :=
         {| Api.loc := ["body"; field]; Api.type_ := kind; Api.ctx := inject_Z bound |} in
       (Wire.rooms b < 1 -> entry "rooms" Api.greater_than_equal 1 ∈ errors)
       ∧ (5 < Wire.rooms b -> entry "rooms" Api.less_than_equal 5 ∈ errors)
       ∧ (Wire.bathrooms b < 1 -> entry "bathrooms" Api.greater_than_equal 1 ∈ errors)
       ∧ (3 < Wire.bathrooms b -> entry "bathrooms" Api.less_than_equal 3 ∈ errors)
       ∧ ((q < inject_Z 30)%Q ->
          entry "total_surface" Api.greater_than_equal 30 ∈ errors)
       ∧ ((inject_Z 200 < q)%Q ->
          entry "total_surface" Api.less_than_equal 200 ∈ errors)
       ∧ (Wire.building_age b < 0 -> entry "building_age" Api.greater_than_equal 0 ∈ errors)
       ∧ (50 < Wire.building_age b -> entry "building_age" Api.less_than_equal 50 ∈ errors)).
Proof.
  intros Hq Hout.
  destruct (validation_rejects_out_of_bounds loaded (Wire.parsed b q) Hout)
    as (errors & Hrun & Hne & Hentries).
  exists errors. split_and!; [|done|exact Hentries].
  rewrite (post_predict_finite loaded b q Hq), Hrun. reflexivity.
Qed.

Lemma C3_out_of_bounds_witness :
  ∃ errors,
    Wire.post_predict MeanLearning.loaded (Wire.sent six_rooms)
    = Io.Io (Py.Return (Wire.Answer
               {| Api.status_code := 422; Api.body := Api.JsonErrors errors |})) []
    ∧ errors ≠ []
    ∧ {| Api.loc := ["body"; "rooms"]; Api.type_ := Api.less_than_equal;
         Api.ctx := inject_Z 5 |} ∈ errors.
Proof.
  destruct (C3_out_of_bounds_is_rejected MeanLearning.loaded (Wire.sent six_rooms)
              (inject_Z 80))
    as (errors & Hrun & Hne & _ & Hrooms & _).
  - reflexivity.
  - simpl. lia.
  - exists errors. split_and!; [done..|]. apply Hrooms. simpl. lia.
Defined.

(** C3 as stated fails: the status of the rejection is not 400. *)
Lemma C3_status_400_counterexample :
  ¬ ∃ c, Io.outcome (Api.post_predict MeanLearning.loaded six_rooms)
         = Py.Return {| Api.status_code := 400; Api.body := c |}.
Proof. intros [c Hc]. vm_compute in Hc. discriminate Hc. Qed.

(** ** The predict handler on known labels *)

Section PredictFacts.
Context `{Learning}.
Variable loaded : artifacts.
Import Io Api.

Lemma known_labels_codes (b : ApartmentFeatures) :
  floor_material b ∈ LabelEncoder.classes_ (le_floor loaded) ->
  style b ∈ LabelEncoder.classes_ (le_style loaded) ->
  ∃ fc sc,
    LabelEncoder.transform (le_floor loaded) [floor_material b] = Py.Return [fc]
    ∧ LabelEncoder.transform (le_style loaded) [style b] = Py.Return [sc].
Proof.
  intros (i & Hi & _)%transform_seen (j & Hj & _)%transform_seen. eauto.
Qed.

(** The handler, once both labels are known to have the codes [fc], [sc]. *)
Lemma predict_rent_known (b : ApartmentFeatures) (fc sc : Z) :
  floor_material b ∈ LabelEncoder.classes_ (le_floor loaded) ->
  style b ∈ LabelEncoder.classes_ (le_style loaded) ->
  LabelEncoder.transform (le_floor loaded) [floor_material b] = Py.Return [fc] ->
  LabelEncoder.transform (le_style loaded) [style b] = Py.Return [sc] ->
  let x := feature_vector (rooms b) (bathrooms b) (total_surface b) (building_age b) fc sc in
  match Mapie.predict (conformal_model loaded) [x] (5 # 100) with
  | Py.Return (prediction, pis) =>
      match Py.getitem prediction 0, getitem3 pis 0 0 0, getitem3 pis 0 1 0 with
      | Py.Return p, Py.Return lo, Py.Return up =>
          predict_rent loaded b
          = Io (Py.Return
                  {| predicted_rent := Py.round2 p;
                     confidence_interval :=
                       {| lower := Py.round2 lo; upper := Py.round2 up |};
                     confidence_level := "95%"; currency := "USD"; features := b |})
               [ModelPredict [x] (5 # 100)]
      | _, _, _ =>
          ∃ e, outcome (predict_rent loaded b) = Py.Raise e
               ∧ model_calls (trace (predict_rent loaded b)) = [([x], (5 # 100)%Q)]
      end
  | Py.Raise _ =>
      ∃ e, outcome (predict_rent loaded b) = Py.Raise e
           ∧ model_calls (trace (predict_rent loaded b)) = [([x], (5 # 100)%Q)]
  end.
Proof.
  intros Hf Hs Htf Hts x. unfold predict_rent, LabelEncoder.mem.
  rewrite !bool_decide_eq_true_2 by done. rewrite Htf, Hts.
  change (Mapie.predict (conformal_model loaded) [x] (5 # 100))
    with (Mapie.predict (conformal_model loaded)
            [[inject_Z (rooms b); inject_Z (bathrooms b); total_surface b;
              inject_Z (building_age b); inject_Z fc; inject_Z sc]] (5 # 100)).
  cbn.
  destruct (Mapie.predict _ _ _) as [e|[prediction pis]]; cbn.
  { destruct e; cbn; eauto. }
  destruct (Py.getitem prediction 0) as [e|p]; cbn.
  { destruct (getitem3 pis 0 0 0), (getitem3 pis 0 1 0); destruct e; cbn; eauto. }
  destruct (getitem3 pis 0 0 0) as [e|lo]; cbn.
  { destruct (getitem3 pis 0 1 0); destruct e; cbn; eauto. }
  destruct (getitem3 pis 0 1 0) as [e|up]; cbn.
  { destruct e; cbn; eauto. }
  reflexivity.
Qed.

(** On known labels the wrapper is called once, with the encoded vector
    and a significance of 5%. *)
Lemma predict_rent_calls (b : ApartmentFeatures) (fc sc : Z) :
  floor_material b ∈ LabelEncoder.classes_ (le_floor loaded) ->
  style b ∈ LabelEncoder.classes_ (le_style loaded) ->
  LabelEncoder.transform (le_floor loaded) [floor_material b] = Py.Return [fc] ->
  LabelEncoder.transform (le_style loaded) [style b] = Py.Return [sc] ->
  model_calls (trace (predict_rent loaded b))
  = [([feature_vector (rooms b) (bathrooms b) (total_surface b) (building_age b) fc sc],
      (5 # 100)%Q)].
Proof.
  intros Hf Hs Htf Hts.
  pose proof (predict_rent_known b fc sc Hf Hs Htf Hts) as Hrun. simpl in Hrun.
  destruct (Mapie.predict _ _ _) as [e|[prediction pis]]; [by destruct Hrun as (? & _ & ?)|].
  destruct (Py.getitem prediction 0); [by destruct Hrun as (? & _ & ?)|].
  destruct (getitem3 pis 0 0 0); [by destruct Hrun as (? & _ & ?)|].
  destruct (getitem3 pis 0 1 0); [by destruct Hrun as (? & _ & ?)|].
  by rewrite Hrun.
Qed.

Lemma predict_rent_unknown_trace (b : ApartmentFeatures) :
  floor_material b ∉ LabelEncoder.classes_ (le_floor loaded)
  ∨ style b ∉ LabelEncoder.classes_ (le_style loaded) ->
  trace (predict_rent loaded b) = [].
Proof.
  intros Hunknown.
  destruct (decide (floor_material b ∈ LabelEncoder.classes_ (le_floor loaded))) as [Hf|Hf].
  - destruct Hunknown as [?|Hs]; [done|]. by rewrite predict_rent_unknown_style.
  - by rewrite predict_rent_unknown_floor.
Qed.
End PredictFacts.

(** ** Rounding to cents keeps the order *)






(** C2, as the code has it. The two lists of [/info] are the class lists of
    the loaded encoders, the very lists [/predict] checks membership in;
    [/predict] lets a body through to the wrapper exactly when its numbers
    are within the bounds [/info] reports and its labels are in the lists
    [/info] reports; the bounds are 1-5, 1-3, 30-200 and 0-50, equal to the
    limits of the request model, and are literals: they are the same for
    all artifacts. *)
Theorem C2_info_agrees_with_predict `{Learning} (loaded : artifacts) :
  let i := Api.info_of (Api.model_info loaded) in
  Api.floor_materials i = LabelEncoder.classes_ (le_floor loaded)
  ∧ Api.styles i = LabelEncoder.classes_ (le_style loaded)
  ∧ (∀ b,
       model_calls (Io.trace (Api.post_predict loaded b)) ≠ [] ↔
       Api.min (Api.info_rooms i) <= Api.rooms b <= Api.max (Api.info_rooms i)
       ∧ Api.min (Api.info_bathrooms i) <= Api.bathrooms b <= Api.max (Api.info_bathrooms i)
       ∧ (inject_Z (Api.min (Api.info_total_surface i)) <= Api.total_surface b)%Q
       ∧ (Api.total_surface b <= inject_Z (Api.max (Api.info_total_surface i)))%Q
       ∧ Api.min (Api.info_building_age i) <= Api.building_age b
         <= Api.max (Api.info_building_age i)
       ∧ Api.floor_material b ∈ Api.floor_materials i
       ∧ Api.style b ∈ Api.styles i)
  ∧ numeric_bounds (Api.model_info loaded)
    = ({| Api.min := 1; Api.max := 5 |}, {| Api.min := 1; Api.max := 3 |},
       {| Api.min := 30; Api.max := 200 |}, {| Api.min := 0; Api.max := 50 |})
  ∧ (inject_Z (Api.min (Api.info_rooms i)) = Api.ge Api.rooms_field
     ∧ inject_Z (Api.max (Api.info_rooms i)) = Api.le Api.rooms_field
     ∧ inject_Z (Api.min (Api.info_bathrooms i)) = Api.ge Api.bathrooms_field
     ∧ inject_Z (Api.max (Api.info_bathrooms i)) = Api.le Api.bathrooms_field
     ∧ inject_Z (Api.min (Api.info_total_surface i)) = Api.ge Api.total_surface_field
     ∧ inject_Z (Api.max (Api.info_total_surface i)) = Api.le Api.total_surface_field
     ∧ inject_Z (Api.min (Api.info_building_age i)) = Api.ge Api.building_age_field
     ∧ inject_Z (Api.max (Api.info_building_age i)) = Api.le Api.building_age_field)
  ∧ ¬ depends_on_artifacts (fun a => numeric_bounds (Api.model_info a)).
Proof.
  simpl. split_and!; try done.
  - intros b. split.
    + intros Hcalls.
      destruct (Api.validate b) as [|e errors] eqn:Hvalid;
        [|by unfold Api.post_predict in Hcalls; rewrite Hvalid in Hcalls].
      unfold Api.post_predict in Hcalls. rewrite Hvalid in Hcalls. simpl in Hcalls.
      apply validate_nil in Hvalid as (? & ? & ? & ? & ?).
      destruct (decide (Api.floor_material b ∈ LabelEncoder.classes_ (le_floor loaded)))
        as [Hf|Hf]; [|rewrite predict_rent_unknown_trace in Hcalls; by eauto].
      destruct (decide (Api.style b ∈ LabelEncoder.classes_ (le_style loaded)))
        as [Hs|Hs]; [|rewrite predict_rent_unknown_trace in Hcalls; by eauto].
      done.
    + intros (? & ? & ? & ? & ? & Hf & Hs).
      assert (Api.validate b = []) as Hvalid by (by apply validate_nil).
      unfold Api.post_predict. rewrite Hvalid. simpl.
      destruct (known_labels_codes loaded b Hf Hs) as (fc & sc & Htf & Hts).
      by rewrite (predict_rent_calls loaded b fc sc Hf Hs Htf Hts).
  - by intros (a & a' & Hne).
Qed.

(** C2 as stated fails on the numeric bounds: no change of artifacts
    changes them, while the label lists do follow the encoders. *)
Lemma C2_bounds_not_read_from_artifacts_counterexample :
  ¬ @depends_on_artifacts MeanLearning.learning _
      (fun a => numeric_bounds (Api.model_info a))
  ∧ @depends_on_artifacts MeanLearning.learning _
      (fun a => Api.floor_materials (Api.info_of (Api.model_info a))).
Proof.
  split.
  - by intros (a & a' & Hne).
  - exists MeanLearning.loaded.
    exists {| model := model MeanLearning.loaded;
              conformal_model := conformal_model MeanLearning.loaded;
              le_floor := LabelEncoder.fit ["Marble"];
              le_style := le_style MeanLearning.loaded |}.
    vm_compute. discriminate.
Qed.

(** ** The form script *)

Section QuietRuns.
Import Io.

Lemma quiet_ret {A} (a : A) : quiet (mret a).
Proof. constructor. Qed.

Lemma quiet_lift {A} (r : Py.result A) : quiet (lift r).
Proof. constructor. Qed.

Lemma quiet_raise {A} (e : Py.exn) : quiet (@raise A e).
Proof. constructor. Qed.

Lemma quiet_emit (e : event) : ¬ is_warning e -> quiet (emit e).
Proof. intros He. by repeat constructor. Qed.

Lemma quiet_bind {A B} (m : io A) (k : A -> io B) :
  quiet m -> (∀ a, quiet (k a)) -> quiet (m ≫= k).
Proof.
  intros Hm Hk. unfold quiet, mbind, io_bind.
  destruct (outcome m) as [e|a]; simpl; [done|].
  apply Forall_app. split; [done | apply Hk].
Qed.

Lemma quiet_try_except {A} (body : io A) (handler : Py.exn -> io A) :
  quiet body -> (∀ e, quiet (handler e)) -> quiet (try_except body handler).
Proof.
  intros Hb Hh. unfold quiet, try_except.
  destruct (outcome body) as [e|a]; simpl; [|done].
  apply Forall_app. split; [done | apply Hh].
Qed.

Lemma quiet_model_predict `{Learning} (m : Mapie.t) (X : list (list Q)) (alpha : Q) :
  quiet (model_predict m X alpha).
Proof.
  unfold model_predict. apply quiet_bind.
  - apply quiet_emit. simpl. tauto.
  - intros _. apply quiet_lift.
Qed.
End QuietRuns.

Section AppFacts.
Context `{Learning}.
Variable loaded : artifacts.
Import Io App.

Lemma quiet_on_calculate (w : widgets) : quiet (on_calculate loaded w).
Proof.
  unfold on_calculate.
  repeat first
    [ apply quiet_emit; simpl; tauto
    | apply quiet_lift
    | apply quiet_raise
    | apply quiet_ret
    | apply quiet_model_predict
    | apply quiet_try_except; [|intros ?]
    | apply quiet_bind; [|intros ?]
    | match goal with |- quiet (let '(_, _) := ?p in _) => destruct p end ].
Qed.

Lemma select_input_data (r b s a fc sc : Z) :
  Frame.select features
    [("rooms", inject_Z r); ("bathrooms", inject_Z b); ("total_surface", inject_Z s);
     ("building_age", inject_Z a); ("floor_material_encoded", inject_Z fc);
     ("style_encoded", inject_Z sc)]
  = Py.Return (feature_vector r b (inject_Z s) a fc sc).
Proof. reflexivity. Qed.

(** The submit branch, once both labels are known to have the codes
    [fc], [sc]. *)
Lemma on_calculate_known (w : widgets) (fc sc : Z) :
  LabelEncoder.transform (le_floor loaded) [floor_material w] = Py.Return [fc] ->
  LabelEncoder.transform (le_style loaded) [style w] = Py.Return [sc] ->
  let x := feature_vector (rooms w) (bathrooms w) (inject_Z (total_surface w))
             (building_age w) fc sc in
  model_calls (trace (on_calculate loaded w)) = [([x], (5 # 100)%Q)]
  ∧ ∀ prediction pis point lo up,
      Mapie.predict (conformal_model loaded) [x] (5 # 100) = Py.Return (prediction, pis) ->
      Py.getitem prediction 0 = Py.Return point ->
      getitem3 pis 0 0 0 = Py.Return lo ->
      getitem3 pis 0 1 0 = Py.Return up ->
      outcome (on_calculate loaded w) = Py.Return tt
      ∧ StMetric "Lower Bound" (Py.round2 lo) (Some (Py.round2 (lo - point)))
          ∈ trace (on_calculate loaded w)
      ∧ StMetric "Best Estimate" (Py.round2 point) None ∈ trace (on_calculate loaded w)
      ∧ StMetric "Upper Bound" (Py.round2 up) (Some (Py.round2 (up - point)))
          ∈ trace (on_calculate loaded w).
Proof.
  intros Htf Hts x. unfold on_calculate. rewrite Htf, Hts.
  cbn -[Frame.select]. rewrite select_input_data. fold x. cbn. split.
  - destruct (Mapie.predict (conformal_model loaded) [x] (5 # 100))
      as [e|[prediction pis]]; cbn; [done|].
    destruct (getitem3 pis 0 0 0) as [e|lo]; cbn; [done|].
    destruct (getitem3 pis 0 1 0) as [e|up]; cbn; [done|].
    by destruct (Py.getitem prediction 0) as [e|point].
  - intros prediction pis point lo up -> Hpoint Hlo Hup. cbn.
    rewrite Hlo. cbn. rewrite Hup. cbn. rewrite Hpoint. cbn.
    split_and!; [done|..]; rewrite !elem_of_cons; tauto.
Qed.

(** The warnings come first and do not change what the submit branch does. *)
Lemma script_run (w : widgets) :
  script loaded w
  = Io (outcome (if calculate w then on_calculate loaded w else mret tt))
       ((if bool_decide (total_surface w < rooms w * 15)
         then [StWarning surface_warning] else [])
        ++ (if bool_decide (bathrooms w > rooms w)
            then [StWarning bathrooms_warning] else [])
        ++ trace (if calculate w then on_calculate loaded w else mret tt)).
Proof.
  unfold script, when.
  destruct (bool_decide (total_surface w < rooms w * 15));
    destruct (bool_decide (bathrooms w > rooms w)); cbn;
    by destruct (outcome (if calculate w then on_calculate loaded w else mret tt)).
Qed.
End AppFacts.

Lemma model_calls_app (t1 t2 : list Io.event) :
  model_calls (t1 ++ t2) = model_calls t1 ++ model_calls t2.
Proof. apply omap_app. Qed.

Lemma script_model_calls `{Learning} (loaded : artifacts) (w : App.widgets) :
  App.calculate w = true ->
  model_calls (Io.trace (App.script loaded w))
  = model_calls (Io.trace (App.on_calculate loaded w)).
Proof.
  intros Hsubmit. rewrite script_run, Hsubmit. simpl.
  rewrite !model_calls_app. by repeat case_bool_decide.
Qed.

(** C7. For the same six values, the handler of the service and the submit
    branch of the form encode the two labels with the same encoders, build
    the same vector, laid out in the column order the trainer selects, and
    call the wrapper once with it at a significance of 5%; whatever the
    wrapper returns, the service answers, and the form shows, the same
    point estimate and bounds. *)
Theorem C7_form_and_service_agree `{Learning} (loaded : artifacts) (w : App.widgets) :
  App.floor_material w ∈ LabelEncoder.classes_ (le_floor loaded) ->
  App.style w ∈ LabelEncoder.classes_ (le_style loaded) ->
  App.calculate w = true ->
  App.features = Trainer.features
  ∧ ∃ fc sc,
      LabelEncoder.transform (le_floor loaded) [App.floor_material w] = Py.Return [fc]
      ∧ LabelEncoder.transform (le_style loaded) [App.style w] = Py.Return [sc]
      ∧ (∀ row, Frame.select Trainer.features (Trainer.encoded_row row fc sc)
                = Py.Return (feature_vector (DataGenerator.rooms row)
                               (DataGenerator.bathrooms row)
                               (DataGenerator.total_surface row)
                               (DataGenerator.building_age row) fc sc))
      ∧ let x := feature_vector (App.rooms w) (App.bathrooms w)
                   (inject_Z (App.total_surface w)) (App.building_age w) fc sc in
        model_calls (Io.trace (Api.predict_rent loaded (body_of w))) = [([x], (5 # 100)%Q)]
        ∧ model_calls (Io.trace (App.script loaded w)) = [([x], (5 # 100)%Q)]
        ∧ ∀ prediction pis point lo up,
            Mapie.predict (conformal_model loaded) [x] (5 # 100)
            = Py.Return (prediction, pis) ->
            Py.getitem prediction 0 = Py.Return point ->
            Io.getitem3 pis 0 0 0 = Py.Return lo ->
            Io.getitem3 pis 0 1 0 = Py.Return up ->
            Io.outcome (Api.predict_rent loaded (body_of w))
            = Py.Return
                {| Api.predicted_rent := Py.round2 point;
                   Api.confidence_interval :=
                     {| Api.lower := Py.round2 lo; Api.upper := Py.round2 up |};
                   Api.confidence_level := "95%"; Api.currency := "USD";
                   Api.features := body_of w |}
            ∧ Io.StMetric "Best Estimate" (Py.round2 point) None
                ∈ Io.trace (App.script loaded w)
            ∧ Io.StMetric "Lower Bound" (Py.round2 lo) (Some (Py.round2 (lo - point)))
                ∈ Io.trace (App.script loaded w)
            ∧ Io.StMetric "Upper Bound" (Py.round2 up) (Some (Py.round2 (up - point)))
                ∈ Io.trace (App.script loaded w).
Proof.
  intros Hf Hs Hsubmit. split; [reflexivity|].
  destruct (known_labels_codes loaded (body_of w) Hf Hs) as (fc & sc & Htf & Hts).
  exists fc, sc. split_and!; [done|done|by intros row|].
  destruct (on_calculate_known loaded w fc sc Htf Hts) as [Hcalls Hshown].
  simpl. split_and!.
  - by rewrite (predict_rent_calls loaded (body_of w) fc sc Hf Hs Htf Hts).
  - by rewrite script_model_calls.
  - intros prediction pis point lo up Hpredict Hpoint Hlo Hup.
    destruct (Hshown prediction pis point lo up Hpredict Hpoint Hlo Hup)
      as (_ & Hlower & Hbest & Hupper).
    pose proof (predict_rent_known loaded (body_of w) fc sc Hf Hs Htf Hts) as Hrun.
    simpl in Hrun. rewrite Hpredict, Hpoint, Hlo, Hup in Hrun.
    rewrite Hrun, script_run, Hsubmit. simpl.
    split_and!; [done|..]; rewrite !elem_of_app; by do 2 right.
Qed.

Lemma C7_form_and_service_agree_witness :
  ∃ fc sc,
    LabelEncoder.transform (le_floor MeanLearning.loaded) ["Hardwood"] = Py.Return [fc]
    ∧ LabelEncoder.transform (le_style MeanLearning.loaded) ["Modern"] = Py.Return [sc]
    ∧ model_calls (Io.trace (Api.predict_rent MeanLearning.loaded (body_of example_form)))
      = [([feature_vector 2 1 (inject_Z 80) 10 fc sc], (5 # 100)%Q)]
    ∧ model_calls (Io.trace (App.script MeanLearning.loaded example_form))
      = [([feature_vector 2 1 (inject_Z 80) 10 fc sc], (5 # 100)%Q)].
Proof.
  destruct (C7_form_and_service_agree MeanLearning.loaded example_form)
    as (_ & fc & sc & Htf & Hts & _ & Hservice & Hform & _).
  - vm_compute. apply list_elem_of_In. vm_compute. tauto.
  - vm_compute. apply list_elem_of_In. vm_compute. tauto.
  - reflexivity.
  - exists fc, sc. split_and!; [exact Htf | exact Hts | exact Hservice | exact Hform].
Defined.

(** C9. The script shows the surface warning exactly when
    [total_surface < 15 * rooms] and the bathrooms warning exactly when
    [bathrooms > rooms]. Neither stops a submission: on submit the outcome
    is that of the submit branch and the trace is the warnings followed by
    the trace of the submit branch, in which, the labels being options of
    the select boxes, the wrapper is called on the encoded vector. *)
Theorem C9_advisory_warnings `{Learning} (loaded : artifacts) (w : App.widgets) :
  (Io.StWarning App.surface_warning ∈ Io.trace (App.script loaded w)
   ↔ App.total_surface w < 15 * App.rooms w)
  ∧ (Io.StWarning App.bathrooms_warning ∈ Io.trace (App.script loaded w)
     ↔ App.bathrooms w > App.rooms w)
  ∧ (App.calculate w = true ->
     Io.outcome (App.script loaded w) = Io.outcome (App.on_calculate loaded w)
     ∧ (∃ shown, Io.trace (App.script loaded w) = shown ++ Io.trace (App.on_calculate loaded w)
                 ∧ Forall is_warning shown)
     ∧ (App.floor_material w ∈ LabelEncoder.classes_ (le_floor loaded) ->
        App.style w ∈ LabelEncoder.classes_ (le_style loaded) ->
        ∃ fc sc,
          LabelEncoder.transform (le_floor loaded) [App.floor_material w] = Py.Return [fc]
          ∧ LabelEncoder.transform (le_style loaded) [App.style w] = Py.Return [sc]
          ∧ model_calls (Io.trace (App.script loaded w))
            = [([feature_vector (App.rooms w) (App.bathrooms w)
                   (inject_Z (App.total_surface w)) (App.building_age w) fc sc],
                (5 # 100)%Q)])).
Proof.
  assert (Hquiet : ∀ msg, Io.StWarning msg
            ∉ Io.trace (if App.calculate w then App.on_calculate loaded w else mret tt)).
  { intros msg Hin. destruct (App.calculate w); [|by apply elem_of_nil in Hin].
    pose proof (quiet_on_calculate loaded w) as Hq. unfold quiet in Hq.
    rewrite Forall_forall in Hq. by apply (Hq _ Hin). }
  split_and!.
  - rewrite script_run. simpl. rewrite !elem_of_app. split.
    + intros [Hin|[Hin|Hin]].
      * case_bool_decide; [lia | by apply elem_of_nil in Hin].
      * case_bool_decide; [|by apply elem_of_nil in Hin].
        apply list_elem_of_singleton in Hin. discriminate Hin.
      * by apply Hquiet in Hin.
    + intros Hsmall. left. rewrite bool_decide_eq_true_2 by lia.
      by apply list_elem_of_singleton.
  - rewrite script_run. simpl. rewrite !elem_of_app. split.
    + intros [Hin|[Hin|Hin]].
      * case_bool_decide; [|by apply elem_of_nil in Hin].
        apply list_elem_of_singleton in Hin. discriminate Hin.
      * case_bool_decide; [done | by apply elem_of_nil in Hin].
      * by apply Hquiet in Hin.
    + intros Hmany. right. left. rewrite bool_decide_eq_true_2 by done.
      by apply list_elem_of_singleton.
  - intros Hsubmit. split_and!.
    + by rewrite script_run, Hsubmit.
    + rewrite script_run, Hsubmit. simpl. eexists. rewrite app_assoc. split; [done|].
      apply Forall_app. by split; case_bool_decide; repeat constructor.
    + intros Hf Hs.
      destruct (known_labels_codes loaded (body_of w) Hf Hs) as (fc & sc & Htf & Hts).
      exists fc, sc. split_and!; [done..|].
      rewrite script_model_calls by done.
      by destruct (on_calculate_known loaded w fc sc Htf Hts) as [-> _].
Qed.

Lemma C9_advisory_warnings_witness :
  Io.StWarning App.surface_warning
    ∈ Io.trace (App.script MeanLearning.loaded
        {| App.rooms := 3; App.bathrooms := 1; App.total_surface := 40;
           App.building_age := 10; App.floor_material := "Tile";
           App.style := "Modern"; App.calculate := true |}).
Proof. apply C9_advisory_warnings. simpl. lia. Defined.

(** ** The trainer *)

Lemma mapM_Return {A B} (f : A -> Py.result B) (l : list A) (r : list B) :
  Forall2 (fun a b => f a = Py.Return b) l r -> mapM f l = Py.Return r.
Proof.
  induction 1 as [|a b l r Hab _ IH]; [done|].
  simpl. rewrite Hab. simpl. by rewrite IH.
Qed.

Lemma mapM_Return_fmap {A B} (f : A -> Py.result B) (g : A -> B) (l : list A) :
  (∀ a, f a = Py.Return (g a)) -> mapM f l = Py.Return (g <$> l).
Proof.
  intros Hfg. apply mapM_Return, Forall2_fmap_r, Forall_Forall2_diag, Forall_forall.
  intros a _. apply Hfg.
Qed.

Section SplitFacts.
Context `{Learning}.
Import Trainer.

Lemma n_test_fifth (n : nat) :
  Z.of_nat (n_test (2 # 10) n) = (Z.of_nat n + 4) / 5.
Proof.
  unfold n_test, Qceiling, Qfloor. simpl.
  change (Z.pos (10 * 1)) with 10.
  rewrite Z2Nat.id; Z.to_euclidean_division_equations; lia.
Qed.

Lemma take_rows_Some {A} (l : list A) (indices : list nat) :
  Forall (fun i => (i < length l)%nat) indices ->
  ∃ r, take_rows l indices = Py.Return r
       ∧ Forall2 (fun i a => l !! i = Some a) indices r.
Proof.
  intros Hind.
  assert (∃ r, Forall2 (fun i a => l !! i = Some a) indices r) as [r Hr].
  { induction Hind as [|i indices Hi _ [r Hr]]; [by exists []|].
    destruct (lookup_lt_is_Some_2 l i Hi) as [a Ha].
    exists (a :: r). by constructor. }
  exists r. split; [|done]. apply mapM_Return.
  eapply Forall2_impl; [exact Hr|]. intros i a Hi. unfold Py.getitem. by rewrite Hi.
Qed.
End SplitFacts.

Section EncodingFacts.
Import LabelEncoder.

Lemma fit_classes (y : list string) (l : string) :
  l ∈ classes_ (fit y) ↔ l ∈ y.
Proof.
  unfold fit. simpl. by rewrite merge_sort_Permutation, elem_of_remove_dups.
Qed.

Lemma transform_column (le : LabelEncoder.t) (y : list string) :
  Forall (.∈ classes_ le) y ->
  ∃ codes, transform le y = Py.Return codes
           ∧ Forall2 (fun v c => transform le [v] = Py.Return [c]) y codes.
Proof.
  intros Hy. induction Hy as [|v y Hv _ (codes & Hcodes & Hall)].
  - by exists [].
  - destruct (table_complete le v Hv) as [i Hi].
    exists (Z.of_nat i :: codes). unfold transform in *. simpl.
    rewrite Hi, Hcodes. simpl. split; [done|]. constructor; [|done].
    simpl. by rewrite Hi.
Qed.

Lemma fit_transform_column (y : list string) :
  ∃ codes, fit_transform y = (fit y, Py.Return codes)
           ∧ Forall2 (fun v c => transform (fit y) [v] = Py.Return [c]) y codes.
Proof.
  destruct (transform_column (fit y) y) as (codes & Hcodes & Hall).
  { apply Forall_forall. intros v Hv. by apply fit_classes. }
  exists codes. unfold fit_transform. by rewrite Hcodes.
Qed.
End EncodingFacts.

Section TrainerFacts.
Context `{Learning}.
Import Trainer.

Lemma encoded_rows (floor_encoder style_encoder : LabelEncoder.t)
    (df : list DataGenerator.row) (fcs scs : list Z) :
  Forall2 (fun v c => LabelEncoder.transform floor_encoder [v] = Py.Return [c])
    (DataGenerator.floor_material <$> df) fcs ->
  Forall2 (fun v c => LabelEncoder.transform style_encoder [v] = Py.Return [c])
    (DataGenerator.style <$> df) scs ->
  ∃ recs X,
    zip3 df fcs scs = Py.Return recs
    ∧ mapM (Frame.select features) recs = Py.Return X
    ∧ mapM (fun r => Frame.column r "monthly_rent") recs
      = Py.Return (DataGenerator.monthly_rent <$> df)
    ∧ Forall2 (encoded_as floor_encoder style_encoder) df X.
Proof.
  revert fcs scs. induction df as [|row df IH]; intros fcs scs Hf Hs.
  - apply Forall2_nil_inv_l in Hf as ->. apply Forall2_nil_inv_l in Hs as ->.
    by exists [], [].
  - rewrite fmap_cons in Hf, Hs.
    apply Forall2_cons_inv_l in Hf as (fc & fcs' & Hfc & Hf & ->).
    apply Forall2_cons_inv_l in Hs as (sc & scs' & Hsc & Hs & ->).
    destruct (IH fcs' scs' Hf Hs) as (recs & X & Hzip & HX & Hy & Hall).
    exists (encoded_row row fc sc :: recs).
    exists (feature_vector (DataGenerator.rooms row) (DataGenerator.bathrooms row)
              (DataGenerator.total_surface row) (DataGenerator.building_age row) fc sc :: X).
    split_and!.
    + simpl. by rewrite Hzip.
    + change (mapM (Frame.select features) (encoded_row row fc sc :: recs))
        with (x ← Frame.select features (encoded_row row fc sc);
              k ← mapM (Frame.select features) recs; mret (x :: k)).
      rewrite HX. reflexivity.
    + change (mapM (fun r => Frame.column r "monthly_rent") (encoded_row row fc sc :: recs))
        with (x ← Frame.column (encoded_row row fc sc) "monthly_rent";
              k ← mapM (fun r => Frame.column r "monthly_rent") recs; mret (x :: k)).
      rewrite Hy. reflexivity.
    + constructor; [|done]. by exists fc, sc.
Qed.
End TrainerFacts.

Section SplitRows.
Context `{Learning}.
Import Trainer.

Lemma train_test_split_rows {A B} (X : list A) (y : list B) :
  length y = length X -> (2 <= length X)%nat ->
  shuffle 42 (length X) ≡ₚ seq 0 (length X) ->
  ∃ held_out training Xtr Xte ytr yte,
    shuffle 42 (length X) = held_out ++ training
    ∧ length held_out = n_test (2 # 10) (length X)
    ∧ (length held_out + length training = length X)%nat
    ∧ training ≠ []
    ∧ train_test_split X y (2 # 10) 42 = Py.Return (Xtr, Xte, ytr, yte)
    ∧ Forall2 (fun i a => X !! i = Some a) training Xtr
    ∧ Forall2 (fun i a => X !! i = Some a) held_out Xte
    ∧ Forall2 (fun i a => y !! i = Some a) training ytr
    ∧ Forall2 (fun i a => y !! i = Some a) held_out yte.
Proof.
  intros Hy Hn Hperm. unfold train_test_split.
  set (n := length X) in *. set (nt := n_test (2 # 10) n).
  assert (Z.of_nat nt = (Z.of_nat n + 4) / 5) as Hnt by apply n_test_fifth.
  assert (nt < n)%nat as Hlt.
  { apply Nat2Z.inj_lt. rewrite Hnt. Z.to_euclidean_division_equations. lia. }
  rewrite bool_decide_eq_false_2 by lia.
  set (perm := shuffle 42 n) in *.
  assert (length perm = n) as Hlen.
  { by rewrite (Permutation_length Hperm), length_seq. }
  assert (Forall (fun i => (i < n)%nat) perm) as Hbound.
  { apply Forall_forall. intros i Hi. rewrite Hperm in Hi.
    apply elem_of_seq in Hi. lia. }
  assert (take (n - nt) (drop nt perm) = drop nt perm) as Hdrop.
  { apply take_ge. rewrite length_drop. lia. }
  rewrite Hdrop.
  destruct (take_rows_Some X (drop nt perm)) as (Xtr & -> & HXtr);
    [by apply Forall_drop|].
  destruct (take_rows_Some X (take nt perm)) as (Xte & -> & HXte);
    [by apply Forall_take|].
  destruct (take_rows_Some y (drop nt perm)) as (ytr & -> & Hytr);
    [rewrite Hy; by apply Forall_drop|].
  destruct (take_rows_Some y (take nt perm)) as (yte & -> & Hyte);
    [rewrite Hy; by apply Forall_take|].
  exists (take nt perm), (drop nt perm), Xtr, Xte, ytr, yte.
  rewrite length_take, length_drop.
  split_and!; [by rewrite take_drop|lia|lia| |done..].
  intros Hnil. apply (f_equal length) in Hnil. rewrite length_drop in Hnil.
  simpl in Hnil. lia.
Qed.
End SplitRows.

Lemma subset_at_rows (floor_encoder style_encoder : LabelEncoder.t)
    (df : list DataGenerator.row) (X : list (list Q)) (indices : list nat)
    (Xs : list (list Q)) (ys : list Q) :
  Forall2 (encoded_as floor_encoder style_encoder) df X ->
  Forall2 (fun i a => X !! i = Some a) indices Xs ->
  Forall2 (fun i a => (DataGenerator.monthly_rent <$> df) !! i = Some a) indices ys ->
  subset_at floor_encoder style_encoder df indices Xs ys.
Proof.
  intros Hall HXs Hys. split_and!.
  - symmetry. by eapply Forall2_length.
  - symmetry. by eapply Forall2_length.
  - intros k i Hk.
    destruct (Forall2_lookup_l _ _ _ _ _ HXs Hk) as (x & Hx & Hix).
    destruct (Forall2_lookup_l _ _ _ _ _ Hys Hk) as (v & Hv & Hiv).
    destruct (Forall2_lookup_r _ _ _ _ _ Hall Hix) as (row & Hrow & Henc).
    exists row, x. split_and!; [done..|].
    rewrite list_lookup_fmap, Hrow in Hiv. simpl in Hiv. by simplify_eq.
Qed.

(** C6. On a table of at least two rows, the shuffle being a permutation of
    the row indices, the trainer holds out the rows at the first fifth of
    the shuffled indices, rounded up, and trains on the rows at the other
    indices, every row being in exactly one of the two subsets. The subsets
    are vectors of the six features, the two labels replaced by their
    codes, each with the rent of its own row. The run is then: fit the
    forest on the training vectors and rents; compute the calibration of
    that fitted forest on the same training subset, the wrapper being built
    around it with [cv = prefit] and keeping it as its estimator; ask the
    wrapper for the intervals of the held-out vectors at [alpha = 0.05]. It
    raises what the first of these three calls to raise raises, and
    otherwise returns their results. *)
Theorem C6_training_pipeline `{Learning} (df : list DataGenerator.row) :
  (2 <= length df)%nat ->
  shuffle 42 (length df) ≡ₚ seq 0 (length df) ->
  ∃ held_out training X_train X_test y_train y_test,
    let floor_encoder := LabelEncoder.fit (DataGenerator.floor_material <$> df) in
    let style_encoder := LabelEncoder.fit (DataGenerator.style <$> df) in
    shuffle 42 (length df) = held_out ++ training
    ∧ held_out ++ training ≡ₚ seq 0 (length df)
    ∧ Z.of_nat (length held_out) = (Z.of_nat (length df) + 4) / 5
    ∧ (length held_out + length training = length df)%nat
    ∧ training ≠ []
    ∧ subset_at floor_encoder style_encoder df training X_train y_train
    ∧ subset_at floor_encoder style_encoder df held_out X_test y_test
    ∧ Trainer.train_model df
      = (base_model ← forest_fit 100 42 X_train y_train;
         c ← calibrate base_model X_train y_train;
         '(y_pred, y_pis) ← interval_predict base_model c X_test (5 # 100);
         mret {| Trainer.le_floor := floor_encoder;
                 Trainer.le_style := style_encoder;
                 Trainer.rent_model := base_model;
                 Trainer.conformal_model :=
                   {| Mapie.estimator := base_model; Mapie.method := "plus";
                      Mapie.cv := "prefit"; Mapie.random_state := 42;
                      Mapie.calibration := Some c |};
                 Trainer.X_train := X_train; Trainer.X_test := X_test;
                 Trainer.y_train := y_train; Trainer.y_test := y_test;
                 Trainer.y_pred := y_pred; Trainer.y_pis := y_pis |}).
Proof.
  intros Hn Hperm. unfold Trainer.train_model.
  destruct (fit_transform_column (DataGenerator.floor_material <$> df))
    as (fcs & -> & Hfcs).
  destruct (fit_transform_column (DataGenerator.style <$> df)) as (scs & -> & Hscs).
  destruct (encoded_rows _ _ df fcs scs Hfcs Hscs) as (recs & X & Hzip & HX & Hy & Hall).
  cbn. rewrite Hzip. cbn. rewrite HX. cbn. rewrite Hy. cbn.
  pose proof (Forall2_length _ _ _ Hall) as HlenX.
  destruct (train_test_split_rows X (DataGenerator.monthly_rent <$> df))
    as (held_out & training & Xtr & Xte & ytr & yte
        & Hshuffle & Hheld & Hsum & Hne & Hsplit & HXtr & HXte & Hytr & Hyte).
  { by rewrite length_fmap. }
  { by rewrite <- HlenX. }
  { by rewrite <- HlenX. }
  rewrite Hsplit. cbn.
  exists held_out, training, Xtr, Xte, ytr, yte. cbn zeta.
  split_and!.
  - by rewrite HlenX.
  - by rewrite <- Hshuffle, <- HlenX.
  - by rewrite Hheld, n_test_fifth, HlenX.
  - by rewrite HlenX.
  - done.
  - by eapply subset_at_rows.
  - by eapply subset_at_rows.
  - destruct (forest_fit 100 42 Xtr ytr) as [e|base_model]; [reflexivity|]. cbn.
    unfold Mapie.fit, Mapie.MapieRegressor. cbn.
    rewrite bool_decide_eq_true_2 by done.
    destruct (calibrate base_model Xtr ytr) as [e|c]; [reflexivity|]. cbn.
    unfold Mapie.predict. cbn.
    by destruct (interval_predict base_model c Xte (5 # 100)) as [e|[pred pis]].
Qed.

Lemma C6_training_pipeline_witness :
  ∃ held_out training X_train X_test y_train y_test,
    let floor_encoder :=
      LabelEncoder.fit (DataGenerator.floor_material <$> MeanLearning.sample_table) in
    let style_encoder :=
      LabelEncoder.fit (DataGenerator.style <$> MeanLearning.sample_table) in
    @shuffle MeanLearning.learning 42 (length MeanLearning.sample_table)
    = held_out ++ training
    ∧ held_out ++ training ≡ₚ seq 0 (length MeanLearning.sample_table)
    ∧ Z.of_nat (length held_out) = (Z.of_nat (length MeanLearning.sample_table) + 4) / 5
    ∧ (length held_out + length training = length MeanLearning.sample_table)%nat
    ∧ training ≠ []
    ∧ subset_at floor_encoder style_encoder MeanLearning.sample_table
        training X_train y_train
    ∧ subset_at floor_encoder style_encoder MeanLearning.sample_table
        held_out X_test y_test
    ∧ @Trainer.train_model MeanLearning.learning MeanLearning.sample_table
      = (base_model ← @forest_fit MeanLearning.learning 100 42 X_train y_train;
         c ← @calibrate MeanLearning.learning base_model X_train y_train;
         '(y_pred, y_pis) ← @interval_predict MeanLearning.learning base_model c
                              X_test (5 # 100);
         mret {| Trainer.le_floor := floor_encoder;
                 Trainer.le_style := style_encoder;
                 Trainer.rent_model := base_model;
                 Trainer.conformal_model :=
                   {| Mapie.estimator := base_model; Mapie.method := "plus";
                      Mapie.cv := "prefit"; Mapie.random_state := 42;
                      Mapie.calibration := Some c |};
                 Trainer.X_train := X_train; Trainer.X_test := X_test;
                 Trainer.y_train := y_train; Trainer.y_test := y_test;
                 Trainer.y_pred := y_pred; Trainer.y_pis := y_pis |}).
Proof.
  apply (@C6_training_pipeline MeanLearning.learning MeanLearning.sample_table).
  - simpl. lia.
  - apply reverse_Permutation.
Defined.

(** * Further properties of the code *)

(** ** Fitted encoders *)

Lemma sorted_lookup_le {A} (R : relation A) (l : list A) (i j : nat) (x y : A) :
  StronglySorted R l -> l !! i = Some x -> l !! j = Some y -> (i < j)%nat -> R x y.
Proof.
  intros Hl. revert i j. induction Hl as [|a l _ IH Ha]; intros i j Hi Hj Hlt; [done|].
  destruct j as [|j]; [lia|]. simpl in Hj. destruct i as [|i]; simpl in Hi.
  - simplify_eq. rewrite Forall_forall in Ha. by eapply Ha, list_elem_of_lookup_2.
  - apply (IH i j); [done..|lia].
Qed.

Lemma fit_sorted (y : list string) :
  StronglySorted String.le (LabelEncoder.classes_ (LabelEncoder.fit y)).
Proof. apply StronglySorted_merge_sort; apply _. Qed.

Lemma fit_NoDup (y : list string) : NoDup (LabelEncoder.classes_ (LabelEncoder.fit y)).
Proof.
  unfold LabelEncoder.fit. simpl. rewrite merge_sort_Permutation. apply NoDup_remove_dups.
Qed.

(** X1. The classes of a fitted encoder are the labels seen, each once, in
    increasing order. *)
Theorem fit_classes_sorted_distinct (y : list string) :
  StronglySorted String.le (LabelEncoder.classes_ (LabelEncoder.fit y))
  ∧ NoDup (LabelEncoder.classes_ (LabelEncoder.fit y))
  ∧ (∀ l, l ∈ LabelEncoder.classes_ (LabelEncoder.fit y) ↔ l ∈ y)
  ∧ (length (LabelEncoder.classes_ (LabelEncoder.fit y)) <= length y)%nat.
Proof.
  split_and!; [apply fit_sorted | apply fit_NoDup | apply fit_classes |].
  apply submseteq_length, NoDup_submseteq; [apply fit_NoDup|].
  intros l. apply fit_classes.
Qed.

(** X2. Fitting depends on the set of labels only: neither the order of the
    rows nor repetitions change the classes, hence the codes. *)
Theorem fit_depends_on_label_set (y y' : list string) :
  (∀ l, l ∈ y ↔ l ∈ y') -> LabelEncoder.fit y = LabelEncoder.fit y'.
Proof.
  intros Hsame.
  assert (LabelEncoder.classes_ (LabelEncoder.fit y)
          = LabelEncoder.classes_ (LabelEncoder.fit y')) as Heq.
  { apply (StronglySorted_unique String.le); [apply fit_sorted..|].
    apply NoDup_Permutation; [apply fit_NoDup..|].
    intros l. by rewrite !fit_classes. }
  destruct (LabelEncoder.fit y), (LabelEncoder.fit y'). simpl in Heq. by subst.
Qed.

Lemma fit_depends_on_label_set_witness :
  LabelEncoder.fit ["Tile"; "Carpet"; "Tile"] = LabelEncoder.fit ["Carpet"; "Tile"].
Proof.
  apply fit_depends_on_label_set. intros l.
  rewrite !elem_of_cons, !elem_of_nil. tauto.
Defined.

(** X3. On a fitted encoder every code from 0 up to the number of classes
    decodes to a label that encodes back to that code. *)
Theorem decode_encode_round_trip (y : list string) (c : Z) :
  0 <= c < Z.of_nat (length (LabelEncoder.classes_ (LabelEncoder.fit y))) ->
  ∃ l, LabelEncoder.inverse_transform (LabelEncoder.fit y) [c] = Py.Return [l]
       ∧ LabelEncoder.transform (LabelEncoder.fit y) [l] = Py.Return [c].
Proof.
  intros Hc. set (le := LabelEncoder.fit y) in *.
  destruct (lookup_lt_is_Some_2 (LabelEncoder.classes_ le) (Z.to_nat c)) as [l Hl]; [lia|].
  exists l. split.
  - rewrite <- (Z2Nat.id c) at 1 by lia. by apply inverse_transform_index.
  - destruct (transform_seen le l) as (i & Hi & Hli); [by eapply list_elem_of_lookup_2|].
    rewrite Hi. do 2 f_equal.
    rewrite (NoDup_lookup _ _ _ _ (fit_NoDup y) Hli Hl). lia.
Qed.

Lemma decode_encode_round_trip_witness :
  ∃ l, LabelEncoder.inverse_transform (LabelEncoder.fit DataGenerator.styles) [3]
       = Py.Return [l]
       ∧ LabelEncoder.transform (LabelEncoder.fit DataGenerator.styles) [l] = Py.Return [3].
Proof. apply decode_encode_round_trip. vm_compute. split; [discriminate | reflexivity]. Defined.

(** X4. The codes of a fitted encoder follow the order of the labels. *)
Theorem codes_follow_label_order (y : list string) (l1 l2 : string) (c1 c2 : Z) :
  LabelEncoder.transform (LabelEncoder.fit y) [l1] = Py.Return [c1] ->
  LabelEncoder.transform (LabelEncoder.fit y) [l2] = Py.Return [c2] ->
  (c1 <= c2 ↔ String.le l1 l2) ∧ 0 <= c1 < Z.of_nat (length (LabelEncoder.classes_ (LabelEncoder.fit y))).
Proof.
  set (le := LabelEncoder.fit y). unfold LabelEncoder.transform. simpl.
  destruct (LabelEncoder.table le !! l1) as [i|] eqn:Hi; [|done].
  destruct (LabelEncoder.table le !! l2) as [j|] eqn:Hj; [|done].
  simpl. intros [= <-] [= <-].
  apply table_sound in Hi, Hj. unfold le in *. clear le.
  split; [|apply lookup_lt_Some in Hi; simpl in Hi; lia]. split.
  - intros Hle. destruct (decide (i = j)) as [->|Hne].
    + assert (l1 = l2) as -> by congruence. done.
    + apply (sorted_lookup_le String.le _ i j _ _ (fit_sorted y) Hi Hj). lia.
  - intros Hle. destruct (decide (i ≤ j)%nat) as [|Hgt]; [lia|].
    assert (String.le l2 l1) as Hge.
    { apply (sorted_lookup_le String.le _ j i _ _ (fit_sorted y) Hj Hi). lia. }
    assert (l1 = l2) as -> by (by apply (anti_symm String.le)).
    rewrite (NoDup_lookup _ _ _ _ (fit_NoDup y) Hi Hj). lia.
Qed.

Lemma codes_follow_label_order_witness :
  (1 <= 3 ↔ String.le "Hardwood" "Tile")
  ∧ 0 <= 1 < Z.of_nat (length (LabelEncoder.classes_
                                 (LabelEncoder.fit DataGenerator.floor_materials))).
Proof.
  apply (codes_follow_label_order DataGenerator.floor_materials "Hardwood" "Tile" 1 3);
    vm_compute; reflexivity.
Defined.

(** X5. [transform] returns exactly when every label is a class; otherwise it
    raises the [ValueError] that names the first label that is not. *)
Theorem transform_returns_iff_all_seen (le : LabelEncoder.t) (y : list string) :
  match LabelEncoder.transform le y with
  | Py.Return codes =>
      Forall (.∈ LabelEncoder.classes_ le) y
      ∧ Forall2 (fun l c => ∃ i, c = Z.of_nat i
                                 ∧ LabelEncoder.classes_ le !! i = Some l) y codes
  | Py.Raise e =>
      ∃ seen l rest,
        y = seen ++ l :: rest
        ∧ Forall (.∈ LabelEncoder.classes_ le) seen
        ∧ (l ∉ LabelEncoder.classes_ le)
        ∧ e = Py.ValueError ("y contains previously unseen labels: " +:+ Py.repr l)
  end.
Proof.
  unfold LabelEncoder.transform. induction y as [|v y IH]; simpl; [done|].
  destruct (LabelEncoder.table le !! v) as [i|] eqn:Hi.
  - pose proof (table_sound le v i Hi) as Hv.
    destruct (LabelEncoder.map_to_integer (LabelEncoder.table le) y) as [e|codes]; simpl.
    + destruct IH as (seen & l & rest & -> & Hseen & Hl & ->).
      exists (v :: seen), l, rest. split_and!; [done| |done..].
      constructor; [by eapply list_elem_of_lookup_2 | done].
    + destruct IH as [Hall Hcodes]. split.
      * constructor; [by eapply list_elem_of_lookup_2 | done].
      * constructor; [by exists i | done].
  - exists [], v, y. split_and!; [done..| |done].
    intros [j Hj]%table_complete. congruence.
Qed.

(** X6. [inverse_transform] returns exactly when every code is an index of the
    classes, and then returns one label per code. *)
Theorem inverse_transform_returns_iff_codes_valid (le : LabelEncoder.t) (codes : list Z) :
  match LabelEncoder.inverse_transform le codes with
  | Py.Return labels =>
      Forall (fun c => 0 <= c < Z.of_nat (length (LabelEncoder.classes_ le))) codes
      ∧ Forall2 (fun c l => LabelEncoder.classes_ le !! Z.to_nat c = Some l) codes labels
  | Py.Raise _ =>
      Exists (fun c => ¬ 0 <= c < Z.of_nat (length (LabelEncoder.classes_ le))) codes
  end.
Proof.
  unfold LabelEncoder.inverse_transform.
  destruct (forallb (LabelEncoder.valid_code le) codes) eqn:Hall.
  - assert (Forall (fun c => 0 <= c < Z.of_nat (length (LabelEncoder.classes_ le))) codes)
      as Hvalid.
    { apply Forall_forall. intros c Hc%list_elem_of_In.
      rewrite forallb_forall in Hall. specialize (Hall c Hc).
      by apply bool_decide_eq_true in Hall. }
    split; [done|]. clear Hall.
    induction Hvalid as [|c codes Hc _ IH]; [constructor|].
    destruct (lookup_lt_is_Some_2 (LabelEncoder.classes_ le) (Z.to_nat c)) as [l Hl]; [lia|].
    simpl. rewrite Hl. simpl. by constructor.
  - apply not_Forall_Exists; [intros c; apply _|]. intros Hvalid.
    assert (forallb (LabelEncoder.valid_code le) codes = true); [|congruence].
    apply forallb_forall. intros c Hc%list_elem_of_In.
    rewrite Forall_forall in Hvalid. by apply bool_decide_eq_true, Hvalid.
Qed.

(** ** The generated table *)

Lemma base_rent_bounds (r b : Z) (s : Q) (a : Z) :
  1 <= r < 6 -> 1 <= b < 4 -> (inject_Z 30 <= s)%Q -> (s <= inject_Z 200)%Q ->
  0 <= a < 50 ->
  (1310 # 1 <= DataGenerator.base_rent r b s a)%Q
  ∧ (DataGenerator.base_rent r b s a <= 5100 # 1)%Q.
Proof.
  intros Hr Hb Hs1 Hs2 Ha. unfold DataGenerator.base_rent.
  assert (inject_Z 1500 <= inject_Z (1000 + r * 300 + b * 200))%Q
    by (rewrite <- Zle_Qle; lia).
  assert (inject_Z (1000 + r * 300 + b * 200) <= inject_Z 3100)%Q
    by (rewrite <- Zle_Qle; lia).
  assert (inject_Z 0 <= inject_Z (a * 10))%Q by (rewrite <- Zle_Qle; lia).
  assert (inject_Z (a * 10) <= inject_Z 490)%Q by (rewrite <- Zle_Qle; lia).
  unfold inject_Z in *. split; lra.
Qed.

(** X7. The floor of 500 never applies: every generated rent is the formula
    times its factor, and lies between 1048 and 6120. *)
Theorem rent_floor_never_applies (n : Z) (s : Rng.state) :
  0 <= n ->
  ∃ df s',
    Rng.run (DataGenerator.generate_apartment_data n) s = Py.Return (df, s')
    ∧ Forall (fun row =>
        (∃ u, (8 # 10 <= u)%Q ∧ (u <= 12 # 10)%Q
              ∧ DataGenerator.monthly_rent row
                = (DataGenerator.base_rent (DataGenerator.rooms row)
                     (DataGenerator.bathrooms row) (DataGenerator.total_surface row)
                     (DataGenerator.building_age row) * u)%Q)
        ∧ (1048 # 1 <= DataGenerator.monthly_rent row)%Q
        ∧ (DataGenerator.monthly_rent row <= 6120 # 1)%Q) df.
Proof.
  intros Hn.
  destruct (yields_generate_apartment_data n Hn s) as (df & s' & Hrun & _ & Hrows).
  exists df, s'. split; [done|]. eapply Forall_impl; [exact Hrows|].
  intros row (Hr & Hb & Hs1 & Hs2 & Ha & _ & _ & u & Hu1 & Hu2 & Hrent).
  destruct (base_rent_bounds _ _ _ _ Hr Hb Hs1 Hs2 Ha) as [Hlow Hhigh].
  set (base := DataGenerator.base_rent _ _ _ _) in *.
  assert (1048 # 1 <= base * u)%Q as Hmin by nra.
  assert (base * u <= 6120 # 1)%Q as Hmax by nra.
  assert (DataGenerator.monthly_rent row = (base * u)%Q) as Heq.
  { rewrite Hrent. unfold Py.max.
    assert (Qle_bool (inject_Z 500) (base * u) = true) as ->; [|done].
    apply Qle_bool_iff. unfold inject_Z. lra. }
  rewrite Heq. split_and!; [by exists u|done..].
Qed.

Lemma rent_floor_never_applies_witness :
  ∃ df s',
    Rng.run (DataGenerator.generate_apartment_data 2) (constant_state 7)
    = Py.Return (df, s')
    ∧ Forall (fun row =>
        (∃ u, (8 # 10 <= u)%Q ∧ (u <= 12 # 10)%Q
              ∧ DataGenerator.monthly_rent row
                = (DataGenerator.base_rent (DataGenerator.rooms row)
                     (DataGenerator.bathrooms row) (DataGenerator.total_surface row)
                     (DataGenerator.building_age row) * u)%Q)
        ∧ (1048 # 1 <= DataGenerator.monthly_rent row)%Q
        ∧ (DataGenerator.monthly_rent row <= 6120 # 1)%Q) df.
Proof. apply (rent_floor_never_applies 2). lia. Defined.

(** X8. A negative sample count raises before any table exists, and no random
    number is drawn. *)
Theorem negative_sample_count_raises (n : Z) (s : Rng.state) :
  n < 0 ->
  Rng.run (DataGenerator.generate_apartment_data n) s
  = Py.Raise (Py.ValueError "negative dimensions are not allowed").
Proof.
  intros Hn. unfold DataGenerator.generate_apartment_data, Rng.randint, Rng.sized.
  rewrite bool_decide_eq_false_2 by lia. reflexivity.
Qed.

Lemma negative_sample_count_raises_witness :
  Rng.run (DataGenerator.generate_apartment_data (-1)) (constant_state 0)
  = Py.Raise (Py.ValueError "negative dimensions are not allowed").
Proof. apply negative_sample_count_raises. lia. Defined.

(** X9. Every row of a generated table is a request that the service lets
    through when its encoders are the ones fitted on that table, whatever
    its regressor and wrapper are: the numbers of the row pass the
    validation of the body, its labels are classes of the fitted encoders,
    and the wrapper is called. *)
Theorem generated_rows_reach_the_model `{Learning} (m : Regressor) (w : Mapie.t)
    (n : Z) (s : Rng.state) :
  0 <= n ->
  ∃ df s',
    Rng.run (DataGenerator.generate_apartment_data n) s = Py.Return (df, s')
    ∧ (let loaded :=
         {| model := m; conformal_model := w;
            le_floor := LabelEncoder.fit (DataGenerator.floor_material <$> df);
            le_style := LabelEncoder.fit (DataGenerator.style <$> df) |} in
       Forall (fun row =>
         Api.validate (row_body row) = []
         ∧ model_calls (Io.trace (Api.post_predict loaded (row_body row))) ≠ []) df).
Proof.
  intros Hn.
  destruct (yields_generate_apartment_data n Hn s) as (df & s' & Hrun & _ & Hrows).
  exists df, s'. split; [done|]. intros loaded.
  apply Forall_forall. intros row Hrow.
  rewrite Forall_forall in Hrows.
  destruct (Hrows row Hrow) as (Hr & Hb & Hs1 & Hs2 & Ha & _).
  assert (Api.validate (row_body row) = []) as Hvalid.
  { apply validate_nil. simpl. split_and!; first [done | lia]. }
  split; [done|].
  assert (Api.floor_material (row_body row) ∈ LabelEncoder.classes_ (le_floor loaded)) as Hf.
  { apply fit_classes. simpl.
    by apply (list_elem_of_fmap_2 DataGenerator.floor_material). }
  assert (Api.style (row_body row) ∈ LabelEncoder.classes_ (le_style loaded)) as Hs.
  { apply fit_classes. simpl.
    by apply (list_elem_of_fmap_2 DataGenerator.style). }
  destruct (known_labels_codes loaded (row_body row) Hf Hs) as (fc & sc & Htf & Hts).
  unfold Api.post_predict. rewrite Hvalid. simpl.
  by rewrite (predict_rent_calls loaded (row_body row) fc sc Hf Hs Htf Hts).
Qed.

Lemma generated_rows_reach_the_model_witness :
  ∃ df s',
    Rng.run (DataGenerator.generate_apartment_data 3) (constant_state 2)
    = Py.Return (df, s')
    ∧ Forall (fun row =>
        Api.validate (row_body row) = []
        ∧ model_calls
            (Io.trace
               (Api.post_predict
                  {| model := model MeanLearning.loaded;
                     conformal_model := conformal_model MeanLearning.loaded;
                     le_floor := LabelEncoder.fit (DataGenerator.floor_material <$> df);
                     le_style := LabelEncoder.fit (DataGenerator.style <$> df) |}
                  (row_body row))) ≠ []) df.
Proof.
  apply (generated_rows_reach_the_model (model MeanLearning.loaded)
           (conformal_model MeanLearning.loaded) 3).
  lia.
Defined.

(** X10. Encoders fitted on a generated table have at most five classes each,
    all among the generator's labels, so every code is between 0 and 4. *)
Theorem generated_labels_give_codes_below_five (n : Z) (s : Rng.state) :
  0 <= n ->
  ∃ df s',
    Rng.run (DataGenerator.generate_apartment_data n) s = Py.Return (df, s')
    ∧ (let floor_encoder := LabelEncoder.fit (DataGenerator.floor_material <$> df) in
       let style_encoder := LabelEncoder.fit (DataGenerator.style <$> df) in
       (∀ l, l ∈ LabelEncoder.classes_ floor_encoder -> l ∈ DataGenerator.floor_materials)
       ∧ (∀ l, l ∈ LabelEncoder.classes_ style_encoder -> l ∈ DataGenerator.styles)
       ∧ Forall (fun row =>
           ∃ fc sc,
             LabelEncoder.transform floor_encoder [DataGenerator.floor_material row]
             = Py.Return [fc]
             ∧ LabelEncoder.transform style_encoder [DataGenerator.style row]
               = Py.Return [sc]
             ∧ 0 <= fc <= 4 ∧ 0 <= sc <= 4) df).
Proof.
  intros Hn.
  destruct (yields_generate_apartment_data n Hn s) as (df & s' & Hrun & _ & Hrows).
  exists df, s'. split; [done|]. simpl.
  rewrite Forall_forall in Hrows.
  assert (∀ l, l ∈ LabelEncoder.classes_
                 (LabelEncoder.fit (DataGenerator.floor_material <$> df))
               -> l ∈ DataGenerator.floor_materials) as Hfloor.
  { intros l (row & -> & Hrow)%fit_classes%list_elem_of_fmap.
    by destruct (Hrows row Hrow) as (_ & _ & _ & _ & _ & ? & _). }
  assert (∀ l, l ∈ LabelEncoder.classes_ (LabelEncoder.fit (DataGenerator.style <$> df))
               -> l ∈ DataGenerator.styles) as Hstyle.
  { intros l (row & -> & Hrow)%fit_classes%list_elem_of_fmap.
    by destruct (Hrows row Hrow) as (_ & _ & _ & _ & _ & _ & ? & _). }
  split_and!; [done..|].
  apply Forall_forall. intros row Hrow.
  destruct (transform_seen (LabelEncoder.fit (DataGenerator.floor_material <$> df))
              (DataGenerator.floor_material row)) as (i & Hi & Hli).
  { apply fit_classes. by apply list_elem_of_fmap_2. }
  destruct (transform_seen (LabelEncoder.fit (DataGenerator.style <$> df))
              (DataGenerator.style row)) as (j & Hj & Hlj).
  { apply fit_classes. by apply list_elem_of_fmap_2. }
  exists (Z.of_nat i), (Z.of_nat j). split_and!; [done|done|lia| |lia|].
  - apply lookup_lt_Some in Hli.
    pose proof (submseteq_length _ _
      (NoDup_submseteq _ _ (fit_NoDup (DataGenerator.floor_material <$> df)) Hfloor)) as Hlen.
    change (length DataGenerator.floor_materials) with 5%nat in Hlen. lia.
  - apply lookup_lt_Some in Hlj.
    pose proof (submseteq_length _ _
      (NoDup_submseteq _ _ (fit_NoDup (DataGenerator.style <$> df)) Hstyle)) as Hlen.
    change (length DataGenerator.styles) with 5%nat in Hlen. lia.
Qed.

Lemma generated_labels_give_codes_below_five_witness :
  ∃ df s',
    Rng.run (DataGenerator.generate_apartment_data 4) (constant_state 3)
    = Py.Return (df, s')
    ∧ (∀ l, l ∈ LabelEncoder.classes_
                  (LabelEncoder.fit (DataGenerator.floor_material <$> df))
            -> l ∈ DataGenerator.floor_materials).
Proof.
  destruct (generated_labels_give_codes_below_five 4 (constant_state 3))
    as (df & s' & Hrun & Hfloor & _); [lia|].
  by exists df, s'.
Defined.

(** ** Training runs and the files they leave *)

Section TrainerRunFacts.
Context `{Learning}.

Lemma train_model_fit_models (df : list DataGenerator.row) :
  ∃ fcs scs,
    LabelEncoder.fit_transform (DataGenerator.floor_material <$> df)
    = (LabelEncoder.fit (DataGenerator.floor_material <$> df), Py.Return fcs)
    ∧ LabelEncoder.fit_transform (DataGenerator.style <$> df)
      = (LabelEncoder.fit (DataGenerator.style <$> df), Py.Return scs)
    ∧ Forall2 (fun v c => LabelEncoder.transform
                 (LabelEncoder.fit (DataGenerator.floor_material <$> df)) [v] = Py.Return [c])
        (DataGenerator.floor_material <$> df) fcs
    ∧ Forall2 (fun v c => LabelEncoder.transform
                 (LabelEncoder.fit (DataGenerator.style <$> df)) [v] = Py.Return [c])
        (DataGenerator.style <$> df) scs
    ∧ Trainer.train_model df
      = TrainerRun.fit_models (LabelEncoder.fit (DataGenerator.floor_material <$> df))
          (LabelEncoder.fit (DataGenerator.style <$> df)) df fcs scs.
Proof.
  destruct (fit_transform_column (DataGenerator.floor_material <$> df))
    as (fcs & Hf & Hfcs).
  destruct (fit_transform_column (DataGenerator.style <$> df)) as (scs & Hs & Hscs).
  exists fcs, scs. split_and!; [done..|].
  unfold Trainer.train_model. rewrite Hf, Hs. reflexivity.
Qed.

Lemma main_result (df : list DataGenerator.row) (files : gmap string Joblib.object) :
  (TrainerRun.main df files).1 = Trainer.train_model df.
Proof.
  destruct (train_model_fit_models df) as (fcs & scs & Hf & Hs & _ & _ & ->).
  unfold TrainerRun.main. rewrite Hf, Hs.
  by destruct (TrainerRun.fit_models _ _ _ _ _).
Qed.

Lemma short_table_split_raises (df : list DataGenerator.row) :
  (length df < 2)%nat ->
  Trainer.train_model df
  = Py.Raise (Py.ValueError "the resulting train set will be empty").
Proof.
  intros Hshort.
  destruct (train_model_fit_models df) as (fcs & scs & _ & _ & Hfcs & Hscs & ->).
  destruct (encoded_rows _ _ df fcs scs Hfcs Hscs) as (recs & X & Hzip & HX & Hy & Hall).
  unfold TrainerRun.fit_models. rewrite Hzip. cbn. rewrite HX. cbn. rewrite Hy. cbn.
  unfold Trainer.train_test_split.
  pose proof (Forall2_length _ _ _ Hall) as HlenX.
  rewrite bool_decide_eq_true_2; [done|].
  assert (length X = 0 ∨ length X = 1)%nat as [Hn|Hn] by lia;
    rewrite Hn; reflexivity.
Qed.
End TrainerRunFacts.

(** X11. After a run that returns, the directory holds the run's four artifacts
    under the names the front ends load, every other file is as before, and
    both the service's start-up and the form's [load_models] get exactly the
    regressor, wrapper and encoders of that run. *)
Theorem trained_artifacts_are_the_loaded_ones `{Learning}
    (df : list DataGenerator.row) (files files' : gmap string Joblib.object)
    (out : Trainer.outcome) :
  TrainerRun.main df files = (Py.Return out, files') ->
  let trained := {| model := Trainer.rent_model out;
                    conformal_model := Trainer.conformal_model out;
                    le_floor := Trainer.le_floor out;
                    le_style := Trainer.le_style out |} in
  Trainer.train_model df = Py.Return out
  ∧ (∃ o, Startup.api_startup files'
          = (inr o, [Startup.LoggerInfo "Models loaded successfully"])
          ∧ Startup.load_models files' = inr o
          ∧ Joblib.as_artifacts o = Some trained)
  ∧ (∀ name, name ∉ ["rent_model.joblib"; "conformal_model.joblib";
                     "le_floor.joblib"; "le_style.joblib"] ->
             files' !! name = files !! name).
Proof.
  intros Hmain. pose proof (main_result df files) as Hresult.
  rewrite Hmain in Hresult. simpl in Hresult. split; [done|].
  destruct (train_model_fit_models df) as (fcs & scs & Hf & Hs & _ & _ & Hrun).
  unfold TrainerRun.main in Hmain. rewrite Hf, Hs, <- Hrun, <- Hresult in Hmain.
  injection Hmain as <-.
  assert (Trainer.le_floor out = LabelEncoder.fit (DataGenerator.floor_material <$> df)
          ∧ Trainer.le_style out = LabelEncoder.fit (DataGenerator.style <$> df))
    as [Hlf Hls].
  { rewrite Hrun in Hresult. unfold TrainerRun.fit_models in Hresult.
    repeat match type of Hresult with
    | context [mbind _ ?m] => destruct m as [?|?]; simpl in Hresult; [done|]
    | context [let '(_, _) := ?p in _] => destruct p
    end.
    injection Hresult as Hout. by subst out. }
  rewrite <- Hlf, <- Hls. split.
  - eexists. unfold Startup.api_startup, Startup.load_models, Startup.load_four,
      Joblib.load, Joblib.dump.
    by simplify_map_eq.
  - intros name Hname. unfold Joblib.dump.
    rewrite !not_elem_of_cons in Hname. destruct Hname as (? & ? & ? & ? & _).
    by simplify_map_eq.
Qed.

Lemma trained_artifacts_are_the_loaded_ones_witness :
  ∃ out files' o,
    @TrainerRun.main MeanLearning.learning MeanLearning.sample_table ∅
    = (Py.Return out, files')
    ∧ Startup.api_startup files'
      = (inr o, [Startup.LoggerInfo "Models loaded successfully"])
    ∧ Joblib.as_artifacts o
      = Some {| model := Trainer.rent_model out;
                conformal_model := Trainer.conformal_model out;
                le_floor := Trainer.le_floor out;
                le_style := Trainer.le_style out |}.
Proof.
  destruct (@TrainerRun.main MeanLearning.learning MeanLearning.sample_table ∅)
    as [[e|out] files'] eqn:Hmain.
  - exfalso. vm_compute in Hmain. discriminate Hmain.
  - destruct (trained_artifacts_are_the_loaded_ones _ _ _ _ Hmain)
      as (_ & (o & Hstart & _ & Hobjects) & _).
    by exists out, files', o.
Defined.

(** X12. A table of fewer than two rows makes the run raise at the split, after
    the two encoder files were written: the encoders in the directory are
    the new ones, the regressor and wrapper files are whatever they were. *)
Theorem short_table_replaces_only_the_encoders `{Learning}
    (df : list DataGenerator.row) (files : gmap string Joblib.object) :
  (length df < 2)%nat ->
  ∃ msg files',
    TrainerRun.main df files = (Py.Raise (Py.ValueError msg), files')
    ∧ files' !! "le_floor.joblib"
      = Some (Joblib.Encoder (LabelEncoder.fit (DataGenerator.floor_material <$> df)))
    ∧ files' !! "le_style.joblib"
      = Some (Joblib.Encoder (LabelEncoder.fit (DataGenerator.style <$> df)))
    ∧ files' !! "rent_model.joblib" = files !! "rent_model.joblib"
    ∧ files' !! "conformal_model.joblib" = files !! "conformal_model.joblib".
Proof.
  intros Hshort. pose proof (short_table_split_raises df Hshort) as Hraise.
  destruct (train_model_fit_models df) as (fcs & scs & Hf & Hs & _ & _ & Hrun).
  rewrite Hrun in Hraise. unfold TrainerRun.main. rewrite Hf, Hs, Hraise.
  eexists _, _. split; [reflexivity|]. unfold Joblib.dump. by simplify_map_eq.
Qed.

Lemma short_table_replaces_only_the_encoders_witness :
  ∃ msg files',
    @TrainerRun.main MeanLearning.learning
      [MeanLearning.sample_row 2 1 80 10 "Hardwood" "Modern" 2300] ∅
    = (Py.Raise (Py.ValueError msg), files')
    ∧ files' !! "rent_model.joblib" = None.
Proof.
  destruct (@short_table_replaces_only_the_encoders MeanLearning.learning
              [MeanLearning.sample_row 2 1 80 10 "Hardwood" "Modern" 2300] ∅)
    as (msg & files' & Hmain & _ & _ & Hmodel & _).
  - simpl. lia.
  - exists msg, files'. split; [exact Hmain|]. by rewrite Hmodel.
Defined.

(** X13. Start-up of the service either loads the four files and logs one
    information line, or stops at the first file that is missing, in the
    order regressor, wrapper, floor encoder, style encoder, and logs one
    error line naming that file; the form's [load_models] loads the same
    objects or fails on the same file. *)
Theorem startup_stops_at_the_first_missing_file `{Learning}
    (files : gmap string Joblib.object) :
  let names := ["rent_model.joblib"; "conformal_model.joblib";
                "le_floor.joblib"; "le_style.joblib"] in
  Startup.load_models files = (Startup.api_startup files).1
  ∧ match Startup.api_startup files with
    | (inr o, log) =>
        (files !!.) <$> names
        = [Some (Joblib.obj_model o); Some (Joblib.obj_conformal_model o);
           Some (Joblib.obj_le_floor o); Some (Joblib.obj_le_style o)]
        ∧ log = [Startup.LoggerInfo "Models loaded successfully"]
    | (inl (Joblib.FileNotFoundError name), log) =>
        (∃ before after, names = before ++ name :: after
                         ∧ Forall (fun n => is_Some (files !! n)) before)
        ∧ files !! name = None
        ∧ log = [Startup.LoggerError
                   ("Error loading models: [Errno 2] No such file or directory: "
                    +:+ Py.repr name)]
    end.
Proof.
  simpl. unfold Startup.load_models, Startup.api_startup, Startup.load_four, Joblib.load.
  destruct (files !! "rent_model.joblib") as [m|] eqn:Hm; simpl.
  2:{ split; [done|]. split_and!; [|done..]. by exists [], ["conformal_model.joblib"; "le_floor.joblib"; "le_style.joblib"]. }
  destruct (files !! "conformal_model.joblib") as [w|] eqn:Hw; simpl.
  2:{ split; [done|]. split_and!; [|done..].
      exists ["rent_model.joblib"], ["le_floor.joblib"; "le_style.joblib"].
      split; [done|]. repeat constructor. by rewrite Hm. }
  destruct (files !! "le_floor.joblib") as [f|] eqn:Hf; simpl.
  2:{ split; [done|]. split_and!; [|done..].
      exists ["rent_model.joblib"; "conformal_model.joblib"], ["le_style.joblib"].
      split; [done|]. repeat constructor; by rewrite ?Hm, ?Hw. }
  destruct (files !! "le_style.joblib") as [s|] eqn:Hs; simpl.
  2:{ split; [done|]. split_and!; [|done..].
      exists ["rent_model.joblib"; "conformal_model.joblib"; "le_floor.joblib"], [].
      split; [done|]. repeat constructor; by rewrite ?Hm, ?Hw, ?Hf. }
  done.
Qed.

(** ** Failures inside the predict handler *)

Section PredictFailures.
Context `{Learning}.
Variable loaded : artifacts.
Import Io Api.

(** The handler on known labels, case by case on what the wrapper returns. *)
Lemma predict_rent_cases (b : ApartmentFeatures) (fc sc : Z) :
  floor_material b ∈ LabelEncoder.classes_ (le_floor loaded) ->
  style b ∈ LabelEncoder.classes_ (le_style loaded) ->
  LabelEncoder.transform (le_floor loaded) [floor_material b] = Py.Return [fc] ->
  LabelEncoder.transform (le_style loaded) [style b] = Py.Return [sc] ->
  let x := feature_vector (rooms b) (bathrooms b) (total_surface b) (building_age b) fc sc in
  let values :=
    '(prediction, pis) ← Mapie.predict (conformal_model loaded) [x] (5 # 100);
    p ← Py.getitem prediction 0;
    lo ← getitem3 pis 0 0 0;
    up ← getitem3 pis 0 1 0;
    mret (p, lo, up) in
  predict_rent loaded b
  = match values with
    | Py.Return (p, lo, up) =>
        Io (Py.Return
              {| predicted_rent := Py.round2 p;
                 confidence_interval := {| lower := Py.round2 lo; upper := Py.round2 up |};
                 confidence_level := "95%"; currency := "USD"; features := b |})
           [ModelPredict [x] (5 # 100)]
    | Py.Raise (Py.HTTPException s d) =>
        Io (Py.Raise (Py.HTTPException s d)) [ModelPredict [x] (5 # 100)]
    | Py.Raise e =>
        Io (Py.Raise (Py.HTTPException 500 ("Prediction error: " +:+ Py.str_exn e)))
           [ModelPredict [x] (5 # 100);
            LoggerError ("Prediction error: " +:+ Py.str_exn e)]
    end.
Proof.
  intros Hf Hs Htf Hts x. unfold predict_rent, LabelEncoder.mem.
  rewrite !bool_decide_eq_true_2 by done. rewrite Htf, Hts.
  change (Mapie.predict (conformal_model loaded) [x] (5 # 100))
    with (Mapie.predict (conformal_model loaded)
            [[inject_Z (rooms b); inject_Z (bathrooms b); total_surface b;
              inject_Z (building_age b); inject_Z fc; inject_Z sc]] (5 # 100)).
  cbn.
  destruct (Mapie.predict _ _ _) as [e|[prediction pis]]; cbn.
  { by destruct e. }
  destruct (Py.getitem prediction 0) as [e|p]; cbn.
  { by destruct e. }
  destruct (getitem3 pis 0 0 0) as [e|lo]; cbn.
  { by destruct e. }
  destruct (getitem3 pis 0 1 0) as [e|up]; cbn.
  { by destruct e. }
  reflexivity.
Qed.
End PredictFailures.

(** X14. When the labels are known and the wrapper raises, the service answers
    500; the detail is ["Prediction error: "] followed by the text of the
    exception, and the same line is logged once, after the one call of the
    wrapper. *)
Theorem wrapper_failure_is_a_logged_server_error `{Learning} (loaded : artifacts)
    (b : Api.ApartmentFeatures) (fc sc : Z) (e : Py.exn) :
  Api.validate b = [] ->
  Api.floor_material b ∈ LabelEncoder.classes_ (le_floor loaded) ->
  Api.style b ∈ LabelEncoder.classes_ (le_style loaded) ->
  LabelEncoder.transform (le_floor loaded) [Api.floor_material b] = Py.Return [fc] ->
  LabelEncoder.transform (le_style loaded) [Api.style b] = Py.Return [sc] ->
  Mapie.predict (conformal_model loaded)
    [feature_vector (Api.rooms b) (Api.bathrooms b) (Api.total_surface b)
       (Api.building_age b) fc sc] (5 # 100) = Py.Raise e ->
  ¬ is_http_exception e ->
  Api.post_predict loaded b
  = Io.Io (Py.Return {| Api.status_code := 500;
                        Api.body := Api.JsonDetail
                                      ("Prediction error: " +:+ Py.str_exn e) |})
      [Io.ModelPredict
         [feature_vector (Api.rooms b) (Api.bathrooms b) (Api.total_surface b)
            (Api.building_age b) fc sc] (5 # 100);
       Io.LoggerError ("Prediction error: " +:+ Py.str_exn e)].
Proof.
  intros Hvalid Hf Hs Htf Hts Hraise Hnot.
  unfold Api.post_predict. rewrite Hvalid.
  rewrite (predict_rent_cases loaded b fc sc Hf Hs Htf Hts). cbn zeta.
  rewrite Hraise. by destruct e.
Qed.

Lemma wrapper_failure_is_a_logged_server_error_witness :
  Api.post_predict unfitted MeanLearning.example
  = Io.Io (Py.Return
             {| Api.status_code := 500;
                Api.body := Api.JsonDetail
                  ("Prediction error: "
                   +:+ Py.str_exn (Py.RuntimeError
                         "This MapieRegressor instance is not fitted yet")) |})
      [Io.ModelPredict [feature_vector 2 1 (inject_Z 80) 10 1 3] (5 # 100);
       Io.LoggerError
         ("Prediction error: "
          +:+ Py.str_exn (Py.RuntimeError
                "This MapieRegressor instance is not fitted yet"))].
Proof.
  apply (wrapper_failure_is_a_logged_server_error unfitted MeanLearning.example 1 3).
  - reflexivity.
  - vm_compute. apply list_elem_of_In. vm_compute. tauto.
  - vm_compute. apply list_elem_of_In. vm_compute. tauto.
  - vm_compute. reflexivity.
  - vm_compute. reflexivity.
  - reflexivity.
  - simpl. tauto.
Defined.

(** X15. On an answer of [POST /predict] the wrapper was called at most once,
    and if it was, with one row of six numbers and a significance of 5%. *)
Theorem at_most_one_model_call_per_request `{Learning} (loaded : artifacts)
    (b : Api.ApartmentFeatures) :
  model_calls (Io.trace (Api.post_predict loaded b)) = []
  ∨ ∃ x, model_calls (Io.trace (Api.post_predict loaded b)) = [([x], (5 # 100)%Q)]
         ∧ length x = 6%nat.
Proof.
  unfold Api.post_predict. destruct (Api.validate b) as [|err errs]; [|by left].
  simpl.
  destruct (decide (Api.floor_material b ∈ LabelEncoder.classes_ (le_floor loaded)))
    as [Hf|Hf]; [|left; rewrite predict_rent_unknown_trace; by eauto].
  destruct (decide (Api.style b ∈ LabelEncoder.classes_ (le_style loaded)))
    as [Hs|Hs]; [|left; rewrite predict_rent_unknown_trace; by eauto].
  destruct (known_labels_codes loaded b Hf Hs) as (fc & sc & Htf & Hts).
  right. eexists. by rewrite (predict_rent_calls loaded b fc sc Hf Hs Htf Hts).
Qed.

(** The statuses of the application's answers to a request model. *)
Lemma request_model_status_codes `{Learning} (loaded : artifacts)
    (b : Api.ApartmentFeatures) :
  (∀ X e, Mapie.predict (conformal_model loaded) X (5 # 100) = Py.Raise e ->
          ¬ is_http_exception e) ->
  ∃ r, Io.outcome (Api.post_predict loaded b) = Py.Return r
       ∧ Api.status_code r ∈ [200; 400; 422; 500]
       ∧ (Api.status_code r = 422 ↔ Api.validate b ≠ [])
       ∧ (Api.status_code r = 400 ↔
          Api.validate b = []
          ∧ (Api.floor_material b ∉ LabelEncoder.classes_ (le_floor loaded)
             ∨ Api.style b ∉ LabelEncoder.classes_ (le_style loaded))).
Proof.
  intros Hlib. unfold Api.post_predict.
  destruct (Api.validate b) as [|err errs] eqn:Hvalid.
  2:{ eexists. split; [reflexivity|]. simpl.
      split_and!; [set_solver|done|]. split; [done|]. by intros [? _]. }
  simpl.
  destruct (decide (Api.floor_material b ∈ LabelEncoder.classes_ (le_floor loaded)))
    as [Hf|Hf].
  2:{ rewrite predict_rent_unknown_floor by done. eexists. split; [reflexivity|]. simpl.
      split_and!; [set_solver|done|]. split; [|done]. intros _. split; [done|by left]. }
  destruct (decide (Api.style b ∈ LabelEncoder.classes_ (le_style loaded))) as [Hs|Hs].
  2:{ rewrite predict_rent_unknown_style by done. eexists. split; [reflexivity|]. simpl.
      split_and!; [set_solver|done|]. split; [|done]. intros _. split; [done|by right]. }
  destruct (known_labels_codes loaded b Hf Hs) as (fc & sc & Htf & Hts).
  rewrite (predict_rent_cases loaded b fc sc Hf Hs Htf Hts). cbn zeta.
  destruct (Mapie.predict _ _ _) as [e|[prediction pis]] eqn:Hpredict; cbn.
  { specialize (Hlib _ _ Hpredict). destruct e; simpl in Hlib; [done|..]; cbn;
      (eexists; split; [reflexivity|]; simpl;
       split_and!; [set_solver|done|]; split; [done|]; intros [_ [?|?]]; done). }
  destruct (Py.getitem prediction 0) as [e|p] eqn:Hp; cbn.
  { unfold Py.getitem in Hp. destruct (prediction !! 0%nat); simplify_eq. eexists.
    split; [reflexivity|]. simpl.
    split_and!; [set_solver|done|]; split; [done|]; intros [_ [?|?]]; done. }
  destruct (Io.getitem3 pis 0 0 0) as [e|lo] eqn:Hlo; cbn.
  { assert (∃ msg, e = Py.IndexError msg) as [msg ->].
    { unfold Io.getitem3, Py.getitem in Hlo. cbn in Hlo.
      repeat (match type of Hlo with
              | context [match ?l !! ?i with _ => _ end] => destruct (l !! i)
              end; cbn in Hlo); simplify_eq; eauto. }
    eexists. split; [reflexivity|]. simpl.
    split_and!; [set_solver|done|]; split; [done|]; intros [_ [?|?]]; done. }
  destruct (Io.getitem3 pis 0 1 0) as [e|up] eqn:Hup; cbn.
  { assert (∃ msg, e = Py.IndexError msg) as [msg ->].
    { unfold Io.getitem3, Py.getitem in Hup. cbn in Hup.
      repeat (match type of Hup with
              | context [match ?l !! ?i with _ => _ end] => destruct (l !! i)
              end; cbn in Hup); simplify_eq; eauto. }
    eexists. split; [reflexivity|]. simpl.
    split_and!; [set_solver|done|]; split; [done|]; intros [_ [?|?]]; done. }
  eexists. split; [reflexivity|]. simpl.
  split_and!; [set_solver|done|]; split; [done|]; intros [_ [?|?]]; done.
Qed.


(** X16. If the wrapper raises none of the framework's HTTP exceptions, every
    answer of [POST /predict] to a body with its six fields present and of
    their declared types, the surface a finite number or an infinity, has
    status 200, 400, 422 or 500; it is 422 exactly
    when the surface is finite and a number is out of bounds, and 400
    exactly when the surface is finite, the numbers are in bounds and a
    label is unknown; a surface read as an infinity is answered by the
    server's own 500, and nothing is called or logged. *)
Theorem predict_status_codes `{Learning} (loaded : artifacts) (b : Wire.body) :
  (∀ X e, Mapie.predict (conformal_model loaded) X (5 # 100) = Py.Raise e ->
          ¬ is_http_exception e) ->
  ∃ a, Io.outcome (Wire.post_predict loaded b) = Py.Return a
       ∧ Wire.status_code a ∈ [200; 400; 422; 500]
       ∧ (Wire.status_code a = 422 ↔
          ∃ q, Wire.total_surface b = Wire.Finite q
               ∧ Api.validate (Wire.parsed b q) ≠ [])
       ∧ (Wire.status_code a = 400 ↔
          ∃ q, Wire.total_surface b = Wire.Finite q
               ∧ Api.validate (Wire.parsed b q) = []
               ∧ (Wire.floor_material b ∉ LabelEncoder.classes_ (le_floor loaded)
                  ∨ Wire.style b ∉ LabelEncoder.classes_ (le_style loaded)))
       ∧ (∀ negative, Wire.total_surface b = Wire.Infinity negative ->
            a = Wire.ServerError ∧ Io.trace (Wire.post_predict loaded b) = []).
Proof.
  intros Hlib. destruct (Wire.total_surface b) as [q|negative] eqn:Hq.
  - destruct (request_model_status_codes loaded (Wire.parsed b q) Hlib)
      as (r & Hr & Hstatus & H422 & H400).
    exists (Wire.Answer r). rewrite (post_predict_finite loaded b q Hq). simpl.
    rewrite Hr. split_and!; [done|done| | |done].
    + rewrite H422. split; [by exists q|]. by intros (q' & [= <-] & ?).
    + rewrite H400. split; [by exists q|]. by intros (q' & [= <-] & ?).
  - exists Wire.ServerError. rewrite (post_predict_infinite loaded b negative Hq). simpl.
    split_and!; [done|set_solver| | |done].
    + split; [done|]. by intros (q & ? & _).
    + split; [done|]. by intros (q & ? & _).
Qed.

Lemma predict_status_codes_witness :
  (∃ a, Io.outcome (Wire.post_predict MeanLearning.loaded (Wire.sent six_rooms))
        = Py.Return a
        ∧ Wire.status_code a = 422)
  ∧ (∃ a, Io.outcome (Wire.post_predict MeanLearning.loaded overflowing_surface)
          = Py.Return a
          ∧ a = Wire.ServerError).
Proof.
  split.
  - destruct (predict_status_codes MeanLearning.loaded (Wire.sent six_rooms))
      as (a & Ha & _ & H422 & _).
    + intros X e He. discriminate He.
    + exists a. split; [done|]. apply H422. by exists (inject_Z 80).
  - destruct (predict_status_codes MeanLearning.loaded overflowing_surface)
      as (a & Ha & _ & _ & _ & Hinf).
    + intros X e He. discriminate He.
    + exists a. split; [done|]. by apply (Hinf false).
Defined.

(** ** The form: limits, warnings and failures *)

Section FormFacts.
Context `{Learning}.
Variable loaded : artifacts.
Import Io App.

Lemma warning_shown (w : widgets) (msg : string) :
  StWarning msg ∈ trace (script loaded w) ↔
  (msg = surface_warning ∧ total_surface w < rooms w * 15)
  ∨ (msg = bathrooms_warning ∧ bathrooms w > rooms w).
Proof.
  rewrite script_run. simpl. rewrite !elem_of_app. split.
  - intros [Hin|[Hin|Hin]].
    + case_bool_decide; [|by apply elem_of_nil in Hin].
      apply list_elem_of_singleton in Hin. left. by simplify_eq.
    + case_bool_decide; [|by apply elem_of_nil in Hin].
      apply list_elem_of_singleton in Hin. right. by simplify_eq.
    + exfalso. destruct (calculate w); [|by apply elem_of_nil in Hin].
      pose proof (quiet_on_calculate loaded w) as Hq. unfold quiet in Hq.
      rewrite Forall_forall in Hq. by apply (Hq _ Hin).
  - intros [[-> Hsmall]|[-> Hmany]].
    + left. rewrite bool_decide_eq_true_2 by done. by apply list_elem_of_singleton.
    + right. left. rewrite bool_decide_eq_true_2 by done. by apply list_elem_of_singleton.
Qed.

(** The submit branch on known labels, case by case on what the wrapper
    returns. *)
Lemma on_calculate_cases (w : widgets) (fc sc : Z) :
  LabelEncoder.transform (le_floor loaded) [floor_material w] = Py.Return [fc] ->
  LabelEncoder.transform (le_style loaded) [style w] = Py.Return [sc] ->
  let x := feature_vector (rooms w) (bathrooms w) (inject_Z (total_surface w))
             (building_age w) fc sc in
  match Mapie.predict (conformal_model loaded) [x] (5 # 100) with
  | Py.Raise e =>
      on_calculate loaded w
      = Io (Py.Raise e)
          [last_prediction w; ModelPredict [x] (5 # 100);
           StError ("Prediction Error: " +:+ Py.str_exn e); StWrite "Input Data:"]
  | Py.Return (prediction, pis) =>
      match (lo ← getitem3 pis 0 0 0; up ← getitem3 pis 0 1 0;
             p ← Py.getitem prediction 0; mret (lo, up, p)) with
      | Py.Raise e =>
          on_calculate loaded w
          = Io (Py.Raise e)
              [last_prediction w; ModelPredict [x] (5 # 100);
               StExpander "🔍 Debug Information"; StWrite "Input Features:";
               StWrite "Feature Names:"; StWrite "Prediction Shape:";
               StWrite "Intervals Shape:"]
      | Py.Return (lo, up, p) =>
          on_calculate loaded w
          = Io (Py.Return tt)
              [last_prediction w; ModelPredict [x] (5 # 100);
               StExpander "🔍 Debug Information"; StWrite "Input Features:";
               StWrite "Feature Names:"; StWrite "Prediction Shape:";
               StWrite "Intervals Shape:";
               StMetric "Lower Bound" (Py.round2 lo) (Some (Py.round2 (lo - p)));
               StMetric "Best Estimate" (Py.round2 p) None;
               StMetric "Upper Bound" (Py.round2 up) (Some (Py.round2 (up - p)));
               StPlotlyChart
                 {| q1 := lo; median := p; q3 := up; lowerfence := lo;
                    upperfence := up; mean := p |}
                 (lo - (up - lo) * (1 # 10)) (up + (up - lo) * (1 # 10));
               StExpander "📊 Detailed Analysis"]
      end
  end.
Proof.
  intros Htf Hts x. unfold on_calculate, last_prediction. rewrite Htf, Hts.
  cbn -[Frame.select]. rewrite select_input_data. fold x. cbn.
  destruct (Mapie.predict (conformal_model loaded) [x] (5 # 100))
    as [e|[prediction pis]]; cbn; [done|].
  destruct (getitem3 pis 0 0 0) as [e|lo]; cbn; [done|].
  destruct (getitem3 pis 0 1 0) as [e|up]; cbn; [done|].
  by destruct (Py.getitem prediction 0) as [e|point].
Qed.
End FormFacts.

(** X18. Whatever a user can enter in the form is a request the service accepts:
    the limits of the number inputs are within the bounds of the request
    model and the select boxes offer the encoders' classes, so the body of
    the same values passes validation and reaches the wrapper. *)
Theorem form_inputs_pass_the_service `{Learning} (loaded : artifacts) (w : App.widgets) :
  Widgets.enterable loaded w ->
  Api.validate (body_of w) = []
  ∧ model_calls (Io.trace (Api.post_predict loaded (body_of w))) ≠ [].
Proof.
  intros (Hr & Hb & Hs & Ha & Hf & Hst). unfold Widgets.admits in *. simpl in *.
  assert (Api.validate (body_of w) = []) as Hvalid.
  { apply validate_nil. simpl. rewrite <- !Zle_Qle. lia. }
  split; [done|]. unfold Api.post_predict. rewrite Hvalid. simpl.
  destruct (known_labels_codes loaded (body_of w) Hf Hst) as (fc & sc & Htf & Hts).
  by rewrite (predict_rent_calls loaded (body_of w) fc sc Hf Hst Htf Hts).
Qed.

Lemma form_inputs_pass_the_service_witness :
  Api.validate (body_of example_form) = []
  ∧ model_calls (Io.trace (Api.post_predict MeanLearning.loaded (body_of example_form)))
    ≠ [].
Proof.
  apply form_inputs_pass_the_service. unfold Widgets.enterable, Widgets.admits. simpl.
  split_and!; try lia; vm_compute; apply list_elem_of_In; vm_compute; tauto.
Defined.

(** X19. Within the limits of the inputs the two warnings exclude each other:
    the surface warning needs three rooms or more, the bathrooms warning two
    rooms or fewer; with the initial values of the inputs neither shows. *)
Theorem warnings_exclude_each_other `{Learning} (loaded : artifacts) (w : App.widgets) :
  Widgets.enterable loaded w ->
  (Io.StWarning App.surface_warning ∈ Io.trace (App.script loaded w) -> 3 <= App.rooms w)
  ∧ (Io.StWarning App.bathrooms_warning ∈ Io.trace (App.script loaded w) ->
     App.rooms w <= 2)
  ∧ ¬ (Io.StWarning App.surface_warning ∈ Io.trace (App.script loaded w)
       ∧ Io.StWarning App.bathrooms_warning ∈ Io.trace (App.script loaded w))
  ∧ (App.rooms w = Widgets.value Widgets.rooms ->
     App.bathrooms w = Widgets.value Widgets.bathrooms ->
     App.total_surface w = Widgets.value Widgets.total_surface ->
     ∀ msg, Io.StWarning msg ∉ Io.trace (App.script loaded w)).
Proof.
  intros (Hr & Hb & Hs & Ha & _). unfold Widgets.admits in *. simpl in *.
  assert (Io.StWarning App.surface_warning ∈ Io.trace (App.script loaded w) ->
          3 <= App.rooms w) as Hsurface.
  { intros [[_ ?]|[Heq _]]%warning_shown; [lia | discriminate Heq]. }
  assert (Io.StWarning App.bathrooms_warning ∈ Io.trace (App.script loaded w) ->
          App.rooms w <= 2) as Hbath.
  { intros [[Heq _]|[_ ?]]%warning_shown; [discriminate Heq | lia]. }
  split_and!; [done|done| |].
  - intros [?%Hsurface ?%Hbath]. lia.
  - intros Hr0 Hb0 Hs0 msg [[_ ?]|[_ ?]]%warning_shown; lia.
Qed.

Lemma warnings_exclude_each_other_witness :
  ¬ (Io.StWarning App.surface_warning ∈ Io.trace (App.script MeanLearning.loaded example_form)
     ∧ Io.StWarning App.bathrooms_warning
         ∈ Io.trace (App.script MeanLearning.loaded example_form)).
Proof.
  apply (warnings_exclude_each_other MeanLearning.loaded example_form).
  unfold Widgets.enterable, Widgets.admits. simpl.
  split_and!; try lia; vm_compute; apply list_elem_of_In; vm_compute; tauto.
Defined.

(** X20. Without a press of the button a run of the script shows at most the two
    warnings: it stores nothing in the session, does not encode, and does
    not call the wrapper. *)
Theorem no_submit_no_prediction `{Learning} (loaded : artifacts) (w : App.widgets) :
  App.calculate w = false ->
  Io.outcome (App.script loaded w) = Py.Return tt
  ∧ Forall is_warning (Io.trace (App.script loaded w))
  ∧ (length (Io.trace (App.script loaded w)) <= 2)%nat
  ∧ model_calls (Io.trace (App.script loaded w)) = [].
Proof.
  intros Hidle. rewrite script_run, Hidle. simpl. rewrite app_nil_r.
  by repeat case_bool_decide; split_and!; simpl; repeat constructor.
Qed.

Lemma no_submit_no_prediction_witness :
  Io.outcome (App.script MeanLearning.loaded
    {| App.rooms := 3; App.bathrooms := 1; App.total_surface := 40;
       App.building_age := 10; App.floor_material := "Tile";
       App.style := "Modern"; App.calculate := false |}) = Py.Return tt.
Proof. apply no_submit_no_prediction. reflexivity. Defined.

(** X21. When the wrapper raises on submit, the form shows the error with the
    text of the exception, writes the input data, and raises the same
    exception again: no metric and no chart is shown. *)
Theorem form_shows_and_reraises_wrapper_failure `{Learning} (loaded : artifacts)
    (w : App.widgets) (fc sc : Z) (e : Py.exn) :
  App.calculate w = true ->
  LabelEncoder.transform (le_floor loaded) [App.floor_material w] = Py.Return [fc] ->
  LabelEncoder.transform (le_style loaded) [App.style w] = Py.Return [sc] ->
  Mapie.predict (conformal_model loaded)
    [feature_vector (App.rooms w) (App.bathrooms w) (inject_Z (App.total_surface w))
       (App.building_age w) fc sc] (5 # 100) = Py.Raise e ->
  Io.outcome (App.script loaded w) = Py.Raise e
  ∧ (∃ shown, Forall is_warning shown
       ∧ Io.trace (App.script loaded w)
         = shown ++
           [last_prediction w;
            Io.ModelPredict
              [feature_vector (App.rooms w) (App.bathrooms w)
                 (inject_Z (App.total_surface w)) (App.building_age w) fc sc] (5 # 100);
            Io.StError ("Prediction Error: " +:+ Py.str_exn e);
            Io.StWrite "Input Data:"]).
Proof.
  intros Hsubmit Htf Hts Hraise.
  pose proof (on_calculate_cases loaded w fc sc Htf Hts) as Hrun. cbn zeta in Hrun.
  rewrite Hraise in Hrun. rewrite script_run, Hsubmit, Hrun. simpl.
  split; [done|]. eexists. rewrite app_assoc. split; [|reflexivity].
  apply Forall_app. by split; case_bool_decide; repeat constructor.
Qed.

Lemma form_shows_and_reraises_wrapper_failure_witness :
  Io.outcome (App.script unfitted example_form)
  = Py.Raise (Py.RuntimeError "This MapieRegressor instance is not fitted yet").
Proof.
  apply (form_shows_and_reraises_wrapper_failure unfitted example_form 1 3);
    vm_compute; reflexivity.
Defined.

(** X22. A label the encoders do not know makes the submit branch raise the
    encoder's [ValueError] right after the session state is stored: the
    wrapper is not called and the form shows no error message of its own. *)
Theorem form_raises_on_unknown_label `{Learning} (loaded : artifacts) (w : App.widgets) :
  App.floor_material w ∉ LabelEncoder.classes_ (le_floor loaded)
  ∨ App.style w ∉ LabelEncoder.classes_ (le_style loaded) ->
  ∃ l, (l = App.floor_material w ∨ l = App.style w)
       ∧ App.on_calculate loaded w
         = Io.Io (Py.Raise (Py.ValueError
                    ("y contains previously unseen labels: " +:+ Py.repr l)))
             [last_prediction w].
Proof.
  intros Hunknown. unfold App.on_calculate, last_prediction.
  destruct (decide (App.floor_material w ∈ LabelEncoder.classes_ (le_floor loaded)))
    as [Hf|Hf].
  - destruct Hunknown as [?|Hs]; [done|].
    destruct (transform_seen _ _ Hf) as (i & Hi & _).
    exists (App.style w). split; [by right|].
    rewrite Hi, (transform_unseen _ _ Hs). reflexivity.
  - exists (App.floor_material w). split; [by left|].
    rewrite (transform_unseen _ _ Hf). reflexivity.
Qed.

Lemma form_raises_on_unknown_label_witness :
  ∃ l, (l = "Marble" ∨ l = "Modern")
       ∧ App.on_calculate MeanLearning.loaded
           {| App.rooms := 2; App.bathrooms := 1; App.total_surface := 80;
              App.building_age := 10; App.floor_material := "Marble";
              App.style := "Modern"; App.calculate := true |}
         = Io.Io (Py.Raise (Py.ValueError
                    ("y contains previously unseen labels: " +:+ Py.repr l)))
             [last_prediction
                {| App.rooms := 2; App.bathrooms := 1; App.total_surface := 80;
                   App.building_age := 10; App.floor_material := "Marble";
                   App.style := "Modern"; App.calculate := true |}].
Proof.
  apply (form_raises_on_unknown_label MeanLearning.loaded
           {| App.rooms := 2; App.bathrooms := 1; App.total_surface := 80;
              App.building_age := 10; App.floor_material := "Marble";
              App.style := "Modern"; App.calculate := true |}).
  left. vm_compute. intros Hin%list_elem_of_In. vm_compute in Hin.
  repeat (destruct Hin as [Hin|Hin]; [discriminate|]). exact Hin.
Defined.

(** X23. On a successful submit the chart is one box whose quartiles and fences
    are the two bounds and whose median and mean are the point estimate;
    the bounds being in order, the range of its axis contains the interval,
    padded by a tenth of its width on each side. *)
Theorem chart_shows_the_interval `{Learning} (loaded : artifacts) (w : App.widgets)
    (fc sc : Z) (prediction : list Q) (pis : list (list (list Q))) (point lo up : Q) :
  App.calculate w = true ->
  LabelEncoder.transform (le_floor loaded) [App.floor_material w] = Py.Return [fc] ->
  LabelEncoder.transform (le_style loaded) [App.style w] = Py.Return [sc] ->
  Mapie.predict (conformal_model loaded)
    [feature_vector (App.rooms w) (App.bathrooms w) (inject_Z (App.total_surface w))
       (App.building_age w) fc sc] (5 # 100) = Py.Return (prediction, pis) ->
  Py.getitem prediction 0 = Py.Return point ->
  Io.getitem3 pis 0 0 0 = Py.Return lo ->
  Io.getitem3 pis 0 1 0 = Py.Return up ->
  (lo <= up)%Q ->
  ∃ low high,
    charts (Io.trace (App.script loaded w))
    = [({| Io.q1 := lo; Io.median := point; Io.q3 := up; Io.lowerfence := lo;
           Io.upperfence := up; Io.mean := point |}, low, high)]
    ∧ (low <= lo)%Q ∧ (up <= high)%Q
    ∧ (high - low == (12 # 10) * (up - lo))%Q.
Proof.
  intros Hsubmit Htf Hts Hpredict Hpoint Hlo Hup Hordered.
  pose proof (on_calculate_cases loaded w fc sc Htf Hts) as Hrun. cbn zeta in Hrun.
  rewrite Hpredict, Hlo in Hrun. cbn -[App.on_calculate] in Hrun.
  rewrite Hup in Hrun. cbn -[App.on_calculate] in Hrun.
  rewrite Hpoint in Hrun. cbn -[App.on_calculate] in Hrun.
  exists (lo - (up - lo) * (1 # 10))%Q, (up + (up - lo) * (1 # 10))%Q.
  split_and!; [|lra|lra|ring].
  rewrite script_run, Hsubmit, Hrun. simpl.
  unfold charts. rewrite !omap_app. by repeat case_bool_decide.
Qed.

Lemma chart_shows_the_interval_witness :
  ∃ low high,
    charts (Io.trace (App.script MeanLearning.loaded example_form))
    = [({| Io.q1 := 1500 - 250; Io.median := 1500; Io.q3 := 1500 + 250;
           Io.lowerfence := 1500 - 250; Io.upperfence := 1500 + 250;
           Io.mean := 1500 |}%Q, low, high)]
    ∧ (low <= 1500 - 250)%Q ∧ (1500 + 250 <= high)%Q
    ∧ (high - low == (12 # 10) * (1500 + 250 - (1500 - 250)))%Q.
Proof.
  apply (chart_shows_the_interval MeanLearning.loaded example_form 1 3
           [1500%Q] [[[1500 - 250]; [1500 + 250]]]%Q); try (vm_compute; reflexivity).
  vm_compute. discriminate.
Defined.

(** ** The printed evaluation *)

Section EvaluationFacts.
Import Evaluation.

Lemma length_positive {A} (l : list A) : l ≠ [] -> (0 < inject_Z (Z.of_nat (length l)))%Q.
Proof.
  intros Hne. destruct l as [|a l]; [done|].
  rewrite <- (Zlt_Qlt 0). simpl. lia.
Qed.

Lemma inject_length_cons {A} (a : A) (l : list A) :
  (inject_Z (Z.of_nat (length (a :: l))) == inject_Z (Z.of_nat (length l)) + 1)%Q.
Proof. simpl length. rewrite Nat2Z.inj_succ, <- Z.add_1_r, inject_Z_plus. reflexivity. Qed.

Lemma total_indicators (bs : list bool) :
  (0 <= total (indicator <$> bs))%Q
  ∧ (total (indicator <$> bs) <= inject_Z (Z.of_nat (length bs)))%Q
  ∧ ((total (indicator <$> bs) == inject_Z (Z.of_nat (length bs)))%Q
     ↔ Forall (fun b => b = true) bs).
Proof.
  induction bs as [|b bs (IH0 & IH1 & IH)].
  - split_and!; [done..|]. split; [constructor | reflexivity].
  - rewrite fmap_cons, inject_length_cons. unfold total in *. simpl foldr.
    destruct b.
    + change (indicator true) with 1%Q. split_and!; [lra..|].
      rewrite Forall_cons. split; [intros Heq; split; [done|apply IH; lra]|].
      intros [_ Hall]. apply IH in Hall. lra.
    + change (indicator false) with 0%Q. split_and!; [lra..|].
      rewrite Forall_cons. split; [intros Heq; lra | by intros [? _]].
Qed.

Lemma total_squares (l : list Q) :
  Forall (fun v => 0 <= v)%Q l ->
  (0 <= total l)%Q ∧ ((total l == 0)%Q ↔ Forall (fun v => v == 0)%Q l).
Proof.
  induction 1 as [|v l Hv _ (IH0 & IH)]; unfold total in *; simpl.
  - split; [done|]. split; [constructor | reflexivity].
  - split; [lra|]. rewrite Forall_cons. split.
    + intros Heq. split; [lra | apply IH; lra].
    + intros [Hv0 Hall]. apply IH in Hall. lra.
Qed.

Lemma mean_of_share (t n : Q) :
  (0 < n)%Q -> (0 <= t)%Q -> (t <= n)%Q ->
  (0 <= t / n)%Q ∧ (t / n <= 1)%Q ∧ ((t / n == 1)%Q ↔ (t == n)%Q).
Proof.
  intros Hn Ht0 Ht1.
  assert (~ n == 0)%Q as Hne by lra.
  assert (t == t / n * n)%Q as Ht by (field; done).
  split_and!.
  - apply Qle_shift_div_l; lra.
  - apply Qle_shift_div_r; lra.
  - split; intros Heq.
    + rewrite Ht, Heq. ring.
    + rewrite Heq. field. done.
Qed.

Lemma square_nonneg (x : Q) : (0 <= x * x)%Q.
Proof. unfold Qle, Qmult. simpl. nia. Qed.

Lemma mean_zero (t n : Q) : (0 < n)%Q -> ((t / n == 0)%Q ↔ (t == 0)%Q).
Proof.
  intros Hn. assert (~ n == 0)%Q as Hne by lra.
  assert (t == t / n * n)%Q as Ht by (field; done).
  split; intros Heq.
  - rewrite Ht, Heq. ring.
  - rewrite Heq. field. done.
Qed.
End EvaluationFacts.

(** X24. The coverage the trainer prints is a share: between 0 and 1, and 1
    exactly when every held-out label lies within its interval, bounds
    included. *)
Theorem coverage_is_the_share_inside (y_test : list Q) (y_pis : list (list (list Q)))
    (c : Q) :
  Evaluation.coverage y_test y_pis = Py.Return (Some c) ->
  (0 <= c)%Q ∧ (c <= 1)%Q
  ∧ ∃ lower upper,
      Evaluation.bound_column y_pis 0 = Py.Return lower
      ∧ Evaluation.bound_column y_pis 1 = Py.Return upper
      ∧ length lower = length y_test ∧ length upper = length y_test
      ∧ ((c == 1)%Q ↔
         ∀ i y lo up, y_test !! i = Some y -> lower !! i = Some lo ->
                      upper !! i = Some up -> (lo <= y)%Q ∧ (y <= up)%Q).
Proof.
  unfold Evaluation.coverage, Evaluation.compare.
  destruct (Evaluation.bound_column y_pis 0) as [e|lower]; [done|]. cbn.
  case_bool_decide as Hl; [|done]. cbn.
  destruct (Evaluation.bound_column y_pis 1) as [e|upper]; [done|]. cbn.
  case_bool_decide as Hu; [|done]. cbn.
  set (bs := zip_with andb (zip_with (fun y lo => Qle_bool lo y) y_test lower)
               (zip_with (fun y up => Qle_bool y up) y_test upper)).
  unfold Evaluation.np_mean.
  destruct (Evaluation.indicator <$> bs) as [|v vs] eqn:Hvs; [done|].
  intros [= Hc].
  assert (c = (Evaluation.total (Evaluation.indicator <$> bs)
               / inject_Z (Z.of_nat (length (Evaluation.indicator <$> bs))))%Q) as ->.
  { rewrite Hvs, <- Hc. reflexivity. }
  destruct (total_indicators bs) as (H0 & H1 & Hall).
  assert (length (Evaluation.indicator <$> bs) = length bs) as Hlen by apply length_fmap.
  assert (0 < inject_Z (Z.of_nat (length bs)))%Q as Hpos.
  { rewrite <- Hlen. apply length_positive. by rewrite Hvs. }
  rewrite Hlen.
  destruct (mean_of_share _ _ Hpos H0 H1) as (Hc0 & Hc1 & Hone).
  split_and!; [done..|]. exists lower, upper. split_and!; [done..|].
  rewrite Hone, Hall, Forall_lookup. unfold bs. split.
  - intros Hbs i y lo up Hy Hlo Hup.
    specialize (Hbs i (Qle_bool lo y && Qle_bool y up)).
    rewrite !lookup_zip_with, Hy, Hlo, Hup in Hbs. simpl in Hbs.
    specialize (Hbs eq_refl). apply andb_true_iff in Hbs as [? ?].
    by split; apply Qle_bool_iff.
  - intros Hin i b. rewrite !lookup_zip_with.
    destruct (y_test !! i) as [y|] eqn:Hy; [|done]. simpl.
    destruct (lower !! i) as [lo|] eqn:Hlo; [|done]. simpl.
    destruct (upper !! i) as [up|] eqn:Hup; [|done]. simpl.
    intros [= <-]. destruct (Hin i y lo up Hy Hlo Hup) as [? ?].
    apply andb_true_iff. by split; apply Qle_bool_iff.
Qed.

Lemma coverage_is_the_share_inside_witness :
  (0 <= (1 + (0 + 0)) / inject_Z 2)%Q ∧ ((1 + (0 + 0)) / inject_Z 2 <= 1)%Q.
Proof.
  destruct (coverage_is_the_share_inside [10; 20]%Q [[[5]; [15]]; [[5]; [15]]]%Q
              ((1 + (0 + 0)) / inject_Z 2)%Q) as (H0 & H1 & _).
  - reflexivity.
  - by split.
Defined.

(** X25. The mean squared error the trainer prints is not negative, and is zero
    exactly when every held-out prediction equals its label. *)
Theorem mean_squared_error_is_zero_iff_exact (y_true y_pred : list Q) (m : Q) :
  Evaluation.mean_squared_error y_true y_pred = Py.Return m ->
  (0 <= m)%Q ∧ length y_true = length y_pred ∧ y_true ≠ []
  ∧ ((m == 0)%Q ↔ Forall2 Qeq y_true y_pred).
Proof.
  unfold Evaluation.mean_squared_error. case_bool_decide as Hlen; [|done].
  set (sq := zip_with (fun a b => (a - b) * (a - b))%Q y_true y_pred).
  unfold Evaluation.np_mean. destruct sq as [|v vs] eqn:Hsq; [done|].
  intros [= Hm].
  assert (m = (Evaluation.total sq / inject_Z (Z.of_nat (length sq)))%Q) as ->.
  { rewrite Hsq, <- Hm. reflexivity. }
  assert (Forall (fun v => 0 <= v)%Q sq) as Hnonneg.
  { unfold sq. apply Forall_lookup. intros i s. rewrite lookup_zip_with.
    destruct (y_true !! i); [|done]. simpl. destruct (y_pred !! i); [|done]. simpl.
    intros [= <-]. apply square_nonneg. }
  destruct (total_squares sq Hnonneg) as [Hsum Hzero].
  assert (0 < inject_Z (Z.of_nat (length sq)))%Q as Hpos.
  { apply length_positive. by rewrite Hsq. }
  assert (y_true ≠ []) as Hne.
  { intros ->. unfold sq in Hsq. discriminate Hsq. }
  split_and!; [apply Qle_shift_div_l; lra|done|done|].
  rewrite (mean_zero _ _ Hpos), Hzero. unfold sq.
  rewrite Forall_lookup, Forall2_lookup. split.
  - intros Hall i. specialize (Hall i). rewrite lookup_zip_with in Hall.
    destruct (y_true !! i) as [a|] eqn:Ha, (y_pred !! i) as [b|] eqn:Hb.
    + constructor. specialize (Hall _ eq_refl).
      assert ((a - b) == 0)%Q; [|lra].
      destruct (Qmult_integral _ _ Hall); done.
    + apply lookup_lt_Some in Ha. apply lookup_ge_None in Hb. lia.
    + apply lookup_lt_Some in Hb. apply lookup_ge_None in Ha. lia.
    + constructor.
  - intros Hall i s. rewrite lookup_zip_with. specialize (Hall i).
    destruct (y_true !! i) as [a|], (y_pred !! i) as [b|]; simpl; try done.
    intros [= <-]. inversion Hall as [? ? Hab|]; subst. rewrite Hab. ring.
Qed.

Lemma mean_squared_error_is_zero_iff_exact_witness :
  (0 <= (((3 - 1) * (3 - 1) + 0) / inject_Z 1))%Q.
Proof.
  apply (mean_squared_error_is_zero_iff_exact [3%Q] [1%Q]). reflexivity.
Defined.

(** ** Selecting columns by name *)

Section FrameFacts.
Import Frame.

Lemma column_step (k : string) (x : Q) (r : record) (name : string) :
  k ≠ name -> column ((k, x) :: r) name = column r name.
Proof.
  intros Hne. unfold column. simpl.
  destruct (decide (k = name)) as [?|_]; [done|].
  by destruct (list_find (fun kv => kv.1 = name) r) as [[i kv]|].
Qed.

Lemma column_present (r : record) (name : string) (v : Q) :
  NoDup (r.*1) -> (name, v) ∈ r -> column r name = Py.Return v.
Proof.
  induction r as [|[k x] r IH]; intros Hnd Hin; [by apply elem_of_nil in Hin|].
  rewrite fmap_cons in Hnd. apply NoDup_cons in Hnd as [Hk Hnd].
  destruct (decide (k = name)) as [->|Hne].
  - apply elem_of_cons in Hin as [Heq|Hin].
    + simplify_eq. unfold column. simpl. by rewrite decide_True.
    + exfalso. apply Hk. apply list_elem_of_fmap. by exists (name, v).
  - rewrite column_step by done. apply IH; [done|].
    apply elem_of_cons in Hin as [Heq|Hin]; [by simplify_eq | done].
Qed.

Lemma column_missing (r : record) (name : string) :
  name ∉ r.*1 -> column r name = Py.Raise (Py.KeyError (Py.repr name)).
Proof.
  induction r as [|[k x] r IH]; intros Hnot; [done|].
  rewrite fmap_cons, not_elem_of_cons in Hnot. destruct Hnot as [Hne Hnot].
  rewrite column_step by done. by apply IH.
Qed.

Lemma mapM_result_ext {A B} (f g : A -> Py.result B) (l : list A) :
  (∀ a, f a = g a) -> mapM f l = mapM g l.
Proof. intros Hfg. induction l as [|a l IH]; [done|]. simpl. by rewrite Hfg, IH. Qed.
End FrameFacts.

(** X26. [df[names]] selects by name: with distinct column names the order of
    the columns in the frame does not change the selected values, and a
    name that is no column raises [KeyError]. *)
Theorem selection_is_by_name (names : list string) (r r' : Frame.record) :
  NoDup (r.*1) -> r ≡ₚ r' ->
  Frame.select names r = Frame.select names r'
  ∧ (∀ name, name ∉ r.*1 ->
             Frame.column r name = Py.Raise (Py.KeyError (Py.repr name)))
  ∧ (∀ name v, (name, v) ∈ r -> Frame.column r' name = Py.Return v).
Proof.
  intros Hnd Hperm.
  assert (NoDup (r'.*1)) as Hnd' by (by rewrite <- Hperm).
  assert (∀ name, Frame.column r name = Frame.column r' name) as Hsame.
  { intros name. destruct (decide (name ∈ r.*1)) as [Hin|Hnot].
    - apply list_elem_of_fmap in Hin as ([k v] & -> & Hin). simpl.
      rewrite (column_present r k v Hnd Hin).
      symmetry. apply column_present; [done|]. by rewrite <- Hperm.
    - rewrite (column_missing r name Hnot).
      symmetry. apply column_missing. by rewrite <- Hperm. }
  split_and!.
  - unfold Frame.select. by apply mapM_result_ext.
  - intros name. apply column_missing.
  - intros name v Hin. rewrite <- Hsame. by apply column_present.
Qed.

Lemma selection_is_by_name_witness :
  Frame.select App.features
    [("rooms", inject_Z 2); ("bathrooms", inject_Z 1); ("total_surface", inject_Z 80);
     ("building_age", inject_Z 10); ("floor_material_encoded", inject_Z 1);
     ("style_encoded", inject_Z 3)]
  = Frame.select App.features
      [("style_encoded", inject_Z 3); ("rooms", inject_Z 2); ("bathrooms", inject_Z 1);
       ("total_surface", inject_Z 80); ("building_age", inject_Z 10);
       ("floor_material_encoded", inject_Z 1)].
Proof.
  apply selection_is_by_name.
  - simpl. apply NoDup_ListNoDup. repeat constructor; simpl; intuition discriminate.
  - symmetry.
    apply (Permutation_cons_append
             [("rooms", inject_Z 2); ("bathrooms", inject_Z 1);
              ("total_surface", inject_Z 80); ("building_age", inject_Z 10);
              ("floor_material_encoded", inject_Z 1)]
             ("style_encoded", inject_Z 3)).
Defined.
